(** * ODLA on DNNL: a shallow embedding of [odla_dnnl.cc] and [constant.cc]

    The development follows the two source files:

    - [Dnnl] is a symbolic model of the parts of the DNNL (oneDNN) C++ API
      the lowering code calls: data types, format tags, memory descriptors,
      memory objects with shared-handle semantics, and the reorder
      primitive on plain strided layouts.
    - [Odla] embeds [ODLA/platforms/odla_dnnl.cc]: the shape and layout
      helpers, the value registry, the op-lowering functions and the two
      execution modes, written in a small state-and-abort monad.
    - [Halo] embeds the constructor of [lib/ir/constant.cc].

    Integers of the source are [Z]; the 32-bit accumulator of
    [GetTotalElements] has its wrap-around written out. *)

From Stdlib Require Import ZArith Lia List Bool.
From stdpp Require Import base gmap strings list.

Local Open Scope Z_scope.

(* ===================================================================== *)
(** ** The DNNL library, as far as the lowering code sees it *)
(* ===================================================================== *)

Module Dnnl.

(** [dnnl::memory::data_type], the four members the source names. *)
Inductive data_type := dt_undef | f32 | s32 | bf16.

#[global] Instance data_type_eq_dec : EqDecision data_type.
Proof. solve_decision. Defined.

(** Bytes per element of a data type. *)
Definition sizeof (dt : data_type) : Z :=
  match dt with
  | dt_undef => 0
  | f32 => 4
  | s32 => 4
  | bf16 => 2
  end.

(** [dnnl::memory::format_tag]. The library names one plain layout by the
    order of its dimension letters, outermost first; [nchw], [oihw] and the
    like are aliases of those letter tags in [dnnl.hpp]. *)
Inductive format_tag :=
| tag_undef | tag_any
| tag_a | tag_ab | tag_abc | tag_abcd | tag_abcde | tag_abcdef
| tag_acdb | tag_cdba | tag_decab | tag_bacd | tag_acbde.

#[global] Instance format_tag_eq_dec : EqDecision format_tag.
Proof. solve_decision. Defined.

Definition tag_nc := tag_ab.
Definition tag_nchw := tag_abcd.
Definition tag_nhwc := tag_acdb.
Definition tag_hwio := tag_cdba.
Definition tag_hwigo := tag_decab.
Definition tag_oihw := tag_abcd.
Definition tag_goihw := tag_abcde.
Definition tag_iohw := tag_bacd.
Definition tag_giohw := tag_acbde.

(** The dimension order a plain tag stands for, outermost dimension first. *)
Definition tag_order (t : format_tag) : option (list nat) :=
  match t with
  | tag_undef | tag_any => None
  | tag_a => Some [0]
  | tag_ab => Some [0; 1]
  | tag_abc => Some [0; 1; 2]
  | tag_abcd => Some [0; 1; 2; 3]
  | tag_abcde => Some [0; 1; 2; 3; 4]
  | tag_abcdef => Some [0; 1; 2; 3; 4; 5]
  | tag_acdb => Some [0; 2; 3; 1]
  | tag_cdba => Some [2; 3; 1; 0]
  | tag_decab => Some [3; 4; 2; 0; 1]
  | tag_bacd => Some [1; 0; 2; 3]
  | tag_acbde => Some [0; 2; 1; 3; 4]
  end%nat.

(** Strides of a packed layout with the given dimension order: the
    innermost dimension has stride 1, each one further out the stride of
    its inner neighbour times that neighbour's extent. The result pairs
    each dimension with its stride and carries the running product. *)
Fixpoint order_strides (ord : list nat) (dims : list Z) : list (nat * Z) * Z :=
  match ord with
  | [] => ([], 1)
  | k :: rest =>
      let '(l, p) := order_strides rest dims in
      ((k, p) :: l, p * nth k dims 0)
  end.

Fixpoint assoc_stride (k : nat) (l : list (nat * Z)) : Z :=
  match l with
  | [] => 0
  | (j, s) :: l' => if Nat.eqb j k then s else assoc_stride k l'
  end.

Definition packed_strides (ord : list nat) (dims : list Z) : list Z :=
  let l := fst (order_strides ord dims) in
  map (fun k => assoc_stride k l) (seq 0 (length dims)).

(** The layout part of a memory descriptor. [fmt_blocked] is a plain
    strided layout; [fmt_opaque] stands for a layout the library picked
    itself (blocked or padded), known here only by an identifier and its
    size in bytes. *)
Inductive format_kind :=
| fmt_undef
| fmt_any
| fmt_blocked (strides : list Z)
| fmt_opaque (id : nat) (bytes : Z).

#[global] Instance format_kind_eq_dec : EqDecision format_kind.
Proof. solve_decision. Defined.

(** [dnnl::memory::desc]. *)
Record memory_desc := {
  md_dims : list Z;
  md_data_type : data_type;
  md_format : format_kind;
}.

#[global] Instance memory_desc_eq_dec : EqDecision memory_desc.
Proof. solve_decision. Defined.

(** [dnnl::memory::desc(dims, data_type, format_tag)]. A tag whose rank
    is not the rank of [dims] is refused by the library; the model gives
    such a descriptor the undefined layout. *)
Definition desc_by_tag (dims : list Z) (dt : data_type) (t : format_tag)
  : memory_desc :=
  {| md_dims := dims;
     md_data_type := dt;
     md_format :=
       match t with
       | tag_any => fmt_any
       | _ =>
           match tag_order t with
           | Some ord =>
               if Nat.eqb (length ord) (length dims)
               then fmt_blocked (packed_strides ord dims)
               else fmt_undef
           | None => fmt_undef
           end
       end |}.

(** [dnnl::memory::desc(dims, data_type, strides)]. *)
Definition desc_by_strides (dims : list Z) (dt : data_type) (strides : list Z)
  : memory_desc :=
  {| md_dims := dims; md_data_type := dt; md_format := fmt_blocked strides |}.

(** [rhs_md.data.format_desc.blocking.strides[i] = v]: a write into the
    stride array of a descriptor. Entries at or beyond the rank are not
    part of the layout and are not kept. *)
Definition set_stride (md : memory_desc) (i : nat) (v : Z) : memory_desc :=
  match md_format md with
  | fmt_blocked s =>
      {| md_dims := md_dims md; md_data_type := md_data_type md;
         md_format := fmt_blocked (<[i := v]> s) |}
  | _ => md
  end.

(** Number of elements spanned by a strided layout: one more than the
    largest element offset, and none when some extent is not positive. *)
Fixpoint span (dims strides : list Z) : Z :=
  match dims, strides with
  | d :: ds, s :: ss => (d - 1) * s + span ds ss
  | _, _ => 1
  end.

(** [desc.get_size()]: the bytes a buffer of this descriptor occupies. *)
Definition get_size (md : memory_desc) : Z :=
  match md_format md with
  | fmt_blocked s =>
      if forallb (fun d => 0 <? d) (md_dims md)
      then span (md_dims md) s * sizeof (md_data_type md)
      else 0
  | fmt_opaque _ bytes => bytes
  | fmt_undef | fmt_any => 0
  end.

(** Data handles. The engine hands out its own buffers; every other
    buffer is owned by the caller or by a constant. *)
Inductive pointer :=
| nullptr
| caller_ptr (n : nat)
| engine_ptr (n : nat).

#[global] Instance pointer_eq_dec : EqDecision pointer.
Proof. solve_decision. Defined.

(** The byte store: each buffer is addressed by its handle and a byte
    offset from its start. *)
Definition heap := pointer -> Z -> Byte.byte.

(** [memcpy(dst, src, n)]. The bytes are read from the store as it is
    before the call, which is what C specifies for buffers that do not
    overlap. *)
Definition memcpy (dst src : pointer) (n : Z) (h : heap) : heap :=
  fun p i =>
    if decide (p = dst) then
      if (0 <=? i) && (i <? n) then h src i else h p i
    else h p i.

(** A [dnnl::memory] object: a descriptor and a data handle. The C++ class
    is a reference-counted handle, so copies of a [dnnl::memory] share one
    object; the objects live in a store and are named by their index. *)
Record memory := {
  mem_desc : memory_desc;
  data_handle : pointer;
}.

Abbreviation mem_ref := nat (only parsing).

(** Argument indices of [dnnl_types.h]. *)
Definition DNNL_ARG_SRC_0 : Z := 1.
Definition DNNL_ARG_SRC : Z := DNNL_ARG_SRC_0.
Definition DNNL_ARG_FROM : Z := DNNL_ARG_SRC_0.
Definition DNNL_ARG_SRC_1 : Z := 2.
Definition DNNL_ARG_DST_0 : Z := 17.
Definition DNNL_ARG_DST : Z := DNNL_ARG_DST_0.
Definition DNNL_ARG_TO : Z := DNNL_ARG_DST_0.
Definition DNNL_ARG_WEIGHTS_0 : Z := 33.
Definition DNNL_ARG_WEIGHTS : Z := DNNL_ARG_WEIGHTS_0.

(** [dnnl::algorithm], the members the modelled functions use. *)
Inductive algorithm :=
| binary_add | binary_mul | eltwise_logistic
| convolution_direct | deconvolution_direct.

(** Primitives are kept as the descriptors they were built from. *)
Inductive primitive :=
| prim_binary (algo : algorithm) (src0 src1 dst : memory_desc)
| prim_eltwise (algo : algorithm) (md : memory_desc)
| prim_reorder (src dst : memory_desc)
| prim_convolution (algo : algorithm) (src weights dst : memory_desc)
    (strides padding_l padding_r : list Z)
| prim_matmul (src weights dst : memory_desc).

(** All multi-indices below [dims], the last index running fastest. *)
Fixpoint indices (dims : list Z) : list (list Z) :=
  match dims with
  | [] => [[]]
  | d :: ds =>
      flat_map (fun i => map (cons i) (indices ds))
               (map Z.of_nat (seq 0 (Z.to_nat d)))
  end.

(** Element offset of a multi-index under a list of strides. *)
Fixpoint offset (strides idx : list Z) : Z :=
  match strides, idx with
  | s :: ss, i :: is_ => i * s + offset ss is_
  | _, _ => 0
  end.

(** Copy element [ksrc] of buffer [src] (in store [h0]) to element [kdst]
    of buffer [dst]; elements are [esz] bytes wide. *)
Definition copy_elem (esz : Z) (h0 : heap) (src : pointer) (ksrc : Z)
    (dst : pointer) (kdst : Z) (h : heap) : heap :=
  fun p i =>
    if decide (p = dst) then
      if (kdst * esz <=? i) && (i <? kdst * esz + esz)
      then h0 src (ksrc * esz + (i - kdst * esz))
      else h p i
    else h p i.

(** Executing a reorder between two plain strided views of equal extents
    and element type: every logical element of the source view is stored
    at the same logical position of the destination view. *)
Definition reorder_strided (esz : Z) (dims sstr dstr : list Z)
    (src dst : pointer) (h : heap) : heap :=
  fold_left
    (fun acc idx => copy_elem esz h src (offset sstr idx) dst (offset dstr idx) acc)
    (indices dims) h.

(** What the model leaves to the library: the layouts a convolution
    primitive descriptor prefers for source, weights and destination, and
    the effect on the byte store of executing anything other than a plain
    strided reorder. *)
Record library := {
  preferred_formats :
    algorithm -> memory_desc -> memory_desc -> memory_desc ->
    list Z -> list Z -> list Z -> memory_desc * memory_desc * memory_desc;
  compute : primitive -> gmap Z memory -> heap -> heap;
}.

(** [primitive::execute(stream, args)] on the memory objects bound to the
    argument indices. *)
Definition execute (lib : library) (p : primitive) (args : gmap Z memory)
    (h : heap) : heap :=
  match p with
  | prim_reorder smd dmd =>
      match md_format smd, md_format dmd, args !! DNNL_ARG_FROM, args !! DNNL_ARG_TO with
      | fmt_blocked sstr, fmt_blocked dstr, Some ms, Some mt =>
          if decide (md_dims smd = md_dims dmd
                     /\ md_data_type smd = md_data_type dmd)
          then reorder_strided (sizeof (md_data_type smd)) (md_dims smd)
                 sstr dstr (data_handle ms) (data_handle mt) h
          else compute lib p args h
      | _, _, _, _ => compute lib p args h
      end
  | _ => compute lib p args h
  end.

End Dnnl.

(* ===================================================================== *)
(** ** [ODLA/platforms/odla_dnnl.cc] *)
(* ===================================================================== *)

Module Odla.
Import Dnnl.

(** *** Types of the ODLA interface *)

(** Modelled from the spec: [odla_status] of the absent [ODLA/odla.h]; the
    source only ever names [ODLA_SUCCESS], the second member stands for
    every other status of the interface. *)
Inductive odla_status := ODLA_SUCCESS | ODLA_FAILURE.

(** Modelled from the spec: [odla_element_type] of the absent header, with
    the four element types of the spec's section 6 and one member for the
    types [getDataType] sends to its default branch. *)
Inductive odla_element_type :=
| ODLA_FLOAT32 | ODLA_INT32 | ODLA_INT64 | ODLA_BFLOAT16 | ODLA_FLOAT16.

#[global] Instance odla_element_type_eq_dec : EqDecision odla_element_type.
Proof. solve_decision. Defined.

(** Modelled from the spec: [odla_memory_layout] of the absent header:
    default linear, channels first and last, and the three kernel
    orderings. *)
Inductive odla_memory_layout :=
| ODLA_LAYOUT_DEFAULT
| ODLA_CHANNELS_FIRST | ODLA_CHANNELS_LAST
| ODLA_SIO | ODLA_OIS | ODLA_IOS.

#[global] Instance odla_memory_layout_eq_dec : EqDecision odla_memory_layout.
Proof. solve_decision. Defined.

(** Modelled from the spec: [odla_value_shape] of the absent header, a
    32-bit [size] and an array [dims] of 64-bit extents. The list holds
    the array from its first entry on; entries it does not hold read 0. *)
Record odla_value_shape := {
  shape_size : Z;
  shape_dims : list Z;
}.

(** Modelled from the spec: [odla_value_type] of the absent header. *)
Record odla_value_type := {
  element_type : odla_element_type;
  shape : odla_value_shape;
}.

(** [od.dims[i]]. *)
Definition dim_at (od : odla_value_shape) (i : nat) : Z :=
  nth i (shape_dims od) 0.

(** [od.dims[i] = v] on a local copy of a shape. *)
Definition set_dim (od : odla_value_shape) (i : nat) (v : Z) : odla_value_shape :=
  {| shape_size := shape_size od; shape_dims := <[i := v]> (shape_dims od) |}.

(** A value id is a C string or the null pointer. *)
Definition odla_value_id := option string.

(** Handles: an [odla_value], [odla_computation] or [odla_context] is a
    pointer to an object of the matching store. *)
Abbreviation odla_value := nat (only parsing).
Abbreviation odla_computation := nat (only parsing).
Abbreviation odla_context := nat (only parsing).

Record _odla_value := {
  mem : mem_ref;
  is_const : bool;
  value_shape : odla_value_shape;
  name : string;
}.

Record target_opts := { enable_bf16 : bool }.

Record _odla_computation := {
  primitives : list primitive;
  args : list (gmap Z mem_ref);
  vals : list odla_value;
  inputs : gmap string odla_value;
  outputs : gmap string odla_value;
  opts : target_opts;
}.

Record _odla_context := {
  comp : option odla_computation;
  stream : bool;
}.

(** *** Shape and layout helpers *)

Definition getFormatTag (od : odla_value_shape) : format_tag :=
  let tags := [tag_undef; tag_a; tag_ab; tag_abc; tag_abcd; tag_abcde; tag_abcdef] in
  if (shape_size od <=? 0) || (6 <? shape_size od)
  then nth 0 tags tag_undef
  else nth (Z.to_nat (shape_size od)) tags tag_undef.

(** The layout overload of [getFormatTag]. Its default branch is
    [assert(0)] followed by [return format_tag::any]; the assertion is
    raised by the caller of this function in the monad below. *)
Definition getFormatTag_layout (layout : odla_memory_layout) (group : Z)
  : option format_tag :=
  match layout with
  | ODLA_CHANNELS_FIRST => Some tag_nchw
  | ODLA_CHANNELS_LAST => Some tag_nhwc
  | ODLA_SIO => Some (if 1 <? group then tag_hwigo else tag_hwio)
  | ODLA_OIS => Some (if 1 <? group then tag_goihw else tag_oihw)
  | ODLA_IOS => Some (if 1 <? group then tag_giohw else tag_iohw)
  | ODLA_LAYOUT_DEFAULT => None
  end.

(** Conversions of the C++ integer types involved in [GetTotalElements]. *)
Definition to_size_t (z : Z) : Z := z mod 2 ^ 64.
Definition to_int (z : Z) : Z := (z + 2 ^ 31) mod 2 ^ 32 - 2 ^ 31.

(** A value stored in an [int64_t]: the 64-bit two's complement
    reduction, which is what a product of two [int64_t] leaves in the
    compiled code when it does not fit. *)
Definition to_int64 (z : Z) : Z := (z + 2 ^ 63) mod 2 ^ 64 - 2 ^ 63.

Definition getDims (od : odla_value_shape) : list Z :=
  map (dim_at od) (seq 0 (Z.to_nat (shape_size od))).

(** [std::accumulate(dims, dims + size, 1, std::multiplies<size_t>())]:
    the accumulator has the type of the initial value [1], an [int]; each
    step multiplies in [size_t] and stores the product back into it. *)
Definition GetTotalElements (od : odla_value_shape) : Z :=
  fold_left (fun acc d => to_int (to_size_t (to_size_t acc * to_size_t d)))
            (getDims od) 1.

(** [strides(od.size, 1)], then for [i] from [od.size - 2] down to 0
    [strides[i] = strides[i + 1] * od.dims[i + 1]], a product of two
    [int64_t] stored in an [int64_t]. *)
Definition getStrides (od : odla_value_shape) : list Z :=
  let n := Z.to_nat (shape_size od) in
  fold_left
    (fun strides i =>
       <[i := to_int64 (nth (S i) strides 0 * dim_at od (S i))]> strides)
    (rev (seq 0 (n - 1)))
    (repeat 1 n).

Definition getDataType (ty : odla_element_type) : data_type :=
  match ty with
  | ODLA_FLOAT32 => f32
  | ODLA_INT32 => s32
  | ODLA_INT64 => s32
  | ODLA_BFLOAT16 => bf16
  | _ => dt_undef
  end.

Definition getMemoryDesc_dt (dims : odla_value_shape) (ty : data_type) : memory_desc :=
  desc_by_tag (getDims dims) ty (getFormatTag dims).

Definition getMemoryDesc (dims : odla_value_shape) (ty : odla_element_type) : memory_desc :=
  desc_by_tag (getDims dims) (getDataType ty) (getFormatTag dims).

Definition getMemoryDesc_type (ty : odla_value_type) : memory_desc :=
  getMemoryDesc (shape ty) (element_type ty).

(** *** The process state *)

(** Compile-time configuration: whether [assert] is compiled out and
    whether the library is built as an interpreter (the macro, when
    defined, is taken to be defined to a non-zero value, so that the
    [#ifdef] around the initializer and the [#if] inside
    [InterpretIfNeeded] agree). *)
Record build := {
  NDEBUG : bool;
  ODLA_DNNL_BUILD_AS_INTERPRETER : bool;
}.

(** The objects the code allocates and the globals it keeps:
    [memories] are the [dnnl::memory] objects, [values] the [_odla_value]
    objects, [g_comps] the computations, [contexts] the contexts ([None]
    once deleted), [interpreter_context] the function-local static of
    [InterpretIfNeeded], [bytes] the byte store and [next_buffer] the next
    buffer the engine hands out. *)
Record runtime := {
  memories : list memory;
  values : list _odla_value;
  g_comps : list _odla_computation;
  g_comp : option odla_computation;
  g_interpret_mode : bool;
  contexts : list (option _odla_context);
  interpreter_context : option odla_context;
  bytes : heap;
  next_buffer : nat;
}.

Definition with_memories (f : list memory -> list memory) (rt : runtime) : runtime :=
  {| memories := f (memories rt); values := values rt; g_comps := g_comps rt;
     g_comp := g_comp rt; g_interpret_mode := g_interpret_mode rt;
     contexts := contexts rt; interpreter_context := interpreter_context rt;
     bytes := bytes rt; next_buffer := next_buffer rt |}.

Definition with_values (f : list _odla_value -> list _odla_value) (rt : runtime) : runtime :=
  {| memories := memories rt; values := f (values rt); g_comps := g_comps rt;
     g_comp := g_comp rt; g_interpret_mode := g_interpret_mode rt;
     contexts := contexts rt; interpreter_context := interpreter_context rt;
     bytes := bytes rt; next_buffer := next_buffer rt |}.

Definition with_g_comps (f : list _odla_computation -> list _odla_computation)
    (rt : runtime) : runtime :=
  {| memories := memories rt; values := values rt; g_comps := f (g_comps rt);
     g_comp := g_comp rt; g_interpret_mode := g_interpret_mode rt;
     contexts := contexts rt; interpreter_context := interpreter_context rt;
     bytes := bytes rt; next_buffer := next_buffer rt |}.

Definition with_g_comp (c : option odla_computation) (rt : runtime) : runtime :=
  {| memories := memories rt; values := values rt; g_comps := g_comps rt;
     g_comp := c; g_interpret_mode := g_interpret_mode rt;
     contexts := contexts rt; interpreter_context := interpreter_context rt;
     bytes := bytes rt; next_buffer := next_buffer rt |}.

Definition with_g_interpret_mode (b : bool) (rt : runtime) : runtime :=
  {| memories := memories rt; values := values rt; g_comps := g_comps rt;
     g_comp := g_comp rt; g_interpret_mode := b;
     contexts := contexts rt; interpreter_context := interpreter_context rt;
     bytes := bytes rt; next_buffer := next_buffer rt |}.

Definition with_contexts
    (f : list (option _odla_context) -> list (option _odla_context))
    (rt : runtime) : runtime :=
  {| memories := memories rt; values := values rt; g_comps := g_comps rt;
     g_comp := g_comp rt; g_interpret_mode := g_interpret_mode rt;
     contexts := f (contexts rt); interpreter_context := interpreter_context rt;
     bytes := bytes rt; next_buffer := next_buffer rt |}.

Definition with_interpreter_context (c : option odla_context) (rt : runtime) : runtime :=
  {| memories := memories rt; values := values rt; g_comps := g_comps rt;
     g_comp := g_comp rt; g_interpret_mode := g_interpret_mode rt;
     contexts := contexts rt; interpreter_context := c;
     bytes := bytes rt; next_buffer := next_buffer rt |}.

Definition with_bytes (f : heap -> heap) (rt : runtime) : runtime :=
  {| memories := memories rt; values := values rt; g_comps := g_comps rt;
     g_comp := g_comp rt; g_interpret_mode := g_interpret_mode rt;
     contexts := contexts rt; interpreter_context := interpreter_context rt;
     bytes := f (bytes rt); next_buffer := next_buffer rt |}.

Definition with_next_buffer (n : nat) (rt : runtime) : runtime :=
  {| memories := memories rt; values := values rt; g_comps := g_comps rt;
     g_comp := g_comp rt; g_interpret_mode := g_interpret_mode rt;
     contexts := contexts rt; interpreter_context := interpreter_context rt;
     bytes := bytes rt; next_buffer := n |}.

Definition comp_with_plan (ps : list primitive) (ars : list (gmap Z mem_ref))
    (c : _odla_computation) : _odla_computation :=
  {| primitives := ps; args := ars; vals := vals c;
     inputs := inputs c; outputs := outputs c; opts := opts c |}.

Definition comp_with_vals (vs : list odla_value) (c : _odla_computation)
  : _odla_computation :=
  {| primitives := primitives c; args := args c; vals := vs;
     inputs := inputs c; outputs := outputs c; opts := opts c |}.

Definition comp_with_inputs (m : gmap string odla_value) (c : _odla_computation)
  : _odla_computation :=
  {| primitives := primitives c; args := args c; vals := vals c;
     inputs := m; outputs := outputs c; opts := opts c |}.

Definition comp_with_outputs (m : gmap string odla_value) (c : _odla_computation)
  : _odla_computation :=
  {| primitives := primitives c; args := args c; vals := vals c;
     inputs := inputs c; outputs := m; opts := opts c |}.

Definition comp_with_opts (o : target_opts) (c : _odla_computation)
  : _odla_computation :=
  {| primitives := primitives c; args := args c; vals := vals c;
     inputs := inputs c; outputs := outputs c; opts := o |}.

Definition value_with_mem (m : mem_ref) (v : _odla_value) : _odla_value :=
  {| mem := m; is_const := is_const v; value_shape := value_shape v; name := name v |}.

Definition value_with_is_const (b : bool) (v : _odla_value) : _odla_value :=
  {| mem := mem v; is_const := b; value_shape := value_shape v; name := name v |}.

Definition memory_with_handle (p : pointer) (m : memory) : memory :=
  {| mem_desc := mem_desc m; data_handle := p |}.

(** *** The monad of the API calls

    A call runs on the process state and either returns, stops at a
    failed [assert] (the process aborts; the state at that point is
    kept), or steps outside defined behaviour: a null or dangling handle
    is dereferenced, or a division by zero is evaluated. *)
Inductive result (A : Type) : Type :=
| Ok (a : A) (rt : runtime)
| AssertFail (rt : runtime)
| Undefined.

Arguments Ok {A} a rt.
Arguments AssertFail {A} rt.
Arguments Undefined {A}.

Definition M (A : Type) : Type := runtime -> result A.

Definition ret {A} (a : A) : M A := fun rt => Ok a rt.

Definition bind {A B} (m : M A) (k : A -> M B) : M B :=
  fun rt =>
    match m rt with
    | Ok a rt' => k a rt'
    | AssertFail rt' => AssertFail rt'
    | Undefined => Undefined
    end.

Notation "x <- c ;; k" := (bind c (fun x => k))
  (at level 100, c at next level, right associativity).
Notation "c ;;; k" := (bind c (fun _ => k))
  (at level 100, right associativity).

Definition get : M runtime := fun rt => Ok rt rt.
Definition modify (f : runtime -> runtime) : M unit := fun rt => Ok tt (f rt).
Definition undefined {A} : M A := fun _ => Undefined.
Definition abort {A} : M A := fun rt => AssertFail rt.

Definition of_option {A} (o : option A) : M A :=
  match o with
  | Some a => ret a
  | None => undefined
  end.

(** [g_comp->...]: the active computation. *)
Definition active : M odla_computation :=
  rt <- get;; of_option (g_comp rt).

Definition comp_get (c : odla_computation) : M _odla_computation :=
  rt <- get;; of_option (g_comps rt !! c).

Definition comp_update (c : odla_computation)
    (f : _odla_computation -> _odla_computation) : M unit :=
  x <- comp_get c;; modify (with_g_comps (fun l => <[c := f x]> l)).

Definition value_get (v : odla_value) : M _odla_value :=
  rt <- get;; of_option (values rt !! v).

Definition value_update (v : odla_value) (f : _odla_value -> _odla_value) : M unit :=
  x <- value_get v;; modify (with_values (fun l => <[v := f x]> l)).

Definition memory_get (m : mem_ref) : M memory :=
  rt <- get;; of_option (memories rt !! m).

(** [dnnl::memory(md, eng, handle)]: a memory object over a given buffer. *)
Definition new_memory (md : memory_desc) (p : pointer) : M mem_ref :=
  rt <- get;;
  modify (with_memories (fun l => l ++ [{| mem_desc := md; data_handle := p |}]));;;
  ret (length (memories rt)).

(** [dnnl::memory(md, eng)]: a memory object over a buffer of its own,
    which the engine allocates. *)
Definition alloc_memory (md : memory_desc) : M mem_ref :=
  rt <- get;;
  modify (with_next_buffer (S (next_buffer rt)));;;
  new_memory md (engine_ptr (next_buffer rt)).

(** [m.set_data_handle(p)]: the object is updated in the store, so every
    copy of the [dnnl::memory] sees the new handle. *)
Definition set_data_handle (m : mem_ref) (p : pointer) : M unit :=
  x <- memory_get m;;
  modify (with_memories (fun l => <[m := memory_with_handle p x]> l)).

Definition push_primitive (p : primitive) : M unit :=
  c <- active;;
  comp_update c (fun x => comp_with_plan (primitives x ++ [p]) (args x) x).

Definition push_args (a : gmap Z mem_ref) : M unit :=
  c <- active;;
  comp_update c (fun x => comp_with_plan (primitives x) (args x ++ [a]) x).

(** The memory objects an argument map names, as the store has them when
    the primitive runs. *)
Definition resolve (mems : list memory) (a : gmap Z mem_ref) : gmap Z memory :=
  omap (fun r => mems !! r) a.

(** The loop [for (i = 0; i < primitives.size(); ++i)
    primitives[i].execute(stream, args[i])]. Reading [args[i]] past the
    end of [args] is outside defined behaviour. *)
Fixpoint run_plan (lib : library) (mems : list memory)
    (ps : list primitive) (ars : list (gmap Z mem_ref)) (h : heap) : option heap :=
  match ps with
  | [] => Some h
  | p :: ps' =>
      match ars with
      | [] => None
      | a :: ars' => run_plan lib mems ps' ars' (execute lib p (resolve mems a) h)
      end
  end.

Definition execute_plan (lib : library) (c : odla_computation) : M unit :=
  x <- comp_get c;;
  rt <- get;;
  h <- of_option (run_plan lib (memories rt) (primitives x) (args x) (bytes rt));;
  modify (with_bytes (fun _ => h)).

Definition context_get (ctx : odla_context) : M _odla_context :=
  rt <- get;;
  match contexts rt !! ctx with
  | Some (Some x) => ret x
  | _ => undefined
  end.

(** [if (context->stream == nullptr) context->stream = make_unique<stream>(...)]. *)
Definition ensure_stream (ctx : odla_context) : M unit :=
  x <- context_get ctx;;
  modify (with_contexts (fun l => <[ctx := Some {| comp := comp x; stream := true |}]> l)).

(** *** The API *)

Section Api.

Variable cfg : build.
Variable lib : library.

(** [assert(c)]: compiled out under [NDEBUG], in which case [c] is not
    evaluated at all; otherwise a false [c] aborts the process. *)
Definition assert_ (c : M bool) : M unit :=
  if NDEBUG cfg then ret tt
  else b <- c;; if b then ret tt else abort.

Definition odla_ConfigTargetOptions (computation : odla_computation)
    (o : target_opts) : M unit :=
  comp_update computation (comp_with_opts {| enable_bf16 := enable_bf16 o |}).

Definition new_computation : _odla_computation :=
  {| primitives := []; args := []; vals := [];
     inputs := ∅; outputs := ∅; opts := {| enable_bf16 := false |} |}.

(** The out-parameter [computation] may be null; [want] says whether it
    is not, and the handle is handed back only then. *)
Definition odla_CreateComputation (want : bool)
  : M (option odla_status * option odla_computation) :=
  rt <- get;;
  modify (with_g_comps (fun l => l ++ [new_computation]));;;
  modify (with_g_comp (Some (length (g_comps rt))));;;
  ret (Some ODLA_SUCCESS, if want then Some (length (g_comps rt)) else None).

(** The state a process starts in: nothing allocated, and, in an
    interpreter build, the effect of the static [Initializer]. *)
Definition empty_runtime : runtime :=
  {| memories := []; values := []; g_comps := []; g_comp := None;
     g_interpret_mode := false; contexts := []; interpreter_context := None;
     bytes := fun _ _ => Byte.x00; next_buffer := 0 |}.

Definition initial_runtime : runtime :=
  if ODLA_DNNL_BUILD_AS_INTERPRETER cfg then
    match odla_CreateComputation false empty_runtime with
    | Ok _ rt => with_g_interpret_mode true rt
    | _ => empty_runtime
    end
  else empty_runtime.

Definition odla_SetActiveComputation (computation : option odla_computation)
  : M (option odla_status) :=
  modify (with_g_comp computation);;;
  ret (Some ODLA_SUCCESS).

Definition odla_DestroyComputation (computation : option odla_computation)
  : M (option odla_status) :=
  ret (Some ODLA_SUCCESS).

Definition odla_CreateContext : M (option odla_status * odla_context) :=
  rt <- get;;
  modify (with_contexts (fun l => l ++ [Some {| comp := g_comp rt; stream := false |}]));;;
  ret (Some ODLA_SUCCESS, length (contexts rt)).

Definition odla_DestroyContext (ctx : odla_context) : M (option odla_status) :=
  modify (with_contexts (fun l => <[ctx := None]> l));;;
  ret (Some ODLA_SUCCESS).

(** The parameters [mode] and [device] are never read. *)
Definition odla_ExecuteComputation (computation : odla_computation)
    (context : odla_context) : M (option odla_status) :=
  ensure_stream context;;;
  execute_plan lib computation;;;
  ret (Some ODLA_SUCCESS).

Definition CreateValue (m : mem_ref) (sh : odla_value_shape) (id : odla_value_id)
  : M odla_value :=
  let nm := match id with None => EmptyString | Some s => s end in
  rt <- get;;
  modify (with_values (fun l =>
    l ++ [{| mem := m; is_const := false; value_shape := sh; name := nm |}]));;;
  c <- active;;
  comp_update c (fun x => comp_with_vals (vals x ++ [length (values rt)]) x);;;
  ret (length (values rt)).

Definition InterpretIfNeeded : M unit :=
  if ODLA_DNNL_BUILD_AS_INTERPRETER cfg then
    rt <- get;;
    if negb (g_interpret_mode rt) then ret tt
    else
      context <- match interpreter_context rt with
                 | Some c => ret c
                 | None =>
                     r <- odla_CreateContext;;
                     modify (with_interpreter_context (Some (snd r)));;;
                     ret (snd r)
                 end;;
      ensure_stream context;;;
      c <- active;;
      execute_plan lib c;;;
      comp_update c (fun x => comp_with_plan [] (args x) x);;;
      comp_update c (fun x => comp_with_plan (primitives x) [] x)
  else ret tt.

(** [inputs[name]] builds a [std::string] from [id], which must not be
    null. *)
Definition odla_CreateArgument (type : odla_value_type) (id : odla_value_id)
  : M odla_value :=
  let md := getMemoryDesc (shape type) ODLA_FLOAT32 in
  m <- alloc_memory md;;
  v <- CreateValue m (shape type) id;;
  nm <- of_option id;;
  c <- active;;
  comp_update c (fun x => comp_with_inputs (<[nm := v]> (inputs x)) x);;;
  ret v.

Definition odla_CreateValue (type : odla_value_type) (id : odla_value_id)
  : M odla_value :=
  assert_ (rt <- get;; ret (g_interpret_mode rt));;;
  odla_CreateArgument type id.

Definition odla_GetValueType (value : odla_value)
  : M (option odla_status * odla_value_type) :=
  x <- value_get value;;
  ret (Some ODLA_SUCCESS,
       {| element_type := ODLA_FLOAT32; shape := value_shape x |}).

(** The parameter [context] is never read. *)
Definition odla_BindToArgument (value : odla_value) (data_ptr : pointer)
  : M (option odla_status) :=
  x <- value_get value;;
  set_data_handle (mem x) data_ptr;;;
  ret (Some ODLA_SUCCESS).

Definition odla_SetValueData (value : odla_value) (ptr : pointer)
  : M (option odla_status) :=
  assert_ (rt <- get;; ret (g_interpret_mode rt));;;
  x <- value_get value;;
  set_data_handle (mem x) ptr;;;
  ret (Some ODLA_SUCCESS).

(** The statements of [odla_GetValueData]: the assertion and the
    [memcpy]. *)
Definition odla_GetValueData_body (value : odla_value) (data_ptr : pointer)
  : M unit :=
  assert_ (rt <- get;; ret (eqb (g_interpret_mode rt) true));;;
  x <- value_get value;;
  m <- memory_get (mem x);;
  modify (with_bytes (memcpy data_ptr (data_handle m) (get_size (mem_desc m)))).

(** The body ends after the [memcpy]: there is no [return] statement, and
    control flows off the end of a function declared to return
    [odla_status], which is outside defined behaviour. *)
Definition odla_GetValueData (value : odla_value) (data_ptr : pointer)
  : M (option odla_status) :=
  odla_GetValueData_body value data_ptr;;;
  undefined.

(** [context->comp->inputs[name]] inserts a null value under a name that
    is absent, which [odla_BindToArgument] then dereferences. *)
Definition odla_BindToArgumentById (value_id : string) (data_ptr : pointer)
    (context : odla_context) : M (option odla_status) :=
  ctx <- context_get context;;
  c <- of_option (comp ctx);;
  x <- comp_get c;;
  value <- of_option (inputs x !! value_id);;
  odla_BindToArgument value data_ptr.

Definition odla_CreateConstant (type : odla_value_type) (ptr : pointer)
    (id : odla_value_id) : M odla_value :=
  let md := getMemoryDesc_type type in
  m <- new_memory md ptr;;
  v <- CreateValue m (shape type) id;;
  value_update v (value_with_is_const true);;;
  ret v.

(** The one statement of [odla_SetValueAsOutput]:
    [g_comp->outputs[val->name] = val]. *)
Definition odla_SetValueAsOutput_body (val : odla_value) : M unit :=
  x <- value_get val;;
  c <- active;;
  comp_update c (fun y => comp_with_outputs (<[name x := val]> (outputs y)) y).

(** The body is the single assignment: there is no [return] statement,
    and control flows off the end of a function declared to return
    [odla_status], which is outside defined behaviour. *)
Definition odla_SetValueAsOutput (val : odla_value) : M (option odla_status) :=
  odla_SetValueAsOutput_body val;;;
  undefined.

(** The parameter [context] is never read. *)
Definition odla_BindToOutput (value : odla_value) (data_ptr : pointer)
  : M (option odla_status) :=
  x <- value_get value;;
  (if is_const x then
     m <- memory_get (mem x);;
     modify (with_bytes (memcpy data_ptr (data_handle m) (get_size (mem_desc m))))
   else
     set_data_handle (mem x) data_ptr);;;
  ret (Some ODLA_SUCCESS).

Definition odla_BindToOutputById (value_id : string) (data_ptr : pointer)
    (context : odla_context) : M (option odla_status) :=
  ctx <- context_get context;;
  c <- of_option (comp ctx);;
  x <- comp_get c;;
  val <- of_option (outputs x !! value_id);;
  odla_BindToOutput val data_ptr.

(** The condition of the assertion in [binary_eltwise],
    [ln >= rn && ln % rn == 0]; the remainder is evaluated only when the
    first conjunct holds, and a zero divisor is outside defined
    behaviour. *)
Definition divides_check (ln rn : Z) : M bool :=
  if ln >=? rn then
    if rn =? 0 then undefined else ret (Z.rem ln rn =? 0)
  else ret false.

Definition binary_eltwise (algo : algorithm) (lhs rhs : odla_value)
    (id : odla_value_id) : M odla_value :=
  l <- value_get lhs;;
  r <- value_get rhs;;
  let dims_lhs := value_shape l in
  let dims_rhs := value_shape r in
  lm <- memory_get (mem l);;
  let lhs_md :=
    desc_by_tag (getDims dims_lhs) (md_data_type (mem_desc lm)) (getFormatTag dims_lhs) in
  let ret_md := lhs_md in
  ret_mem <- alloc_memory ret_md;;
  rm <- memory_get (mem r);;
  let rhs_md := mem_desc rm in
  let ln := GetTotalElements dims_lhs in
  let rn := GetTotalElements dims_rhs in
  rhs_md <-
    (if negb (shape_size dims_lhs =? shape_size dims_rhs) then
       assert_ (divides_check ln rn);;;
       let strides := getStrides dims_rhs in
       let strides :=
         Nat.iter (Z.to_nat (shape_size dims_lhs - shape_size dims_rhs))
                  (cons 0) strides in
       let rhs_md := lhs_md in
       ret (fold_left (fun md i => set_stride md i (nth i strides 0))
                      (seq 0 (length strides)) rhs_md)
     else if ln =? rn then ret lhs_md
     else ret rhs_md);;
  let prim := prim_binary algo lhs_md rhs_md ret_md in
  push_primitive prim;;;
  v <- CreateValue ret_mem (value_shape l) id;;
  l' <- value_get lhs;;
  r' <- value_get rhs;;
  push_args {[ DNNL_ARG_SRC_0 := mem l'; DNNL_ARG_SRC_1 := mem r';
               DNNL_ARG_DST := ret_mem ]};;;
  InterpretIfNeeded;;;
  ret v.

Definition odla_Add (lhs rhs : odla_value) (id : odla_value_id) : M odla_value :=
  binary_eltwise binary_add lhs rhs id.

Definition odla_Mul (lhs rhs : odla_value) (id : odla_value_id) : M odla_value :=
  binary_eltwise binary_mul lhs rhs id.

Definition odla_Sigmoid (input : odla_value) (id : odla_value_id) : M odla_value :=
  x <- value_get input;;
  m <- memory_get (mem x);;
  let ret_md := mem_desc m in
  ret_mem <- alloc_memory ret_md;;
  let prim := prim_eltwise eltwise_logistic (mem_desc m) in
  push_primitive prim;;;
  v <- CreateValue ret_mem (value_shape x) id;;
  push_args {[ DNNL_ARG_SRC := mem x; DNNL_ARG_DST := ret_mem ]};;;
  InterpretIfNeeded;;;
  ret v.

Definition getNCHWDims (src_dims : odla_value_shape) : M odla_value_shape :=
  assert_ (ret (shape_size src_dims =? 4));;;
  ret {| shape_size := shape_size src_dims;
         shape_dims := [dim_at src_dims 0; dim_at src_dims 3;
                        dim_at src_dims 1; dim_at src_dims 2] |}.

Definition getOIHWDims (src_dims : odla_value_shape) : M odla_value_shape :=
  assert_ (ret (shape_size src_dims =? 4));;;
  ret {| shape_size := shape_size src_dims;
         shape_dims := [dim_at src_dims 3; dim_at src_dims 2;
                        dim_at src_dims 0; dim_at src_dims 1] |}.

(** The quotient [src_dims.dims[0] / groups] truncates; a zero [groups]
    is outside defined behaviour. *)
Definition getGOIHWDims (src_dims : odla_value_shape) (groups : Z)
    (layout : odla_memory_layout) : M odla_value_shape :=
  assert_ (ret (shape_size src_dims =? 4));;;
  assert_ (ret (bool_decide (layout = ODLA_OIS)));;;
  if groups =? 0 then undefined
  else
    ret {| shape_size := shape_size src_dims + 1;
           shape_dims := [groups; Z.quot (dim_at src_dims 0) groups;
                          dim_at src_dims 1; dim_at src_dims 2;
                          dim_at src_dims 3] |}.

(** The layout overload of [getFormatTag] with its [assert(0)]. *)
Definition getFormatTag_of (layout : odla_memory_layout) (group : Z) : M format_tag :=
  match getFormatTag_layout layout group with
  | Some t => ret t
  | None => assert_ (ret false);;; ret tag_any
  end.

(** [new_strides = strides], then for [i] below [permutations.size]
    [new_strides[i] = strides[permutations.dims[i]]]. A vector access out
    of range is outside defined behaviour; the model reads 0 there and
    drops such a write. *)
Definition permute_strides (permutations : odla_value_shape) (strides : list Z)
  : list Z :=
  fold_left
    (fun new_strides i =>
       <[i := nth (Z.to_nat (dim_at permutations i)) strides 0]> new_strides)
    (seq 0 (Z.to_nat (shape_size permutations)))
    strides.

Definition odla_Transpose (input : odla_value)
    (permutations output_dims : odla_value_shape) (id : odla_value_id)
  : M odla_value :=
  x <- value_get input;;
  let input_dims := value_shape x in
  let strides := getStrides input_dims in
  let new_strides := permute_strides permutations strides in
  m <- memory_get (mem x);;
  let type := md_data_type (mem_desc m) in
  let src_md := desc_by_strides (getDims output_dims) type new_strides in
  let dst_md := desc_by_strides (getDims output_dims) type (getStrides output_dims) in
  src_mem <- new_memory src_md nullptr;;
  dst_mem <- alloc_memory dst_md;;
  let prim := prim_reorder src_md dst_md in
  push_primitive prim;;;
  push_args {[ DNNL_ARG_FROM := mem x; DNNL_ARG_TO := dst_mem ]};;;
  CreateValue dst_mem output_dims id.

Definition odla_Reshape (input : odla_value) (output_dims : odla_value_shape)
    (id : odla_value_id) : M odla_value :=
  x <- value_get input;;
  CreateValue (mem x) output_dims id.

(** [rec.execute(s, {{DNNL_ARG_FROM, from}, {DNNL_ARG_TO, to}}); s.wait()]
    on a stream of its own, at graph-build time. *)
Definition execute_now (p : primitive) (a : gmap Z mem_ref) : M unit :=
  rt <- get;;
  modify (with_bytes (execute lib p (resolve (memories rt) a))).

(** The text [odla_Conv] and [odla_DeConv] share, from the construction
    of the descriptors to the end; the two functions differ in the
    algorithm of the primitive. [dilations] is read by the assertion
    only. *)
Definition lower_convolution (algo : algorithm)
    (input : odla_value) (input_layout : odla_memory_layout) (group : Z)
    (kernel : odla_value) (kernel_layout : odla_memory_layout)
    (dilations : list Z)
    (stride_dims paddings_before paddings_after : list Z)
    (input_dims kernel_dims output_dims orig_output_dims : odla_value_shape)
    (dt dt_dst : data_type)
    (bias : option odla_value) (id : odla_value_id)
    (add : odla_value -> odla_value -> odla_value_id -> M odla_value)
  : M odla_value :=
  c <- active;;
  cx <- comp_get c;;
  _ <- (if enable_bf16 (opts cx)
        then ret (desc_by_tag (getDims output_dims) dt_dst tag_any)
        else t <- getFormatTag_of input_layout 1;;
             ret (desc_by_tag (getDims output_dims) dt t));;
  let ret_md_any := desc_by_tag (getDims output_dims) dt_dst tag_any in
  let input_md_any := desc_by_tag (getDims input_dims) dt_dst tag_any in
  t_in <- getFormatTag_of input_layout 1;;
  let input_md_src := desc_by_tag (getDims input_dims) dt t_in in
  let kernel_md_any := desc_by_tag (getDims kernel_dims) dt_dst tag_any in
  t_k <- getFormatTag_of kernel_layout group;;
  let kernel_md_src := desc_by_tag (getDims kernel_dims) dt t_k in
  assert_ (ret ((nth 0 dilations 0 =? 1) && (nth 1 dilations 0 =? 1)));;;
  let '(pd_src, pd_weights, pd_dst) :=
    preferred_formats lib algo input_md_any kernel_md_any ret_md_any
      stride_dims paddings_before paddings_after in
  ret_mem <- alloc_memory pd_dst;;
  (if bool_decide (pd_weights = kernel_md_src) then ret tt
   else
     reordered_w <- alloc_memory pd_weights;;
     k <- value_get kernel;;
     km <- memory_get (mem k);;
     _ <- new_memory kernel_md_src (data_handle km);;
     execute_now (prim_reorder kernel_md_src pd_weights)
       {[ DNNL_ARG_FROM := mem k; DNNL_ARG_TO := reordered_w ]};;;
     value_update kernel (value_with_mem reordered_w));;;
  let needs_reorder_input := negb (bool_decide (pd_src = input_md_src)) in
  x0 <- value_get input;;
  let orig_mem := mem x0 in
  (if needs_reorder_input then
     reordered_mem <- alloc_memory pd_src;;
     x <- value_get input;;
     xm <- memory_get (mem x);;
     _ <- new_memory input_md_src (data_handle xm);;
     push_primitive (prim_reorder input_md_src pd_src);;;
     push_args {[ DNNL_ARG_FROM := mem x; DNNL_ARG_TO := reordered_mem ]};;;
     value_update input (value_with_mem reordered_mem)
   else ret tt);;;
  let prim := prim_convolution algo pd_src pd_weights pd_dst
                stride_dims paddings_before paddings_after in
  push_primitive prim;;;
  v <- CreateValue ret_mem orig_output_dims id;;
  x <- value_get input;;
  k <- value_get kernel;;
  push_args {[ DNNL_ARG_SRC := mem x; DNNL_ARG_WEIGHTS := mem k;
               DNNL_ARG_DST := ret_mem ]};;;
  (if needs_reorder_input then value_update input (value_with_mem orig_mem)
   else ret tt);;;
  t_out <- getFormatTag_of input_layout 1;;
  let ret_md_exp := desc_by_tag (getDims output_dims) dt t_out in
  (if bool_decide (pd_dst = ret_md_exp) then ret tt
   else
     reordered_mem <- alloc_memory ret_md_exp;;
     push_primitive (prim_reorder pd_dst ret_md_exp);;;
     push_args {[ DNNL_ARG_FROM := ret_mem; DNNL_ARG_TO := reordered_mem ]};;;
     value_update v (value_with_mem reordered_mem));;;
  InterpretIfNeeded;;;
  match bias with
  | Some b => add v b id
  | None => ret v
  end.

Definition odla_Conv (input : odla_value) (input_layout : odla_memory_layout)
    (group : Z) (kernel : odla_value) (kernel_layout : odla_memory_layout)
    (strides dilations paddings_front paddings_back : list Z)
    (bias : option odla_value) (output_dims : odla_value_shape)
    (id : odla_value_id) : M odla_value :=
  x <- value_get input;;
  k <- value_get kernel;;
  let input_dims := value_shape x in
  let kernel_dims := value_shape k in
  m <- memory_get (mem x);;
  let dt := md_data_type (mem_desc m) in
  let stride_dims := [nth 0 strides 0; nth 1 strides 0] in
  let paddings_before := [nth 0 paddings_front 0; nth 1 paddings_front 0] in
  let paddings_after := [nth 0 paddings_back 0; nth 1 paddings_back 0] in
  c <- active;;
  cx <- comp_get c;;
  let dt_dst := if enable_bf16 (opts cx) then getDataType ODLA_BFLOAT16 else dt in
  let orig_output_dims := output_dims in
  io <-
    (if bool_decide (input_layout = ODLA_CHANNELS_LAST) then
       i <- getNCHWDims input_dims;;
       o <- getNCHWDims output_dims;;
       ret (i, o)
     else ret (input_dims, output_dims));;
  let input_dims := fst io in
  let output_dims := snd io in
  kernel_dims <-
    (if bool_decide (kernel_layout = ODLA_SIO) then getOIHWDims kernel_dims
     else ret kernel_dims);;
  kernel_dims <-
    (if 1 <? group then
       let kernel_dims :=
         if bool_decide (kernel_layout = ODLA_SIO)
            && (dim_at kernel_dims 0 * group =? dim_at kernel_dims 1)
         then set_dim (set_dim kernel_dims 0 (dim_at kernel_dims 1))
                      1 (dim_at kernel_dims 0)
         else kernel_dims in
       getGOIHWDims kernel_dims group ODLA_OIS
     else ret kernel_dims);;
  lower_convolution convolution_direct input input_layout group kernel
    kernel_layout dilations stride_dims paddings_before paddings_after
    input_dims kernel_dims output_dims orig_output_dims dt dt_dst bias id
    odla_Add.

Definition odla_DeConv (input : odla_value) (input_layout : odla_memory_layout)
    (group : Z) (kernel : odla_value) (kernel_layout : odla_memory_layout)
    (strides dilations paddings_front paddings_back : list Z)
    (bias : option odla_value) (output_dims : odla_value_shape)
    (id : odla_value_id) : M odla_value :=
  x <- value_get input;;
  k <- value_get kernel;;
  let input_dims := value_shape x in
  let kernel_dims := value_shape k in
  let stride_dims := [nth 0 strides 0; nth 1 strides 0] in
  let paddings_before := [nth 0 paddings_front 0; nth 1 paddings_front 0] in
  let paddings_after := [nth 0 paddings_back 0; nth 1 paddings_back 0] in
  m <- memory_get (mem x);;
  let dt := md_data_type (mem_desc m) in
  c <- active;;
  cx <- comp_get c;;
  let dt_dst := if enable_bf16 (opts cx) then getDataType ODLA_BFLOAT16 else dt in
  let orig_output_dims := output_dims in
  io <-
    (if bool_decide (input_layout = ODLA_CHANNELS_LAST) then
       i <- getNCHWDims input_dims;;
       o <- getNCHWDims output_dims;;
       ret (i, o)
     else ret (input_dims, output_dims));;
  let input_dims := fst io in
  let output_dims := snd io in
  kernel_dims <-
    (if bool_decide (kernel_layout = ODLA_SIO) then getOIHWDims kernel_dims
     else if bool_decide (kernel_layout = ODLA_IOS) then
       ret (set_dim (set_dim kernel_dims 0 (dim_at kernel_dims 1))
                    1 (dim_at kernel_dims 0))
     else ret kernel_dims);;
  kernel_dims <-
    (if 1 <? group then getGOIHWDims kernel_dims group ODLA_OIS
     else ret kernel_dims);;
  lower_convolution deconvolution_direct input input_layout group kernel
    kernel_layout dilations stride_dims paddings_before paddings_after
    input_dims kernel_dims output_dims orig_output_dims dt dt_dst bias id
    odla_Add.

(** The parameters [alpha] and [beta] are never read. *)
Definition odla_Gemm (lhs : odla_value) (transpose_lhs : bool)
    (rhs : odla_value) (transpose_rhs : bool) (bias : option odla_value)
    (output_dims : odla_value_shape) (id : odla_value_id) : M odla_value :=
  l <- value_get lhs;;
  r <- value_get rhs;;
  let lhs_dims := value_shape l in
  let rhs_dims := value_shape r in
  lm <- memory_get (mem l);;
  let dt := md_data_type (mem_desc lm) in
  assert_ (ret ((shape_size lhs_dims =? 2) && (shape_size rhs_dims =? 2)));;;
  let M_ := dim_at output_dims 0 in
  let N_ := dim_at output_dims 1 in
  let K_ := if negb transpose_rhs then dim_at rhs_dims 0 else dim_at rhs_dims 1 in
  let lda := if transpose_lhs then M_ else K_ in
  let ldb := if transpose_rhs then K_ else N_ in
  let ldc := N_ in
  let lhs_md := desc_by_strides [M_; K_] dt (if transpose_lhs then [1; lda] else [lda; 1]) in
  let rhs_md := desc_by_strides [K_; N_] dt (if transpose_rhs then [1; ldb] else [ldb; 1]) in
  let ret_md := desc_by_strides [M_; N_] dt [ldc; 1] in
  ret_mem <- alloc_memory ret_md;;
  _ <- new_memory lhs_md (data_handle lm);;
  rm <- memory_get (mem r);;
  _ <- new_memory rhs_md (data_handle rm);;
  let prim := prim_matmul lhs_md rhs_md ret_md in
  push_primitive prim;;;
  push_args {[ DNNL_ARG_SRC := mem l; DNNL_ARG_WEIGHTS := mem r;
               DNNL_ARG_DST := ret_mem ]};;;
  v <- CreateValue ret_mem output_dims (match bias with Some _ => None | None => id end);;
  match bias with
  | Some b => odla_Add v b id
  | None => ret v
  end.

End Api.

End Odla.

(* ===================================================================== *)
(** ** [lib/ir/constant.cc]: the constructor of [Constant] *)
(* ===================================================================== *)

Module Halo.

(** [std::copy_n(chunk, length chunk, data.begin() + i)] for a chunk that
    fits into [data]. *)
Definition copy_at (data : list Byte.byte) (i : nat) (chunk : list Byte.byte)
  : list Byte.byte :=
  firstn i data ++ chunk ++ skipn (i + length chunk) data.

(** The first [n] bytes at the source pointer. *)
Definition read (src : nat -> Byte.byte) (n : nat) : list Byte.byte :=
  map src (seq 0 n).

(** How the constructor ends: with the buffer built, with a write past
    the end of [data_], or with the division by a zero element size. *)
Inductive built :=
| Built (data : list Byte.byte)
| OutOfBounds
| DivisionByZero.

(** The loop [for (i = 0, e = bytes / byte_per_element; i != e;
    i += byte_per_element) copy_n(src, byte_per_element, data_.begin() + i)].
    A copy that does not fit into the buffer ends the run; as long as the
    copies fit, [i] stays below the buffer size, so the [size_t] counter
    does not wrap. [None] means the fuel ran out. *)
Fixpoint splat_loop (fuel : nat) (src : nat -> Byte.byte)
    (byte_per_element e i : nat) (data : list Byte.byte) : option built :=
  match fuel with
  | O => None
  | S fuel' =>
      if Nat.eqb i e then Some (Built data)
      else if Nat.leb (i + byte_per_element) (length data) then
        splat_loop fuel' src byte_per_element e (i + byte_per_element)
          (copy_at data i (read src byte_per_element))
      else Some OutOfBounds
  end.

(** The data buffer [data_] the constructor leaves behind; the check of
    the type and the bookkeeping of the result type do not touch it.
    [bytes] is
    [data_layout.Bytes(ty)] and [byte_per_element] is
    [data_layout.Bytes(ty.GetDataType())]; [src] is the memory at
    [data_ptr]. [data_.resize(bytes)] fills the fresh buffer with zero
    bytes. *)
Definition Constant (bytes byte_per_element : nat) (src : nat -> Byte.byte)
    (do_splat : bool) : option built :=
  let data := repeat Byte.x00 bytes in
  if negb do_splat then
    Some (Built (copy_at data 0 (read src bytes)))
  else if Nat.eqb byte_per_element 0 then Some DivisionByZero
  else
    splat_loop (S bytes) src byte_per_element
      (Nat.div bytes byte_per_element) 0 data.

(** The buffer the documentation of splatting describes: the one-element
    pattern repeated until the buffer is full. *)
Definition splatted (bytes byte_per_element : nat) (src : nat -> Byte.byte)
  : list Byte.byte :=
  concat (repeat (read src byte_per_element) (Nat.div bytes byte_per_element)).

(** Source memory of the examples: the four bytes of the 32-bit float
    1.0, least significant first. *)
Definition one_float (i : nat) : Byte.byte :=
  nth i [Byte.x00; Byte.x00; Byte.x80; Byte.x3f] Byte.x00.

End Halo.

(* ===================================================================== *)
(** ** Notions the statements use *)
(* ===================================================================== *)

Module Notions.
Import Dnnl Odla.

(** The integers [0 .. n-1]. *)
Definition zrange (n : nat) : list Z := map Z.of_nat (seq 0 n).

(** [l] read through the index list [p]: entry [i] is [l[p[i]]]. *)
Definition permute (p l : list Z) : list Z :=
  map (fun j => nth (Z.to_nat j) l 0) p.

(** Position of the first occurrence of [j] in [p]. *)
Fixpoint index_of (j : Z) (p : list Z) : Z :=
  match p with
  | [] => 0
  | x :: p' => if x =? j then 0 else 1 + index_of j p'
  end.

(** The inverse of a permutation given as the list of its images. *)
Definition inverse_permutation (p : list Z) : list Z :=
  map (fun j => index_of j p) (zrange (length p)).

(** Sum of a list of integers. *)
Definition zsum (l : list Z) : Z := fold_right Z.add 0 l.

(** Product of the extents, without any wrap-around. *)
Definition product (dims : list Z) : Z := fold_right Z.mul 1 dims.

(** Row-major strides of a list of extents. *)
Fixpoint row_major (dims : list Z) : list Z :=
  match dims with
  | [] => []
  | _ :: ds => product ds :: row_major ds
  end.

(** The extents of a shape: [size] is the length of [d] and the first
    [size] entries of the array [dims] are [d]. *)
Definition has_extents (sh : odla_value_shape) (d : list Z) : Prop :=
  shape_size sh = Z.of_nat (length d)
  /\ firstn (length d) (shape_dims sh) = d.

(** A number an [int64_t] holds. *)
Definition fits_int64 (z : Z) : Prop := - 2 ^ 63 <= z < 2 ^ 63.

(** A buffer is allocated when it is not one the engine has yet to hand
    out. *)
Definition allocated (rt : runtime) (p : pointer) : Prop :=
  match p with
  | engine_ptr k => (k < next_buffer rt)%nat
  | _ => True
  end.

(** Immediate mode: an interpreter build with the mode flag set. *)
Definition immediate (cfg : build) (rt : runtime) : Prop :=
  ODLA_DNNL_BUILD_AS_INTERPRETER cfg = true /\ g_interpret_mode rt = true.

(** The plan of the active computation. *)
Definition active_plan (rt : runtime)
  : option (list primitive * list (gmap Z mem_ref)) :=
  match g_comp rt with
  | Some c =>
      match g_comps rt !! c with
      | Some x => Some (primitives x, args x)
      | None => None
      end
  | None => None
  end.

(** A computation that, run on [rt], either stops at an assertion with
    the state untouched or returns with the state untouched. *)
Definition aborts_or_keeps {A} (m : M A) (rt : runtime) : Prop :=
  m rt = AssertFail rt \/ exists a, m rt = Ok a rt.

(** Builds used in the examples: a debug build, a release build and an
    interpreter build. *)
Definition debug_build : build :=
  {| NDEBUG := false; ODLA_DNNL_BUILD_AS_INTERPRETER := false |}.
Definition release_build : build :=
  {| NDEBUG := true; ODLA_DNNL_BUILD_AS_INTERPRETER := false |}.
Definition interpreter_build : build :=
  {| NDEBUG := false; ODLA_DNNL_BUILD_AS_INTERPRETER := true |}.

(** A library for the examples: it prefers the plain channels-first
    layouts and its kernels leave the byte store alone. *)
Definition plain_library : library :=
  {| preferred_formats := fun _ s w d _ _ _ =>
       (desc_by_tag (md_dims s) (md_data_type s) tag_nchw,
        desc_by_tag (md_dims w) (md_data_type w) tag_oihw,
        desc_by_tag (md_dims d) (md_data_type d) tag_nchw);
     compute := fun _ _ h => h |}.

Definition shape_of (l : list Z) : odla_value_shape :=
  {| shape_size := Z.of_nat (length l); shape_dims := l |}.

(** The state a call leaves behind, whatever its outcome. *)
Definition state_after {A} (m : M A) (rt : runtime) : runtime :=
  match m rt with
  | Ok _ rt' => rt'
  | AssertFail rt' => rt'
  | Undefined => rt
  end.

(** Caller memory of the examples: buffer 0 holds the bytes 1, 2, 3, ... *)
Definition demo_bytes : heap :=
  fun p i =>
    match p with
    | caller_ptr O =>
        nth (Z.to_nat i)
          [Byte.x01; Byte.x02; Byte.x03; Byte.x04; Byte.x05; Byte.x06;
           Byte.x07; Byte.x08; Byte.x09; Byte.x0a; Byte.x0b; Byte.x0c;
           Byte.x0d; Byte.x0e; Byte.x0f; Byte.x10] Byte.x00
    | _ => Byte.x00
    end.

(** A small graph under construction: value 0 is an argument of shape
    [2,3,4], value 1 an INT32 constant of shape [4] over caller buffer 0,
    value 2 an argument of shape [2,3], value 3 an argument of shape
    [1,1,4,4], value 4 a constant kernel of shape [1,1,3,3] and value 5
    an argument of shape [3,2]. *)
Definition demo_runtime (cfg : build) : runtime :=
  let rt := with_bytes (fun _ => demo_bytes) (initial_runtime cfg) in
  let rt := state_after (odla_CreateComputation true) rt in
  let rt := state_after (odla_CreateArgument
              {| element_type := ODLA_FLOAT32; shape := shape_of [2; 3; 4] |}
              (Some "x"%string)) rt in
  let rt := state_after (odla_CreateConstant
              {| element_type := ODLA_INT32; shape := shape_of [4] |}
              (caller_ptr 0) (Some "k"%string)) rt in
  let rt := state_after (odla_CreateArgument
              {| element_type := ODLA_FLOAT32; shape := shape_of [2; 3] |}
              (Some "y"%string)) rt in
  let rt := state_after (odla_CreateArgument
              {| element_type := ODLA_FLOAT32; shape := shape_of [1; 1; 4; 4] |}
              (Some "image"%string)) rt in
  let rt := state_after (odla_CreateConstant
              {| element_type := ODLA_FLOAT32; shape := shape_of [1; 1; 3; 3] |}
              (caller_ptr 1) (Some "kernel"%string)) rt in
  state_after (odla_CreateArgument
              {| element_type := ODLA_FLOAT32; shape := shape_of [3; 2] |}
              (Some "z"%string)) rt.

(** The same graph with one execution context, context 0. *)
Definition demo_with_context (cfg : build) : runtime :=
  state_after odla_CreateContext (demo_runtime cfg).

End Notions.

(* ===================================================================== *)
(** ** Notions for the behaviour across calls *)
(* ===================================================================== *)

Module Across.
Import Dnnl Odla Notions.

(** A computation that never changes the mode flag. *)
Definition keeps_mode {A} (m : M A) : Prop :=
  forall rt a rt', m rt = Ok a rt' -> g_interpret_mode rt' = g_interpret_mode rt.

(** A computation that, started in immediate mode, returns in immediate
    mode with the plan of the active computation empty. *)
Definition ends_drained {A} (cfg : build) (m : M A) : Prop :=
  forall rt a rt',
    immediate cfg rt -> m rt = Ok a rt' ->
    immediate cfg rt' /\ active_plan rt' = Some ([], []).

(** The memory object a value handle leads to. *)
Definition memory_of (rt : runtime) (v : nat) : option memory :=
  match values rt !! v with
  | Some x => memories rt !! mem x
  | None => None
  end.

(** [m], started in a state that satisfies [P], ends, when it returns, in
    a state that satisfies [Q]. *)
Definition triple {A} (P : runtime -> Prop) (m : M A) (Q : runtime -> Prop) : Prop :=
  forall rt a rt', P rt -> m rt = Ok a rt' -> Q rt'.

(** Every computation has as many primitives as argument maps, except
    that the active one is [d] primitives ahead. *)
Definition skewed (d : nat) (rt : runtime) : Prop :=
  forall c cx,
    g_comps rt !! c = Some cx ->
    length (primitives cx)
    = (length (args cx) + (if decide (g_comp rt = Some c) then d else 0))%nat.

(** The plans [odla_ExecuteComputation] can run to the end: each
    primitive has its argument map. *)
Definition balanced (rt : runtime) : Prop := skewed 0 rt.

(** [rt'] has everything [rt] has: the memory objects of [rt] are the
    first ones of [rt'], unchanged; a value handle of [rt] leads in [rt']
    to a value of the same shape, name and constness; the active
    computation and the number of computations are the same; no buffer
    was handed back. *)
Definition grows (rt rt' : runtime) : Prop :=
  (exists l, memories rt' = memories rt ++ l)
  /\ (forall v x,
        values rt !! v = Some x ->
        exists x', values rt' !! v = Some x'
                   /\ value_shape x' = value_shape x
                   /\ name x' = name x
                   /\ is_const x' = is_const x)
  /\ g_comp rt' = g_comp rt
  /\ length (g_comps rt') = length (g_comps rt)
  /\ (next_buffer rt <= next_buffer rt')%nat.

(** A computation that only ever adds to the state. *)
Definition only_adds {A} (m : M A) : Prop :=
  forall rt a rt', m rt = Ok a rt' -> grows rt rt'.


End Across.

(* ===================================================================== *)
(** ** Shapes, strides and format tags *)
(* ===================================================================== *)

Module ShapeFacts.
Import Dnnl Odla Notions.

Lemma getDims_length od : length (getDims od) = Z.to_nat (shape_size od).
Proof. unfold getDims. rewrite length_map, length_seq. reflexivity. Qed.

Lemma row_major_length d : length (row_major d) = length d.
Proof. induction d; simpl; congruence. Qed.

Lemma product_skipn_cons (d : list Z) (k : nat) :
  (k < length d)%nat ->
  product (skipn k d) = nth k d 0 * product (skipn (S k) d).
Proof.
  revert k. induction d as [|a d IH]; intros k Hk; simpl in *; [lia|].
  destruct k as [|k]; simpl; [reflexivity|].
  apply IH. lia.
Qed.

Lemma row_major_nth (d : list Z) (k : nat) :
  (k < length d)%nat -> nth k (row_major d) 0 = product (skipn (S k) d).
Proof.
  revert k. induction d as [|a d IH]; intros k Hk; simpl in *; [lia|].
  destruct k as [|k]; [reflexivity|].
  apply IH. lia.
Qed.

Lemma getDims_nth od (k : nat) :
  (k < Z.to_nat (shape_size od))%nat -> nth k (getDims od) 0 = dim_at od k.
Proof.
  intros Hk. unfold getDims.
  rewrite (nth_indep _ 0 (dim_at od 0)) by (rewrite length_map, length_seq; lia).
  rewrite map_nth, seq_nth by lia. reflexivity.
Qed.

Lemma to_int64_fits (z : Z) : fits_int64 z -> to_int64 z = z.
Proof.
  unfold fits_int64, to_int64. intros H.
  rewrite Z.mod_small by lia. lia.
Qed.

(** A product stored in an [int64_t] depends on its factors only up to
    their 64-bit reduction. *)
Lemma to_int64_mul_l (a b : Z) : to_int64 (to_int64 a * b) = to_int64 (a * b).
Proof.
  unfold to_int64. f_equal.
  pose proof (Z.div_mod (a + 2 ^ 63) (2 ^ 64) ltac:(lia)) as Ha.
  set (q := (a + 2 ^ 63) / 2 ^ 64) in *.
  set (r := (a + 2 ^ 63) mod 2 ^ 64) in *.
  replace ((r - 2 ^ 63) * b + 2 ^ 63)
    with (a * b + 2 ^ 63 + (- q * b) * 2 ^ 64) by lia.
  apply Z_mod_plus_full.
Qed.

Lemma wrapped_nth (l : list Z) (k : nat) :
  nth k (map to_int64 l) 0 = to_int64 (nth k l 0).
Proof. change 0 with (to_int64 0) at 1. apply map_nth. Qed.

(** The loop of [getStrides], stopped after its first [j] rounds. *)
Lemma getStrides_loop od (n j : nat) :
  n = Z.to_nat (shape_size od) ->
  (j <= n - 1)%nat ->
  fold_left
    (fun strides i =>
       <[i := to_int64 (nth (S i) strides 0 * dim_at od (S i))]> strides)
    (rev (seq (n - 1 - j) j)) (repeat 1 n)
  = repeat 1 (n - 1 - j)
    ++ skipn (n - 1 - j) (map to_int64 (row_major (getDims od))).
Proof.
  intros Hn.
  set (R := map to_int64 (row_major (getDims od))).
  assert (Hl : length R = n)
    by (unfold R; rewrite length_map, row_major_length, getDims_length; congruence).
  assert (Hd : length (getDims od) = n) by (rewrite getDims_length; congruence).
  induction j as [|j IH]; intros Hj.
  - simpl. rewrite Nat.sub_0_r.
    destruct n as [|n]; [destruct R; [reflexivity|discriminate]|].
    simpl. rewrite Nat.sub_0_r.
    replace (1 :: repeat 1 n) with (repeat 1 n ++ [1])
      by (rewrite <- repeat_cons; reflexivity).
    f_equal.
    assert (Hr : nth n R 0 = 1).
    { unfold R. rewrite wrapped_nth, row_major_nth by lia.
      rewrite skipn_all2 by lia. reflexivity. }
    replace (nth n R 0) with (nth 0 (skipn n R) 0) in Hr
      by (rewrite nth_skipn; f_equal; lia).
    assert (Hs : length (skipn n R) = 1%nat) by (rewrite length_skipn; lia).
    destruct (skipn n R) as [|a [|b l]]; try discriminate.
    simpl in Hr. congruence.
  - replace (n - 1 - S j)%nat with (n - 2 - j)%nat by lia.
    replace (seq (n - 2 - j) (S j)) with ((n - 2 - j)%nat :: seq (n - 1 - j) j)
      by (simpl; f_equal; f_equal; lia).
    simpl rev. rewrite fold_left_app. simpl fold_left.
    rewrite IH by lia.
    set (i := (n - 2 - j)%nat).
    replace (n - 1 - j)%nat with (S i) by (unfold i; lia).
    assert (Hi : (S i < n)%nat) by (unfold i; lia).
    rewrite app_nth2 by (rewrite repeat_length; lia).
    rewrite repeat_length, Nat.sub_diag.
    replace (nth 0 (skipn (S i) R) 0) with (nth (S i) R 0)
      by (rewrite nth_skipn; f_equal; lia).
    assert (Hv : to_int64 (nth (S i) R 0 * dim_at od (S i)) = nth i R 0).
    { unfold R. rewrite !wrapped_nth, to_int64_mul_l. f_equal.
      rewrite !row_major_nth by lia.
      rewrite <- (getDims_nth od (S i)) by lia.
      rewrite (Z.mul_comm (product _)), <- product_skipn_cons by lia.
      reflexivity. }
    rewrite Hv.
    replace (repeat 1 (S i)) with (repeat 1 i ++ [1])
      by (rewrite <- repeat_cons; reflexivity).
    rewrite <- app_assoc. simpl app.
    rewrite insert_app_r_alt by (rewrite repeat_length; lia).
    rewrite repeat_length, Nat.sub_diag. simpl.
    f_equal.
    destruct (lookup_lt_is_Some_2 R i ltac:(lia)) as [x Hx].
    rewrite (drop_S _ x i Hx). f_equal.
    rewrite nth_lookup, Hx. reflexivity.
Qed.

(** [getStrides] leaves the row-major strides, each reduced to 64 bits. *)
Lemma getStrides_wraps od : getStrides od = map to_int64 (row_major (getDims od)).
Proof.
  unfold getStrides.
  set (n := Z.to_nat (shape_size od)).
  pose proof (getStrides_loop od n (n - 1) eq_refl ltac:(lia)) as H.
  replace (n - 1 - (n - 1))%nat with 0%nat in H by lia.
  exact H.
Qed.

Lemma getStrides_row_major od :
  Forall fits_int64 (row_major (getDims od)) ->
  getStrides od = row_major (getDims od).
Proof.
  intros H. rewrite getStrides_wraps.
  induction H as [|z l Hz _ IH]; [reflexivity|].
  cbn [map]. rewrite IH, to_int64_fits by exact Hz. reflexivity.
Qed.

(** A shape with the extents [d] is read by [getDims] as [d]. *)
Lemma has_extents_getDims sh d : has_extents sh d -> getDims sh = d.
Proof.
  intros [Hs Hd]. unfold getDims. rewrite Hs, Nat2Z.id.
  rewrite <- Hd at 2.
  assert (Hl : (length d <= length (shape_dims sh))%nat).
  { rewrite <- Hd. rewrite length_firstn. lia. }
  clear Hs Hd. unfold dim_at.
  revert Hl. generalize (length d) as n. generalize (shape_dims sh) as l.
  intros l n. revert l.
  induction n as [|n IH]; intros l Hl; [reflexivity|].
  destruct l as [|a l]; [simpl in Hl; lia|].
  cbn [firstn seq map nth]. f_equal.
  rewrite <- seq_shift, map_map. apply IH. simpl in Hl. lia.
Qed.

Lemma packed_strides_plain (dims : list Z) :
  (1 <= length dims <= 6)%nat ->
  packed_strides (seq 0 (length dims)) dims = row_major dims.
Proof.
  intros H.
  destruct dims as [|d1 [|d2 [|d3 [|d4 [|d5 [|d6 [|d7 dims]]]]]]];
    simpl in H; try lia;
    unfold packed_strides; simpl; repeat (f_equal; try ring).
Qed.

Lemma getFormatTag_in_range od :
  1 <= shape_size od <= 6 ->
  tag_order (getFormatTag od) = Some (seq 0 (Z.to_nat (shape_size od))).
Proof.
  intros H. unfold getFormatTag.
  assert (Hc : shape_size od = 1 \/ shape_size od = 2 \/ shape_size od = 3
               \/ shape_size od = 4 \/ shape_size od = 5 \/ shape_size od = 6) by lia.
  destruct Hc as [-> | [-> | [-> | [-> | [-> | ->]]]]]; reflexivity.
Qed.

Lemma getFormatTag_out_of_range od :
  shape_size od <= 0 \/ 6 < shape_size od -> getFormatTag od = tag_undef.
Proof.
  intros H. unfold getFormatTag.
  destruct (shape_size od <=? 0) eqn:E1; [reflexivity|].
  destruct (6 <? shape_size od) eqn:E2; [reflexivity|]. lia.
Qed.

Lemma getFormatTag_not_any od : getFormatTag od <> tag_any.
Proof.
  unfold getFormatTag.
  destruct ((shape_size od <=? 0) || (6 <? shape_size od)); [simpl; discriminate|].
  destruct (Z.to_nat (shape_size od)) as [|[|[|[|[|[|[|n]]]]]]]; simpl;
    try discriminate.
  destruct n; discriminate.
Qed.

Lemma desc_by_tag_plain od dt :
  1 <= shape_size od <= 6 ->
  desc_by_tag (getDims od) dt (getFormatTag od)
  = desc_by_strides (getDims od) dt (row_major (getDims od)).
Proof.
  intros H. unfold desc_by_tag, desc_by_strides. f_equal.
  pose proof (getFormatTag_in_range od H) as Ho.
  pose proof (getFormatTag_not_any od) as Hany.
  destruct (getFormatTag od); try congruence; try discriminate;
    rewrite Ho, length_seq, getDims_length, Nat.eqb_refl;
    rewrite <- (getDims_length od) at 1;
    rewrite packed_strides_plain by (rewrite getDims_length; lia);
    reflexivity.
Qed.

(** C8: the shape overload of [getFormatTag] sends every shape of rank 1
    to 6 to the plain tag of that rank, whose dimension order is the
    identity and whose descriptor is the packed row-major one (the strides
    [getStrides] computes, as long as each of them fits an [int64_t]); a
    shape of rank 0, of negative rank or of rank above 6 gets the
    undefined tag, and its descriptor the undefined layout. *)
Theorem getFormatTag_resolves (od : odla_value_shape) (dt : data_type) :
  (1 <= shape_size od <= 6 ->
     tag_order (getFormatTag od) = Some (seq 0 (Z.to_nat (shape_size od)))
     /\ desc_by_tag (getDims od) dt (getFormatTag od)
        = desc_by_strides (getDims od) dt (row_major (getDims od))
     /\ (Forall fits_int64 (row_major (getDims od)) ->
         getStrides od = row_major (getDims od)))
  /\ (shape_size od <= 0 \/ 6 < shape_size od ->
     getFormatTag od = tag_undef
     /\ md_format (desc_by_tag (getDims od) dt (getFormatTag od)) = fmt_undef).
Proof.
  split.
  - intros H. split; [apply getFormatTag_in_range; exact H|].
    split; [apply desc_by_tag_plain; exact H|apply getStrides_row_major].
  - intros H. pose proof (getFormatTag_out_of_range od H) as Ht.
    split; [exact Ht|]. rewrite Ht. reflexivity.
Qed.

Lemma getFormatTag_resolves_witness :
  let od := {| shape_size := 3; shape_dims := [2; 3; 4] |} in
  let bad := {| shape_size := 7; shape_dims := [1; 1; 1; 1; 1; 1; 1] |} in
  (getFormatTag od = tag_abc
   /\ md_format (desc_by_tag (getDims od) f32 (getFormatTag od)) = fmt_blocked [12; 4; 1])
  /\ getFormatTag bad = tag_undef.
Proof.
  intros od bad.
  destruct (getFormatTag_resolves od f32) as [Hin _].
  destruct (getFormatTag_resolves bad f32) as [_ Hout].
  split.
  - destruct (Hin ltac:(simpl; lia)) as (_ & Hd & _).
    split; [reflexivity|]. rewrite Hd. reflexivity.
  - apply Hout. right. simpl. lia.
Defined.

End ShapeFacts.

(* ===================================================================== *)
(** ** The value registry and the binding calls *)
(* ===================================================================== *)

Module RegistryFacts.
Import Dnnl Odla Notions.

Lemma lookup_snoc {A} (l : list A) (x : A) : (l ++ [x]) !! length l = Some x.
Proof. rewrite lookup_app_r by lia. rewrite Nat.sub_diag. reflexivity. Qed.

Lemma lookup_snoc_old {A} (l : list A) (x y : A) (i : nat) :
  l !! i = Some y -> (l ++ [x]) !! i = Some y.
Proof. intros H. rewrite lookup_app_l; [exact H|]. eapply lookup_lt_Some; eauto. Qed.

Lemma active_ok rt c : g_comp rt = Some c -> active rt = Ok c rt.
Proof. intros H. unfold active, bind, get, of_option. rewrite H. reflexivity. Qed.

Lemma comp_get_ok rt c x : g_comps rt !! c = Some x -> comp_get c rt = Ok x rt.
Proof. intros H. unfold comp_get, bind, get, of_option. rewrite H. reflexivity. Qed.

Lemma value_get_ok rt v x : values rt !! v = Some x -> value_get v rt = Ok x rt.
Proof. intros H. unfold value_get, bind, get, of_option. rewrite H. reflexivity. Qed.

Lemma memory_get_ok rt r m : memories rt !! r = Some m -> memory_get r rt = Ok m rt.
Proof. intros H. unfold memory_get, bind, get, of_option. rewrite H. reflexivity. Qed.

Lemma comp_update_ok rt c x f :
  g_comps rt !! c = Some x ->
  comp_update c f rt = Ok tt (with_g_comps (fun l => <[c := f x]> l) rt).
Proof.
  intros H. unfold comp_update, bind. rewrite (comp_get_ok _ _ _ H). reflexivity.
Qed.

Lemma CreateValue_ok rt c x m sh id :
  g_comp rt = Some c -> g_comps rt !! c = Some x ->
  CreateValue m sh id rt
  = Ok (length (values rt))
       (with_g_comps
          (fun l => <[c := comp_with_vals (vals x ++ [length (values rt)]) x]> l)
          (with_values
             (fun l => l ++ [{| mem := m; is_const := false; value_shape := sh;
                                name := match id with None => EmptyString | Some s => s end |}])
             rt)).
Proof.
  intros Hc Hx. unfold CreateValue, bind, get, modify.
  rewrite (active_ok _ c) by exact Hc.
  rewrite (comp_update_ok _ c x) by exact Hx.
  reflexivity.
Qed.
Lemma alloc_memory_ok rt md :
  alloc_memory md rt
  = Ok (length (memories rt))
       (with_memories
          (fun l => l ++ [{| mem_desc := md; data_handle := engine_ptr (next_buffer rt) |}])
          (with_next_buffer (S (next_buffer rt)) rt)).
Proof. reflexivity. Qed.

Lemma new_memory_ok rt md p :
  new_memory md p rt
  = Ok (length (memories rt))
       (with_memories (fun l => l ++ [{| mem_desc := md; data_handle := p |}]) rt).
Proof. reflexivity. Qed.

(** C10: [odla_GetValueType] reports [ODLA_FLOAT32] and the stored shape
    for every value, whatever it was created with: an argument is backed
    by an engine buffer whose descriptor is 32-bit float for any declared
    element type, and a constant keeps the data type of its declared
    element type in its descriptor (an INT32 constant is [s32]) and is
    still reported as [ODLA_FLOAT32]; the shape is reported as declared. *)
Theorem GetValueType_reports_float32
    (rt : runtime) (c : odla_computation) (cx : _odla_computation)
    (value : odla_value) (x : _odla_value)
    (type : odla_value_type) (nm : string) (ptr : pointer) (id : odla_value_id) :
  g_comp rt = Some c ->
  g_comps rt !! c = Some cx ->
  values rt !! value = Some x ->
  odla_GetValueType value rt
    = Ok (Some ODLA_SUCCESS,
          {| element_type := ODLA_FLOAT32; shape := value_shape x |}) rt
  /\ (exists a rt' xa ma,
        odla_CreateArgument type (Some nm) rt = Ok a rt'
        /\ values rt' !! a = Some xa
        /\ memories rt' !! mem xa = Some ma
        /\ mem_desc ma = getMemoryDesc (shape type) ODLA_FLOAT32
        /\ md_data_type (mem_desc ma) = f32
        /\ data_handle ma = engine_ptr (next_buffer rt)
        /\ odla_GetValueType a rt'
           = Ok (Some ODLA_SUCCESS,
                 {| element_type := ODLA_FLOAT32; shape := shape type |}) rt')
  /\ (exists k rt' xk mk,
        odla_CreateConstant type ptr id rt = Ok k rt'
        /\ values rt' !! k = Some xk
        /\ is_const xk = true
        /\ memories rt' !! mem xk = Some mk
        /\ md_data_type (mem_desc mk) = getDataType (element_type type)
        /\ data_handle mk = ptr
        /\ odla_GetValueType k rt'
           = Ok (Some ODLA_SUCCESS,
                 {| element_type := ODLA_FLOAT32; shape := shape type |}) rt').
Proof.
  intros Hc Hx Hv. split; [|split].
  - unfold odla_GetValueType, bind. rewrite (value_get_ok _ _ _ Hv). reflexivity.
  - unfold odla_CreateArgument, bind.
    rewrite alloc_memory_ok.
    rewrite (CreateValue_ok _ c cx) by assumption.
    unfold of_option, ret.
    rewrite (active_ok _ c) by assumption.
    erewrite comp_update_ok by (simpl; apply list_lookup_insert_eq; eapply lookup_lt_Some; eauto).
    eexists _, _, _, _. split; [reflexivity|].
    simpl. split; [apply lookup_snoc|].
    simpl. split; [apply lookup_snoc|].
    split; [reflexivity|]. split; [reflexivity|]. split; [reflexivity|].
    unfold odla_GetValueType, bind.
    erewrite value_get_ok by (simpl; apply lookup_snoc). reflexivity.
  - unfold odla_CreateConstant, bind.
    rewrite new_memory_ok.
    rewrite (CreateValue_ok _ c cx) by assumption.
    unfold value_update, bind.
    erewrite value_get_ok by (simpl; apply lookup_snoc).
    unfold modify, ret.
    eexists _, _, _, _. split; [reflexivity|].
    simpl. split.
    { rewrite insert_app_r_alt by lia. rewrite Nat.sub_diag. simpl. apply lookup_snoc. }
    simpl. split; [reflexivity|].
    split; [apply lookup_snoc|].
    split; [reflexivity|]. split; [reflexivity|].
    unfold odla_GetValueType, bind.
    erewrite value_get_ok
      by (simpl; rewrite insert_app_r_alt by lia; rewrite Nat.sub_diag; apply lookup_snoc).
    reflexivity.
Qed.

Lemma GetValueType_reports_float32_witness :
  odla_GetValueType 1%nat (demo_runtime debug_build)
  = Ok (Some ODLA_SUCCESS,
        {| element_type := ODLA_FLOAT32; shape := shape_of [4] |})
       (demo_runtime debug_build)
  /\ exists k rt', odla_CreateConstant
         {| element_type := ODLA_INT32; shape := shape_of [2; 2] |}
         (caller_ptr 7) None (demo_runtime debug_build) = Ok k rt'.
Proof.
  assert (Hc : g_comp (demo_runtime debug_build) = Some 0%nat)
    by (vm_compute; reflexivity).
  assert (Hx : exists cx, g_comps (demo_runtime debug_build) !! 0%nat = Some cx)
    by (vm_compute; eexists; reflexivity).
  destruct Hx as [cx Hx].
  assert (Hv : values (demo_runtime debug_build) !! 1%nat
               = Some {| mem := 1%nat; is_const := true;
                         value_shape := shape_of [4]; name := "k" |})
    by (vm_compute; reflexivity).
  destruct (GetValueType_reports_float32 (demo_runtime debug_build) 0%nat cx 1%nat _
              {| element_type := ODLA_INT32; shape := shape_of [2; 2] |}
              "w"%string (caller_ptr 7) None Hc Hx Hv)
    as (Hq & _ & k & rt' & _ & _ & Hk & _).
  split; [exact Hq|]. exists k, rt'. exact Hk.
Defined.

(** C1: [odla_BindToOutput] on a constant value copies the bytes of the
    value's buffer (as many as its descriptor occupies) into the caller's
    buffer and leaves every memory object, the value's own handle among
    them, as it was; on any other value it repoints the value's memory
    object to the caller's buffer and moves no byte. Either way the call
    returns [ODLA_SUCCESS] and leaves values and computations alone. *)
Theorem BindToOutput_copies_constants_and_aliases_the_rest
    (rt : runtime) (value : odla_value) (x : _odla_value) (m : memory)
    (data_ptr : pointer) :
  values rt !! value = Some x ->
  memories rt !! mem x = Some m ->
  exists rt',
    odla_BindToOutput value data_ptr rt = Ok (Some ODLA_SUCCESS) rt'
    /\ values rt' = values rt
    /\ g_comps rt' = g_comps rt
    /\ (is_const x = true ->
          memories rt' = memories rt
          /\ (forall i, 0 <= i < get_size (mem_desc m) ->
                bytes rt' data_ptr i = bytes rt (data_handle m) i)
          /\ (forall q i, q <> data_ptr \/ ~ (0 <= i < get_size (mem_desc m)) ->
                bytes rt' q i = bytes rt q i))
    /\ (is_const x = false ->
          bytes rt' = bytes rt
          /\ memories rt' !! mem x
             = Some {| mem_desc := mem_desc m; data_handle := data_ptr |}
          /\ (forall r, r <> mem x -> memories rt' !! r = memories rt !! r)).
Proof.
  intros Hv Hm. unfold odla_BindToOutput, bind.
  rewrite (value_get_ok _ _ _ Hv).
  destruct (is_const x) eqn:Hk.
  - rewrite (memory_get_ok _ _ _ Hm). unfold modify, ret.
    eexists. split; [reflexivity|]. simpl.
    split; [reflexivity|]. split; [reflexivity|].
    split; [|discriminate]. intros _.
    split; [reflexivity|]. split.
    + intros i Hi. unfold memcpy.
      destruct (decide (data_ptr = data_ptr)) as [_|Hne]; [|congruence].
      destruct (Z.leb_spec 0 i); [|lia].
      destruct (Z.ltb_spec i (get_size (mem_desc m))); [|lia].
      reflexivity.
    + intros q i Hq. unfold memcpy.
      destruct (decide (q = data_ptr)) as [Heq|Hne]; [|reflexivity].
      destruct Hq as [Hq|Hq]; [congruence|].
      destruct (Z.leb_spec 0 i); [|reflexivity].
      destruct (Z.ltb_spec i (get_size (mem_desc m))); [lia|reflexivity].
  - unfold set_data_handle, bind. rewrite (memory_get_ok _ _ _ Hm).
    unfold modify, ret.
    eexists. split; [reflexivity|]. simpl.
    split; [reflexivity|]. split; [reflexivity|].
    split; [discriminate|]. intros _.
    split; [reflexivity|]. split.
    + apply list_lookup_insert_eq. eapply lookup_lt_Some; eauto.
    + intros r Hr. apply list_lookup_insert_ne. congruence.
Qed.

Lemma BindToOutput_copies_constants_and_aliases_the_rest_witness :
  exists rt',
    odla_BindToOutput 1%nat (caller_ptr 5) (demo_runtime debug_build)
    = Ok (Some ODLA_SUCCESS) rt'
    /\ bytes rt' (caller_ptr 5) 2 = Byte.x03.
Proof.
  assert (Hv : values (demo_runtime debug_build) !! 1%nat
               = Some {| mem := 1%nat; is_const := true;
                         value_shape := shape_of [4]; name := "k" |})
    by (vm_compute; reflexivity).
  assert (Hm : memories (demo_runtime debug_build) !! 1%nat
               = Some {| mem_desc := desc_by_strides [4] s32 [1];
                         data_handle := caller_ptr 0 |})
    by (vm_compute; reflexivity).
  destruct (BindToOutput_copies_constants_and_aliases_the_rest
              (demo_runtime debug_build) 1%nat _ _ (caller_ptr 5) Hv Hm)
    as (rt' & Hcall & _ & _ & Hconst & _).
  exists rt'. split; [exact Hcall|].
  destruct (Hconst eq_refl) as (_ & Hcopy & _).
  assert (Hr : 0 <= 2 < get_size (desc_by_strides [4] s32 [1]))
    by (vm_compute; split; [discriminate|reflexivity]).
  rewrite (Hcopy 2 Hr). vm_compute. reflexivity.
Defined.

(** C7: [odla_Reshape] on a declared shape with the element count of the
    input returns a new value that shares the input's memory object, and
    with it the buffer, under the declared shape; it adds no plan entry,
    creates no memory object and changes no byte, and the input value is
    as it was. *)
Theorem Reshape_aliases_the_input_buffer
    (rt : runtime) (c : odla_computation) (cx : _odla_computation)
    (input : odla_value) (x : _odla_value)
    (output_dims : odla_value_shape) (id : odla_value_id) :
  g_comp rt = Some c ->
  g_comps rt !! c = Some cx ->
  values rt !! input = Some x ->
  product (getDims output_dims) = product (getDims (value_shape x)) ->
  exists v rt' y cx',
    odla_Reshape input output_dims id rt = Ok v rt'
    /\ values rt !! v = None
    /\ values rt' !! v = Some y
    /\ mem y = mem x
    /\ value_shape y = output_dims
    /\ product (getDims (value_shape y)) = product (getDims (value_shape x))
    /\ values rt' !! input = Some x
    /\ memories rt' = memories rt
    /\ bytes rt' = bytes rt
    /\ g_comps rt' !! c = Some cx'
    /\ primitives cx' = primitives cx
    /\ args cx' = args cx.
Proof.
  intros Hc Hx Hv Hn. unfold odla_Reshape, bind.
  rewrite (value_get_ok _ _ _ Hv).
  rewrite (CreateValue_ok _ c cx) by assumption.
  eexists _, _, _, _. split; [reflexivity|]. simpl.
  split; [apply lookup_ge_None_2; lia|].
  split; [apply lookup_snoc|].
  split; [reflexivity|]. split; [reflexivity|]. split; [exact Hn|].
  split; [eapply lookup_snoc_old; exact Hv|].
  split; [reflexivity|]. split; [reflexivity|].
  split; [apply list_lookup_insert_eq; eapply lookup_lt_Some; eauto|].
  split; reflexivity.
Qed.

Lemma Reshape_aliases_the_input_buffer_witness :
  exists v rt',
    odla_Reshape 0%nat (shape_of [6; 4]) None (demo_runtime debug_build) = Ok v rt'
    /\ memories rt' = memories (demo_runtime debug_build).
Proof.
  assert (Hc : g_comp (demo_runtime debug_build) = Some 0%nat)
    by (vm_compute; reflexivity).
  assert (Hx : exists cx, g_comps (demo_runtime debug_build) !! 0%nat = Some cx)
    by (vm_compute; eexists; reflexivity).
  destruct Hx as [cx Hx].
  assert (Hv : values (demo_runtime debug_build) !! 0%nat
               = Some {| mem := 0%nat; is_const := false;
                         value_shape := shape_of [2; 3; 4]; name := "x" |})
    by (vm_compute; reflexivity).
  destruct (Reshape_aliases_the_input_buffer (demo_runtime debug_build) 0%nat cx
              0%nat _ (shape_of [6; 4]) None Hc Hx Hv eq_refl)
    as (v & rt' & y & cx' & Hcall & _ & _ & _ & _ & _ & _ & Hmem & _).
  exists v, rt'. split; assumption.
Defined.

End RegistryFacts.

(* ===================================================================== *)
(** ** Status values and immediate mode *)
(* ===================================================================== *)

Module ModeFacts.
Import Dnnl Odla Notions RegistryFacts.

(** A [bind] that returns did so through both of its parts. *)
Lemma bind_Ok {A B} (m : M A) (k : A -> M B) rt b rt' :
  bind m k rt = Ok b rt' ->
  exists a rt1, m rt = Ok a rt1 /\ k a rt1 = Ok b rt'.
Proof.
  unfold bind. destruct (m rt) as [a rt1| |]; try discriminate.
  intros H. exists a, rt1. split; [reflexivity|exact H].
Qed.

(** [odla_GetValueData] and [odla_SetValueAsOutput] never return: when
    their statements are done, control flows off the end. *)
Lemma GetValueData_never_returns cfg value data_ptr rt s rt' :
  odla_GetValueData cfg value data_ptr rt <> Ok s rt'.
Proof.
  unfold odla_GetValueData. intros H.
  apply bind_Ok in H as (? & ? & _ & H). discriminate.
Qed.

Lemma SetValueAsOutput_never_returns val rt s rt' :
  odla_SetValueAsOutput val rt <> Ok s rt'.
Proof.
  unfold odla_SetValueAsOutput. intros H.
  apply bind_Ok in H as (? & ? & _ & H). discriminate.
Qed.

(** The sibling calls that end in [return ODLA_SUCCESS]. *)
Lemma SetValueData_status cfg value ptr rt s rt' :
  odla_SetValueData cfg value ptr rt = Ok s rt' -> s = Some ODLA_SUCCESS.
Proof.
  unfold odla_SetValueData. intros H.
  apply bind_Ok in H as (? & ? & _ & H).
  apply bind_Ok in H as (? & ? & _ & H).
  apply bind_Ok in H as (? & ? & _ & H).
  unfold ret in H. congruence.
Qed.

Lemma BindToArgument_status value ptr rt s rt' :
  odla_BindToArgument value ptr rt = Ok s rt' -> s = Some ODLA_SUCCESS.
Proof.
  unfold odla_BindToArgument. intros H.
  apply bind_Ok in H as (? & ? & _ & H).
  apply bind_Ok in H as (? & ? & _ & H).
  unfold ret in H. congruence.
Qed.

Lemma ExecuteComputation_status lib c ctx rt s rt' :
  odla_ExecuteComputation lib c ctx rt = Ok s rt' -> s = Some ODLA_SUCCESS.
Proof.
  unfold odla_ExecuteComputation. intros H.
  apply bind_Ok in H as (? & ? & _ & H).
  apply bind_Ok in H as (? & ? & _ & H).
  unfold ret in H. congruence.
Qed.

(** C3, on the code: [odla_GetValueData] and [odla_SetValueAsOutput]
    return no status in any state. In an interpreter build, on the
    example graph, the statements of [odla_GetValueData] copy the value's
    bytes out and those of [odla_SetValueAsOutput] record the output,
    and then control flows off the end of either function, which is
    outside defined behaviour; [odla_SetValueData] on the same state
    returns [ODLA_SUCCESS]. *)
Theorem GetValueData_and_SetValueAsOutput_return_no_status :
  (forall cfg value data_ptr rt s rt',
     odla_GetValueData cfg value data_ptr rt <> Ok s rt')
  /\ (forall val rt s rt', odla_SetValueAsOutput val rt <> Ok s rt')
  /\ (exists rt',
        odla_GetValueData_body interpreter_build 1%nat (caller_ptr 5)
          (demo_runtime interpreter_build) = Ok tt rt'
        /\ bytes rt' (caller_ptr 5) 0 = Byte.x01)
  /\ odla_GetValueData interpreter_build 1%nat (caller_ptr 5)
       (demo_runtime interpreter_build) = Undefined
  /\ (exists rt' cx,
        odla_SetValueAsOutput_body 0%nat (demo_runtime interpreter_build) = Ok tt rt'
        /\ g_comps rt' !! 1%nat = Some cx
        /\ outputs cx !! "x"%string = Some 0%nat)
  /\ odla_SetValueAsOutput 0%nat (demo_runtime interpreter_build) = Undefined
  /\ (exists rt',
        odla_SetValueData interpreter_build 1%nat (caller_ptr 5)
          (demo_runtime interpreter_build) = Ok (Some ODLA_SUCCESS) rt').
Proof.
  split; [intros; apply GetValueData_never_returns|].
  split; [intros; apply SetValueAsOutput_never_returns|].
  split; [vm_compute; eexists; split; reflexivity|].
  split; [vm_compute; reflexivity|].
  split; [vm_compute; eexists _, _; split; [reflexivity|]; split; reflexivity|].
  split; [vm_compute; reflexivity|].
  vm_compute. eexists. reflexivity.
Qed.

(** Running a plan changes the byte store and nothing else. *)
Lemma execute_plan_frame lib c rt u rt' :
  execute_plan lib c rt = Ok u rt' ->
  exists h, rt' = with_bytes (fun _ => h) rt.
Proof.
  unfold execute_plan. intros H.
  apply bind_Ok in H as (x & rt1 & H1 & H).
  apply bind_Ok in H as (rt2 & rt3 & H2 & H).
  apply bind_Ok in H as (h & rt4 & H3 & H).
  unfold comp_get, bind, get, of_option in H1.
  destruct (g_comps rt !! c); try discriminate.
  unfold ret in H1. injection H1 as <- <-.
  unfold get in H2. injection H2 as <- <-.
  unfold of_option in H3.
  destruct (run_plan _ _ _ _ _); try discriminate.
  unfold ret in H3. injection H3 as <- <-.
  unfold modify in H. injection H as _ <-.
  exists h0. reflexivity.
Qed.

(** In immediate mode [InterpretIfNeeded], when it returns, leaves the
    active computation with an empty plan and no argument bindings. *)
Lemma InterpretIfNeeded_drains cfg lib rt rt' :
  immediate cfg rt ->
  InterpretIfNeeded cfg lib rt = Ok tt rt' ->
  active_plan rt' = Some ([], []).
Proof.
  intros [Hb Hm] H. unfold InterpretIfNeeded in H. rewrite Hb in H.
  apply bind_Ok in H as (rt0 & rt1 & Hg & H).
  unfold get in Hg. injection Hg as <- <-. rewrite Hm in H. simpl in H.
  apply bind_Ok in H as (ctx & rt2 & _ & H).
  apply bind_Ok in H as (? & rt3 & _ & H).
  apply bind_Ok in H as (c & rt4 & Hc & H).
  apply bind_Ok in H as (? & rt5 & He & H).
  apply bind_Ok in H as (? & rt6 & H6 & H).
  apply execute_plan_frame in He as [h He].
  unfold active, bind, get, of_option in Hc.
  destruct (g_comp rt3) as [c'|] eqn:Hgc; try discriminate.
  unfold ret in Hc. injection Hc as -> <-.
  unfold comp_update in H6, H.
  apply bind_Ok in H6 as (x5 & rt5' & Hx5 & H6).
  apply bind_Ok in H as (x6 & rt6' & Hx6 & H).
  unfold comp_get, bind, get, of_option in Hx5, Hx6.
  destruct (g_comps rt5 !! c) as [y5|] eqn:Hl5; try discriminate.
  destruct (g_comps rt6 !! c) as [y6|] eqn:Hl6; try discriminate.
  unfold ret in Hx5, Hx6. injection Hx5 as <- <-. injection Hx6 as <- <-.
  unfold modify in H6, H. injection H6 as H6. injection H as H.
  subst rt6 rt'.
  unfold active_plan. simpl.
  simpl in Hl6. rewrite list_lookup_insert_eq in Hl6
    by (eapply lookup_lt_Some; eauto).
  injection Hl6 as <-.
  assert (Hg5 : g_comp rt5 = Some c) by (subst rt5; exact Hgc).
  rewrite Hg5.
  rewrite list_lookup_insert_eq.
  - reflexivity.
  - rewrite length_insert. eapply lookup_lt_Some; eauto.
Qed.

(** C2, on the code: in immediate mode, starting from the empty plan of
    the example graph, [odla_Transpose] and [odla_Gemm] without a bias
    both return with one entry left in the plan, not executed and not
    cleared; [odla_Sigmoid] and [odla_Add] on the same state return with
    the plan drained. *)
Theorem Transpose_and_Gemm_leave_the_plan_undrained :
  immediate interpreter_build (demo_runtime interpreter_build)
  /\ active_plan (demo_runtime interpreter_build) = Some ([], [])
  /\ (exists v rt' p a,
        odla_Transpose 0%nat (shape_of [2; 0; 1]) (shape_of [4; 2; 3]) None
          (demo_runtime interpreter_build) = Ok v rt'
        /\ active_plan rt' = Some ([p], [a]))
  /\ (exists v rt' p a,
        odla_Gemm interpreter_build plain_library 2%nat false 5%nat false None
          (shape_of [2; 2]) None (demo_runtime interpreter_build) = Ok v rt'
        /\ active_plan rt' = Some ([p], [a]))
  /\ (exists v rt',
        odla_Sigmoid interpreter_build plain_library 0%nat None
          (demo_runtime interpreter_build) = Ok v rt'
        /\ active_plan rt' = Some ([], []))
  /\ (exists v rt',
        odla_Add interpreter_build plain_library 0%nat 1%nat None
          (demo_runtime interpreter_build) = Ok v rt'
        /\ active_plan rt' = Some ([], [])).
Proof.
  split; [split; reflexivity|].
  split; [vm_compute; reflexivity|].
  split; [vm_compute; eexists _, _, _, _; split; reflexivity|].
  split; [vm_compute; eexists _, _, _, _; split; reflexivity|].
  split; vm_compute; eexists _, _; split; reflexivity.
Qed.

End ModeFacts.

(* ===================================================================== *)
(** ** The data buffer of a [Constant] *)
(* ===================================================================== *)

Module ConstantFacts.
Import Halo.

Lemma read_length src n : length (read src n) = n.
Proof. unfold read. rewrite length_map, length_seq. reflexivity. Qed.

Lemma copy_at_length data i chunk :
  (i + length chunk <= length data)%nat ->
  length (copy_at data i chunk) = length data.
Proof.
  intros H. unfold copy_at.
  rewrite !length_app, length_firstn, length_skipn. lia.
Qed.

(** The fuel the constructor gives its loop is enough: every run ends,
    with the buffer built or with a write out of bounds. *)
Lemma splat_loop_total fuel src byte_per_element e i data :
  (0 < byte_per_element)%nat ->
  (i <= length data)%nat ->
  (length data + 1 <= fuel + i)%nat ->
  splat_loop fuel src byte_per_element e i data <> None.
Proof.
  intros Hp. revert i data.
  induction fuel as [|fuel IH]; intros i data Hi Hf; simpl; [lia|].
  destruct (Nat.eqb i e); [discriminate|].
  destruct (Nat.leb_spec (i + byte_per_element) (length data)) as [Hle|Hgt];
    [|discriminate].
  apply IH.
  - rewrite copy_at_length by (rewrite read_length; lia). lia.
  - rewrite copy_at_length by (rewrite read_length; lia). lia.
Qed.

Lemma Constant_total bytes byte_per_element src do_splat :
  Constant bytes byte_per_element src do_splat <> None.
Proof.
  unfold Constant. destruct do_splat; cbn [negb]; [|discriminate].
  destruct (Nat.eqb_spec byte_per_element 0); [discriminate|].
  apply splat_loop_total; rewrite ?repeat_length; lia.
Qed.

(** Without splatting the buffer is the first [bytes] bytes at the source
    pointer. *)
Lemma Constant_copies_verbatim bytes byte_per_element src :
  Constant bytes byte_per_element src false = Some (Built (read src bytes)).
Proof.
  unfold Constant, copy_at. simpl.
  rewrite read_length, skipn_all2 by (rewrite repeat_length; lia).
  rewrite app_nil_r. reflexivity.
Qed.

(** With one-byte elements the loop does fill the buffer. *)
Lemma splat_loop_single_byte src e i fuel :
  (i <= e)%nat -> (e - i < fuel)%nat ->
  splat_loop fuel src 1 e i (repeat (src 0%nat) i ++ repeat Byte.x00 (e - i))
  = Some (Built (repeat (src 0%nat) e)).
Proof.
  revert i. induction fuel as [|fuel IH]; intros i Hi Hf; [lia|]. simpl.
  destruct (Nat.eqb_spec i e) as [->|Hne].
  - rewrite Nat.sub_diag, app_nil_r. reflexivity.
  - rewrite length_app, !repeat_length.
    destruct (Nat.leb_spec (i + 1) (i + (e - i))) as [_|Hgt]; [|lia].
    replace (copy_at (repeat (src 0%nat) i ++ repeat Byte.x00 (e - i)) i (read src 1))
      with (repeat (src 0%nat) (i + 1) ++ repeat Byte.x00 (e - (i + 1))).
    + apply IH; lia.
    + unfold copy_at, read. simpl.
      rewrite firstn_app, repeat_length, Nat.sub_diag, firstn_O, app_nil_r.
      rewrite firstn_all2 by (rewrite repeat_length; lia).
      rewrite skipn_app, repeat_length.
      rewrite skipn_all2 by (rewrite repeat_length; lia).
      replace (i + 1 - i)%nat with 1%nat by lia.
      replace (e - i)%nat with (S (e - (i + 1))) by lia.
      simpl. rewrite repeat_app, <- app_assoc. reflexivity.
Qed.

Lemma Constant_splats_single_bytes bytes src :
  Constant bytes 1 src true = Some (Built (splatted bytes 1 src)).
Proof.
  unfold Constant, splatted. simpl Nat.eqb. cbv iota. simpl negb. cbv iota.
  rewrite Nat.div_1_r.
  pose proof (splat_loop_single_byte src bytes 0 (S bytes) ltac:(lia) ltac:(lia)) as H.
  simpl repeat in H at 1. simpl app in H. rewrite Nat.sub_0_r in H.
  rewrite H. do 2 f_equal.
  unfold read. simpl. clear H.
  induction bytes as [|n IH]; simpl; congruence.
Qed.

(** C9, on the code: splatting the 32-bit float 1.0 over a FLOAT32
    constant of four elements (16 bytes, 4 bytes per element) writes
    the pattern once and stops, so the buffer is the pattern followed by
    twelve zero bytes and not the pattern repeated four times; over a
    constant of two elements the loop runs past the end of the buffer. *)
Theorem Constant_splat_writes_one_element :
  Constant 16 4 one_float true
    = Some (Built ([Byte.x00; Byte.x00; Byte.x80; Byte.x3f] ++ repeat Byte.x00 12))
  /\ Constant 16 4 one_float true <> Some (Built (splatted 16 4 one_float))
  /\ Constant 8 4 one_float true = Some OutOfBounds.
Proof.
  split; [reflexivity|]. split; [|reflexivity].
  vm_compute. discriminate.
Qed.

End ConstantFacts.

(* ===================================================================== *)
(** ** Assertions in the lowering functions *)
(* ===================================================================== *)

Module AssertionFacts.
Import Dnnl Odla Notions ShapeFacts RegistryFacts ModeFacts.

Lemma InterpretIfNeeded_compiled cfg lib rt :
  ODLA_DNNL_BUILD_AS_INTERPRETER cfg = false \/ g_interpret_mode rt = false ->
  InterpretIfNeeded cfg lib rt = Ok tt rt.
Proof.
  intros H. unfold InterpretIfNeeded.
  destruct (ODLA_DNNL_BUILD_AS_INTERPRETER cfg); [|reflexivity].
  destruct H as [H|H]; [discriminate|].
  unfold bind, get. rewrite H. reflexivity.
Qed.

Lemma iter_cons_zero (k : nat) (s : list Z) :
  Nat.iter k (cons 0) s = repeat 0 k ++ s.
Proof. induction k as [|k IH]; simpl; congruence. Qed.

(** The loop that writes the broadcast strides into a descriptor. *)
Lemma set_stride_loop dims dt (s s0 : list Z) (k : nat) :
  (k <= length s)%nat -> length s0 = length s ->
  fold_left (fun md i => set_stride md i (nth i s 0)) (seq 0 k)
            (desc_by_strides dims dt s0)
  = desc_by_strides dims dt (firstn k s ++ skipn k s0).
Proof.
  intros Hk Hl. induction k as [|k IH].
  - reflexivity.
  - rewrite seq_S, fold_left_app, IH by lia. simpl.
    unfold set_stride, desc_by_strides. simpl. f_equal.
    rewrite insert_app_r_alt by (rewrite length_firstn; lia).
    rewrite length_firstn. replace (k - Init.Nat.min k (length s))%nat with 0%nat by lia.
    destruct (lookup_lt_is_Some_2 s0 k ltac:(lia)) as [y Hy].
    rewrite (drop_S _ y k Hy). simpl.
    destruct (lookup_lt_is_Some_2 s k ltac:(lia)) as [z Hz].
    rewrite (take_S_r _ _ z Hz), <- app_assoc. simpl.
    rewrite nth_lookup, Hz. reflexivity.
Qed.

Lemma getStrides_length od : length (getStrides od) = Z.to_nat (shape_size od).
Proof.
  rewrite getStrides_wraps, length_map, row_major_length. apply getDims_length.
Qed.
Lemma bind_ok_eq {A B} (m : M A) (k : A -> M B) rt a rt1 :
  m rt = Ok a rt1 -> bind m k rt = k a rt1.
Proof. intros H. unfold bind. rewrite H. reflexivity. Qed.

Lemma bind_abort_eq {A B} (m : M A) (k : A -> M B) rt rt1 :
  m rt = AssertFail rt1 -> bind m k rt = AssertFail rt1.
Proof. intros H. unfold bind. rewrite H. reflexivity. Qed.

Lemma push_primitive_ok rt c x p :
  g_comp rt = Some c -> g_comps rt !! c = Some x ->
  push_primitive p rt
  = Ok tt (with_g_comps
             (fun l => <[c := comp_with_plan (primitives x ++ [p]) (args x) x]> l) rt).
Proof.
  intros Hc Hx. unfold push_primitive.
  rewrite (bind_ok_eq _ _ _ _ _ (active_ok _ _ Hc)).
  rewrite (comp_update_ok _ _ _ _ Hx). reflexivity.
Qed.

Lemma push_args_ok rt c x a :
  g_comp rt = Some c -> g_comps rt !! c = Some x ->
  push_args a rt
  = Ok tt (with_g_comps
             (fun l => <[c := comp_with_plan (primitives x) (args x ++ [a]) x]> l) rt).
Proof.
  intros Hc Hx. unfold push_args.
  rewrite (bind_ok_eq _ _ _ _ _ (active_ok _ _ Hc)).
  rewrite (comp_update_ok _ _ _ _ Hx). reflexivity.
Qed.

(** C4, as the code has it: on operands of different rank the
    divisibility requirement of [binary_eltwise] is an [assert]. In a
    build with assertions, a right-hand element count that exceeds the
    left-hand one, or is not zero and leaves a remainder, aborts the
    process with computations, values and bytes as they were before the
    call. In a build without assertions, or when the count divides, the
    call goes on to append one binary primitive with its argument
    bindings and one value, and hands over to [InterpretIfNeeded]; outside
    immediate mode it returns that value. For a left operand of rank 1 to
    6 and a right operand of lower rank the primitive views the right
    operand with the left operand's extents, stride 0 on each leading
    dimension the right operand lacks and the right operand's row-major
    strides on the others, as long as each of these strides fits an
    [int64_t]. Element counts are those [GetTotalElements] computes. *)
Theorem binary_eltwise_rank_mismatch
    (cfg : build) (lib : library) (algo : algorithm) (rt : runtime)
    (c : odla_computation) (cx : _odla_computation)
    (lhs rhs : odla_value) (l r : _odla_value) (lm rm : memory)
    (id : odla_value_id) :
  g_comp rt = Some c ->
  g_comps rt !! c = Some cx ->
  values rt !! lhs = Some l ->
  values rt !! rhs = Some r ->
  memories rt !! mem l = Some lm ->
  memories rt !! mem r = Some rm ->
  shape_size (value_shape l) <> shape_size (value_shape r) ->
  let ln := GetTotalElements (value_shape l) in
  let rn := GetTotalElements (value_shape r) in
  let lhs_md := desc_by_tag (getDims (value_shape l)) (md_data_type (mem_desc lm))
                  (getFormatTag (value_shape l)) in
  (NDEBUG cfg = false -> ln < rn \/ (rn <> 0 /\ Z.rem ln rn <> 0) ->
     exists rt',
       binary_eltwise cfg lib algo lhs rhs id rt = AssertFail rt'
       /\ g_comps rt' = g_comps rt
       /\ values rt' = values rt
       /\ bytes rt' = bytes rt)
  /\ (NDEBUG cfg = true \/ (rn <= ln /\ rn <> 0 /\ Z.rem ln rn = 0) ->
     exists rt1 v cx1 rhs_md a,
       binary_eltwise cfg lib algo lhs rhs id rt
         = (InterpretIfNeeded cfg lib;;; ret v) rt1
       /\ (~ immediate cfg rt ->
             binary_eltwise cfg lib algo lhs rhs id rt = Ok v rt1)
       /\ g_comps rt1 !! c = Some cx1
       /\ primitives cx1 = primitives cx ++ [prim_binary algo lhs_md rhs_md lhs_md]
       /\ args cx1 = args cx ++ [a]
       /\ values rt1
          = values rt ++ [{| mem := length (memories rt); is_const := false;
                             value_shape := value_shape l;
                             name := match id with None => EmptyString | Some s => s end |}]
       /\ v = length (values rt)
       /\ (1 <= shape_size (value_shape l) <= 6 ->
           0 <= shape_size (value_shape r) < shape_size (value_shape l) ->
           Forall fits_int64 (row_major (getDims (value_shape r))) ->
           rhs_md = desc_by_strides (getDims (value_shape l))
                      (md_data_type (mem_desc lm))
                      (repeat 0 (Z.to_nat (shape_size (value_shape l)
                                           - shape_size (value_shape r)))
                       ++ row_major (getDims (value_shape r))))).
Proof.
  intros Hc Hx Hl Hr Hlm Hrm Hne ln rn lhs_md.
  assert (Hrm' : forall md p,
    memory_get (mem r)
      (with_memories (fun l0 => l0 ++ [{| mem_desc := md; data_handle := p |}])
         (with_next_buffer (S (next_buffer rt)) rt))
    = Ok rm (with_memories (fun l0 => l0 ++ [{| mem_desc := md; data_handle := p |}])
         (with_next_buffer (S (next_buffer rt)) rt))).
  { intros md p. apply memory_get_ok. simpl. eapply lookup_snoc_old. exact Hrm. }
  assert (Hsz : (shape_size (value_shape l) =? shape_size (value_shape r)) = false)
    by (apply Z.eqb_neq; exact Hne).
  split.
  - intros HN Hbad. unfold binary_eltwise.
    rewrite (bind_ok_eq _ _ _ _ _ (value_get_ok _ _ _ Hl)).
    rewrite (bind_ok_eq _ _ _ _ _ (value_get_ok _ _ _ Hr)).
    rewrite (bind_ok_eq _ _ _ _ _ (memory_get_ok _ _ _ Hlm)).
    rewrite (bind_ok_eq _ _ _ _ _ (alloc_memory_ok _ _)).
    rewrite (bind_ok_eq _ _ _ _ _ (Hrm' _ _)).
    rewrite Hsz. simpl negb. cbv iota.
    eexists. split.
    + apply bind_abort_eq. apply bind_abort_eq.
      unfold assert_. rewrite HN. unfold divides_check.
      fold ln rn.
      destruct (Z.geb_spec ln rn) as [Hge|Hlt].
      * destruct Hbad as [Hbad|[Hz Hrem]]; [lia|].
        destruct (Z.eqb_spec rn 0) as [|_]; [contradiction|].
        unfold bind, ret.
        destruct (Z.eqb_spec (Z.rem ln rn) 0) as [|_]; [contradiction|].
        reflexivity.
      * reflexivity.
    + simpl. repeat split; reflexivity.
  - intros Hgo. unfold binary_eltwise.
    rewrite (bind_ok_eq _ _ _ _ _ (value_get_ok _ _ _ Hl)).
    rewrite (bind_ok_eq _ _ _ _ _ (value_get_ok _ _ _ Hr)).
    rewrite (bind_ok_eq _ _ _ _ _ (memory_get_ok _ _ _ Hlm)).
    rewrite (bind_ok_eq _ _ _ _ _ (alloc_memory_ok _ _)).
    rewrite (bind_ok_eq _ _ _ _ _ (Hrm' _ _)).
    rewrite Hsz. simpl negb. cbv iota.
    fold ln rn lhs_md.
    set (rt1 := with_memories _ _).
    assert (Hassert : assert_ cfg (divides_check ln rn) rt1 = Ok tt rt1).
    { unfold assert_. destruct (NDEBUG cfg) eqn:HN; [reflexivity|].
      destruct Hgo as [Hgo|(Hle & Hz & Hrem)]; [discriminate|].
      unfold divides_check.
      destruct (Z.geb_spec ln rn) as [_|Hlt]; [|lia].
      destruct (Z.eqb_spec rn 0) as [|_]; [contradiction|].
      unfold bind, ret. rewrite Hrem. reflexivity. }
    match goal with
    | |- context [bind (bind (assert_ cfg ?dc) ?k1) ?k2 rt1] =>
        rewrite (bind_ok_eq (bind (assert_ cfg dc) k1) k2 rt1 _ rt1
                   (eq_trans (bind_ok_eq _ k1 rt1 tt rt1 Hassert) eq_refl))
    end.
    set (rhs_md := fold_left _ _ lhs_md).
    assert (Hlt : (c < length (g_comps rt))%nat) by (eapply lookup_lt_Some; eauto).
    rewrite (bind_ok_eq _ _ _ _ _ (push_primitive_ok rt1 c cx _ Hc Hx)).
    set (rt2 := with_g_comps _ rt1).
    assert (Hx2 : g_comps rt2 !! c
                  = Some (comp_with_plan (primitives cx ++ [prim_binary algo lhs_md rhs_md lhs_md])
                            (args cx) cx))
      by (apply list_lookup_insert_eq; exact Hlt).
    rewrite (bind_ok_eq _ _ _ _ _ (CreateValue_ok rt2 c _ _ _ _ Hc Hx2)).
    set (rt3 := with_g_comps _ (with_values _ rt2)).
    assert (Hl3 : values rt3 !! lhs = Some l) by (eapply lookup_snoc_old; exact Hl).
    assert (Hr3 : values rt3 !! rhs = Some r) by (eapply lookup_snoc_old; exact Hr).
    rewrite (bind_ok_eq _ _ _ _ _ (value_get_ok _ _ _ Hl3)).
    rewrite (bind_ok_eq _ _ _ _ _ (value_get_ok _ _ _ Hr3)).
    assert (Hx3 : g_comps rt3 !! c
                  = Some (comp_with_vals (vals cx ++ [length (values rt)])
                            (comp_with_plan
                               (primitives cx ++ [prim_binary algo lhs_md rhs_md lhs_md])
                               (args cx) cx))).
    { unfold rt3. simpl. apply list_lookup_insert_eq.
      rewrite length_insert. exact Hlt. }
    rewrite (bind_ok_eq _ _ _ _ _ (push_args_ok rt3 c _ _ Hc Hx3)).
    set (rt4 := with_g_comps _ rt3).
    exists rt4, (length (values rt)). eexists _, rhs_md, _.
    split; [reflexivity|].
    split.
    { intros Hni.
      assert (Hcm : ODLA_DNNL_BUILD_AS_INTERPRETER cfg = false
                    \/ g_interpret_mode rt4 = false).
      { unfold immediate in Hni. simpl.
        destruct (ODLA_DNNL_BUILD_AS_INTERPRETER cfg); [|left; reflexivity].
        destruct (g_interpret_mode rt); [|right; reflexivity].
        exfalso. apply Hni. split; reflexivity. }
      rewrite (bind_ok_eq _ _ _ _ _ (InterpretIfNeeded_compiled cfg lib rt4 Hcm)).
      reflexivity. }
    split.
    { unfold rt4. simpl. apply list_lookup_insert_eq.
      rewrite !length_insert. exact Hlt. }
    split; [reflexivity|]. split; [reflexivity|]. split; [reflexivity|].
    split; [reflexivity|].
    intros Hrank Hlow Hfit. unfold rhs_md, lhs_md.
    rewrite desc_by_tag_plain by exact Hrank.
    rewrite iter_cons_zero.
    rewrite set_stride_loop.
    + rewrite firstn_all, skipn_all2, app_nil_r.
      * rewrite getStrides_row_major by exact Hfit. reflexivity.
      * rewrite row_major_length, getDims_length, length_app, repeat_length,
          getStrides_length. lia.
    + lia.
    + rewrite row_major_length, getDims_length, length_app, repeat_length,
        getStrides_length. lia.
Qed.

Lemma binary_eltwise_rank_mismatch_witness :
  exists rt',
    binary_eltwise debug_build plain_library binary_add 2%nat 1%nat None
      (demo_runtime debug_build) = AssertFail rt'
    /\ g_comps rt' = g_comps (demo_runtime debug_build).
Proof.
  assert (Hc : g_comp (demo_runtime debug_build) = Some 0%nat)
    by (vm_compute; reflexivity).
  assert (Hx : exists cx, g_comps (demo_runtime debug_build) !! 0%nat = Some cx)
    by (vm_compute; eexists; reflexivity).
  destruct Hx as [cx Hx].
  assert (Hl : values (demo_runtime debug_build) !! 2%nat
               = Some {| mem := 2%nat; is_const := false;
                         value_shape := shape_of [2; 3]; name := "y" |})
    by (vm_compute; reflexivity).
  assert (Hr : values (demo_runtime debug_build) !! 1%nat
               = Some {| mem := 1%nat; is_const := true;
                         value_shape := shape_of [4]; name := "k" |})
    by (vm_compute; reflexivity).
  assert (Hlm : memories (demo_runtime debug_build) !! 2%nat
                = Some {| mem_desc := desc_by_strides [2; 3] f32 [3; 1];
                          data_handle := engine_ptr 1 |})
    by (vm_compute; reflexivity).
  assert (Hrm : memories (demo_runtime debug_build) !! 1%nat
                = Some {| mem_desc := desc_by_strides [4] s32 [1];
                          data_handle := caller_ptr 0 |})
    by (vm_compute; reflexivity).
  destruct (binary_eltwise_rank_mismatch debug_build plain_library binary_add
              (demo_runtime debug_build) 0%nat cx 2%nat 1%nat _ _ _ _ None
              Hc Hx Hl Hr Hlm Hrm ltac:(simpl; lia)) as [Habort _].
  destruct (Habort eq_refl) as (rt' & Hcall & Hcomps & _).
  - right. vm_compute. split; discriminate.
  - exists rt'. split; assumption.
Defined.

(** C4, where nothing is signalled: in a release build, adding the
    constant of shape [4] to the argument of shape [2,3] (ranks 2 and 1,
    6 and 4 elements) signals nothing; the call returns a value and the
    plan has grown from empty to one entry. *)
Lemma binary_eltwise_rank_mismatch_counterexample :
  GetTotalElements (shape_of [2; 3]) = 6
  /\ GetTotalElements (shape_of [4]) = 4
  /\ Z.rem 6 4 <> 0
  /\ active_plan (demo_runtime release_build) = Some ([], [])
  /\ exists v rt' p a,
       odla_Add release_build plain_library 2%nat 1%nat None
         (demo_runtime release_build) = Ok v rt'
       /\ active_plan rt' = Some ([p], [a])
       /\ length (values rt') = S (length (values (demo_runtime release_build))).
Proof.
  split; [reflexivity|]. split; [reflexivity|]. split; [discriminate|].
  split; [vm_compute; reflexivity|].
  vm_compute. eexists _, _, _, _. repeat split; reflexivity.
Qed.

(** *** The dilation assertion of the convolutions *)

Lemma aok_ret {A} (a : A) rt : aborts_or_keeps (ret a) rt.
Proof. right. exists a. reflexivity. Qed.

Lemma aok_Ok {A} (m : M A) (a : A) rt : m rt = Ok a rt -> aborts_or_keeps m rt.
Proof. intros H. right. exists a. exact H. Qed.

Lemma aok_bind {A B} (m : M A) (k : A -> M B) rt :
  aborts_or_keeps m rt -> (forall a, aborts_or_keeps (k a) rt) ->
  aborts_or_keeps (bind m k) rt.
Proof.
  intros [H|[a H]] Hk.
  - left. apply bind_abort_eq. exact H.
  - unfold aborts_or_keeps. rewrite (bind_ok_eq _ _ _ _ _ H). apply Hk.
Qed.

Lemma aok_assert cfg (b : bool) rt : aborts_or_keeps (assert_ cfg (ret b)) rt.
Proof.
  unfold assert_. destruct (NDEBUG cfg); [apply aok_ret|].
  destruct b; [right; exists tt; reflexivity|left; reflexivity].
Qed.

Lemma aok_getNCHWDims cfg s rt : aborts_or_keeps (getNCHWDims cfg s) rt.
Proof. apply aok_bind; [apply aok_assert|intros; apply aok_ret]. Qed.

Lemma aok_getOIHWDims cfg s rt : aborts_or_keeps (getOIHWDims cfg s) rt.
Proof. apply aok_bind; [apply aok_assert|intros; apply aok_ret]. Qed.

Lemma aok_getGOIHWDims cfg s g layout rt :
  g <> 0 -> aborts_or_keeps (getGOIHWDims cfg s g layout) rt.
Proof.
  intros Hg. unfold getGOIHWDims.
  apply aok_bind; [apply aok_assert|intros _].
  apply aok_bind; [apply aok_assert|intros _].
  destruct (Z.eqb_spec g 0); [contradiction|apply aok_ret].
Qed.

Lemma aok_getFormatTag_of cfg layout g rt :
  aborts_or_keeps (getFormatTag_of cfg layout g) rt.
Proof.
  unfold getFormatTag_of. destruct (getFormatTag_layout layout g); [apply aok_ret|].
  apply aok_bind; [apply aok_assert|intros; apply aok_ret].
Qed.

(** A computation that stops at an assertion, untouched state, after a
    prefix that touches nothing. *)
Lemma abort_after {A B} (m : M A) (k : A -> M B) rt :
  aborts_or_keeps m rt -> (forall a, k a rt = AssertFail rt) ->
  bind m k rt = AssertFail rt.
Proof.
  intros [H|[a H]] Hk.
  - apply bind_abort_eq. exact H.
  - rewrite (bind_ok_eq _ _ _ _ _ H). apply Hk.
Qed.

Lemma lower_convolution_aborts cfg lib algo input input_layout group kernel
    kernel_layout dilations sd pb pa idims kdims odims oodims dt dt_dst bias id add
    rt c cx :
  NDEBUG cfg = false ->
  g_comp rt = Some c -> g_comps rt !! c = Some cx ->
  nth 0 dilations 0 <> 1 \/ nth 1 dilations 0 <> 1 ->
  lower_convolution cfg lib algo input input_layout group kernel kernel_layout
    dilations sd pb pa idims kdims odims oodims dt dt_dst bias id add rt
  = AssertFail rt.
Proof.
  intros HN Hc Hx Hd. unfold lower_convolution.
  rewrite (bind_ok_eq _ _ _ _ _ (active_ok _ _ Hc)).
  rewrite (bind_ok_eq _ _ _ _ _ (comp_get_ok _ _ _ Hx)).
  apply abort_after.
  { destruct (enable_bf16 (opts cx)); [apply aok_ret|].
    apply aok_bind; [apply aok_getFormatTag_of|intros; apply aok_ret]. }
  intros _.
  apply abort_after; [apply aok_getFormatTag_of|intros t_in].
  apply abort_after; [apply aok_getFormatTag_of|intros t_k].
  apply bind_abort_eq.
  unfold assert_. rewrite HN. unfold bind, ret.
  destruct (Z.eqb_spec (nth 0 dilations 0) 1) as [H0|H0];
    destruct (Z.eqb_spec (nth 1 dilations 0) 1) as [H1|H1];
    try reflexivity.
  destruct Hd; contradiction.
Qed.

Lemma bind_ext {A B} (m : M A) (k k' : A -> M B) rt :
  (forall a rt1, k a rt1 = k' a rt1) -> bind m k rt = bind m k' rt.
Proof. intros H. unfold bind. destruct (m rt); [apply H|reflexivity|reflexivity]. Qed.

Lemma lower_convolution_ignores_dilations cfg lib algo input input_layout group
    kernel kernel_layout dilations dilations' sd pb pa idims kdims odims oodims
    dt dt_dst bias id add rt :
  NDEBUG cfg = true ->
  lower_convolution cfg lib algo input input_layout group kernel kernel_layout
    dilations sd pb pa idims kdims odims oodims dt dt_dst bias id add rt
  = lower_convolution cfg lib algo input input_layout group kernel kernel_layout
    dilations' sd pb pa idims kdims odims oodims dt dt_dst bias id add rt.
Proof.
  intros HN. unfold lower_convolution.
  do 5 (apply bind_ext; intros).
  assert (Ha : forall b, assert_ cfg (ret b) = ret tt)
    by (intros; unfold assert_; rewrite HN; reflexivity).
  rewrite !Ha. reflexivity.
Qed.

(** C5, as the code has it: the dilation requirement of [odla_Conv] and
    [odla_DeConv] is an [assert] on [dilations[0]] and [dilations[1]]. On
    valid handles, in a build with assertions a call with one of them
    other than 1 aborts the process at an assertion with the whole state,
    plan and value registry included, exactly as it was before the call;
    in a build without assertions the dilations are never read, and the
    call does whatever the same call with unit dilations does. *)
Theorem convolution_dilation_is_an_assertion
    (cfg : build) (lib : library) (rt : runtime)
    (c : odla_computation) (cx : _odla_computation)
    (input kernel : odla_value) (x k : _odla_value) (m : memory)
    (input_layout kernel_layout : odla_memory_layout) (group : Z)
    (strides dilations paddings_front paddings_back : list Z)
    (bias : option odla_value) (output_dims : odla_value_shape)
    (id : odla_value_id) :
  g_comp rt = Some c ->
  g_comps rt !! c = Some cx ->
  values rt !! input = Some x ->
  values rt !! kernel = Some k ->
  memories rt !! mem x = Some m ->
  nth 0 dilations 0 <> 1 \/ nth 1 dilations 0 <> 1 ->
  (NDEBUG cfg = false ->
     odla_Conv cfg lib input input_layout group kernel kernel_layout strides
       dilations paddings_front paddings_back bias output_dims id rt
     = AssertFail rt
     /\ odla_DeConv cfg lib input input_layout group kernel kernel_layout strides
         dilations paddings_front paddings_back bias output_dims id rt
       = AssertFail rt)
  /\ (NDEBUG cfg = true ->
     odla_Conv cfg lib input input_layout group kernel kernel_layout strides
       dilations paddings_front paddings_back bias output_dims id rt
     = odla_Conv cfg lib input input_layout group kernel kernel_layout strides
         [1; 1] paddings_front paddings_back bias output_dims id rt
     /\ odla_DeConv cfg lib input input_layout group kernel kernel_layout strides
         dilations paddings_front paddings_back bias output_dims id rt
       = odla_DeConv cfg lib input input_layout group kernel kernel_layout strides
           [1; 1] paddings_front paddings_back bias output_dims id rt).
Proof.
  intros Hc Hx Hi Hk Hm Hd.
  assert (Hio : forall s1 s2,
    aborts_or_keeps
      (if bool_decide (input_layout = ODLA_CHANNELS_LAST)
       then i <- getNCHWDims cfg s1;; o <- getNCHWDims cfg s2;; ret (i, o)
       else ret (s1, s2)) rt).
  { intros s1 s2.
    destruct (bool_decide (input_layout = ODLA_CHANNELS_LAST)); [|apply aok_ret].
    apply aok_bind; [apply aok_getNCHWDims|intros].
    apply aok_bind; [apply aok_getNCHWDims|intros; apply aok_ret]. }
  split.
  - intros HN. split.
    + unfold odla_Conv.
      rewrite (bind_ok_eq _ _ _ _ _ (value_get_ok _ _ _ Hi)).
      rewrite (bind_ok_eq _ _ _ _ _ (value_get_ok _ _ _ Hk)).
      rewrite (bind_ok_eq _ _ _ _ _ (memory_get_ok _ _ _ Hm)).
      rewrite (bind_ok_eq _ _ _ _ _ (active_ok _ _ Hc)).
      rewrite (bind_ok_eq _ _ _ _ _ (comp_get_ok _ _ _ Hx)).
      apply abort_after; [apply Hio|intros io].
      apply abort_after.
      { destruct (bool_decide (kernel_layout = ODLA_SIO));
          [apply aok_getOIHWDims|apply aok_ret]. }
      intros kd.
      apply abort_after.
      { destruct (Z.ltb_spec 1 group); [|apply aok_ret].
        apply aok_getGOIHWDims. lia. }
      intros kd'.
      eapply lower_convolution_aborts; eassumption.
    + unfold odla_DeConv.
      rewrite (bind_ok_eq _ _ _ _ _ (value_get_ok _ _ _ Hi)).
      rewrite (bind_ok_eq _ _ _ _ _ (value_get_ok _ _ _ Hk)).
      rewrite (bind_ok_eq _ _ _ _ _ (memory_get_ok _ _ _ Hm)).
      rewrite (bind_ok_eq _ _ _ _ _ (active_ok _ _ Hc)).
      rewrite (bind_ok_eq _ _ _ _ _ (comp_get_ok _ _ _ Hx)).
      apply abort_after; [apply Hio|intros io].
      apply abort_after.
      { destruct (bool_decide (kernel_layout = ODLA_SIO));
          [apply aok_getOIHWDims|].
        destruct (bool_decide (kernel_layout = ODLA_IOS)); apply aok_ret. }
      intros kd.
      apply abort_after.
      { destruct (Z.ltb_spec 1 group); [|apply aok_ret].
        apply aok_getGOIHWDims. lia. }
      intros kd'.
      eapply lower_convolution_aborts; eassumption.
  - intros HN. split.
    + unfold odla_Conv. do 8 (apply bind_ext; intros).
      apply lower_convolution_ignores_dilations. exact HN.
    + unfold odla_DeConv. do 8 (apply bind_ext; intros).
      apply lower_convolution_ignores_dilations. exact HN.
Qed.

Lemma convolution_dilation_is_an_assertion_witness :
  odla_Conv debug_build plain_library 3%nat ODLA_CHANNELS_FIRST 1 4%nat ODLA_OIS
    [1; 1] [2; 2] [0; 0] [0; 0] None (shape_of [1; 1; 2; 2]) None
    (demo_runtime debug_build)
  = AssertFail (demo_runtime debug_build).
Proof.
  assert (Hc : g_comp (demo_runtime debug_build) = Some 0%nat)
    by (vm_compute; reflexivity).
  assert (Hx : exists cx, g_comps (demo_runtime debug_build) !! 0%nat = Some cx)
    by (vm_compute; eexists; reflexivity).
  destruct Hx as [cx Hx].
  assert (Hi : exists x, values (demo_runtime debug_build) !! 3%nat = Some x
                         /\ mem x = 3%nat)
    by (vm_compute; eexists; split; reflexivity).
  destruct Hi as (x & Hi & Hmx).
  assert (Hk : exists k, values (demo_runtime debug_build) !! 4%nat = Some k)
    by (vm_compute; eexists; reflexivity).
  destruct Hk as [k Hk].
  assert (Hm : exists m, memories (demo_runtime debug_build) !! mem x = Some m)
    by (rewrite Hmx; vm_compute; eexists; reflexivity).
  destruct Hm as [m Hm].
  destruct (convolution_dilation_is_an_assertion debug_build plain_library
              (demo_runtime debug_build) 0%nat cx 3%nat 4%nat x k m
              ODLA_CHANNELS_FIRST ODLA_OIS 1 [1; 1] [2; 2] [0; 0] [0; 0] None
              (shape_of [1; 1; 2; 2]) None Hc Hx Hi Hk Hm
              ltac:(left; simpl; lia)) as [Habort _].
  exact (proj1 (Habort eq_refl)).
Defined.

(** C5, where nothing is rejected: in a release build a convolution of
    the 1x1x4x4 argument with the 1x1x3x3 kernel and dilations [2,2] is
    not rejected; it returns a value, and the plan, empty before, holds
    the convolution primitive. *)
Lemma convolution_dilation_counterexample :
  active_plan (demo_runtime release_build) = Some ([], [])
  /\ exists v rt' p a,
       odla_Conv release_build plain_library 3%nat ODLA_CHANNELS_FIRST 1 4%nat
         ODLA_OIS [1; 1] [2; 2] [0; 0] [0; 0] None (shape_of [1; 1; 2; 2]) None
         (demo_runtime release_build) = Ok v rt'
       /\ active_plan rt' = Some ([p], [a])
       /\ length (values rt') = S (length (values (demo_runtime release_build))).
Proof.
  split; [vm_compute; reflexivity|].
  vm_compute. eexists _, _, _, _. repeat split; reflexivity.
Qed.

End AssertionFacts.

(* ===================================================================== *)
(** ** Transposition *)
(* ===================================================================== *)

Module TransposeFacts.
Import Dnnl Odla Notions ShapeFacts RegistryFacts ModeFacts AssertionFacts.

(** *** Ranges, sums and multi-indices *)

Lemma zsum_Permutation (l l' : list Z) : Permutation l l' -> zsum l = zsum l'.
Proof. induction 1; simpl; lia. Qed.

Lemma zrange_length n : length (zrange n) = n.
Proof. unfold zrange. rewrite length_map, length_seq. reflexivity. Qed.

Lemma in_zrange n k : In k (zrange n) <-> 0 <= k < Z.of_nat n.
Proof.
  unfold zrange. rewrite in_map_iff. split.
  - intros (j & <- & Hj). apply in_seq in Hj. lia.
  - intros Hk. exists (Z.to_nat k). split; [lia|]. apply in_seq. lia.
Qed.

Lemma NoDup_zrange n : List.NoDup (zrange n).
Proof.
  unfold zrange. apply Finite.Injective_map_NoDup.
  - intros a b H. lia.
  - apply seq_NoDup.
Qed.

Lemma zrange_to_nat n : map Z.to_nat (zrange n) = seq 0 n.
Proof.
  unfold zrange. rewrite map_map. rewrite <- (map_id (seq 0 n)) at 2.
  apply map_ext. intros a. lia.
Qed.

Lemma zrange_nth n (k : nat) : (k < n)%nat -> nth k (zrange n) 0 = Z.of_nat k.
Proof.
  intros Hk. unfold zrange.
  change 0 with (Z.of_nat 0). rewrite map_nth, seq_nth by lia. reflexivity.
Qed.

Lemma zrange_S n : zrange (S n) = zrange n ++ [Z.of_nat n].
Proof. unfold zrange. rewrite seq_S, map_app. reflexivity. Qed.

Lemma zrange_add (n m : nat) :
  zrange (n + m) = zrange n ++ map (fun k => Z.of_nat n + k) (zrange m).
Proof.
  induction m as [|m IH].
  - rewrite Nat.add_0_r. simpl. rewrite app_nil_r. reflexivity.
  - rewrite Nat.add_succ_r, !zrange_S, IH, map_app, app_assoc. simpl.
    do 2 f_equal. lia.
Qed.

(** The blocks [i * m + k], for [i] below [n] and [k] below [m], listed
    block after block, are the integers below [n * m]. *)
Lemma zrange_blocks (n m : nat) :
  flat_map (fun i => map (fun k => i * Z.of_nat m + k) (zrange m)) (zrange n)
  = zrange (n * m).
Proof.
  induction n as [|n IH]; [reflexivity|].
  rewrite zrange_S, flat_map_app, IH. simpl flat_map. rewrite app_nil_r.
  replace (S n * m)%nat with (n * m + m)%nat by lia.
  rewrite zrange_add, Nat2Z.inj_mul. reflexivity.
Qed.

Lemma product_nonneg (d : list Z) : Forall (fun x => 0 <= x) d -> 0 <= product d.
Proof. induction 1; simpl; lia. Qed.

(** Under row-major strides the multi-indices, in the order [indices]
    lists them, have the offsets 0, 1, 2, ... *)
Lemma row_major_offsets (d : list Z) :
  Forall (fun x => 0 <= x) d ->
  map (offset (row_major d)) (indices d) = zrange (Z.to_nat (product d)).
Proof.
  induction 1 as [|a d Ha Hd IH]; [reflexivity|].
  simpl indices. simpl row_major. simpl product.
  fold (zrange (Z.to_nat a)).
  rewrite flat_map_concat_map, concat_map, map_map.
  rewrite <- flat_map_concat_map.
  pose proof (product_nonneg d Hd) as Hp.
  rewrite Z2Nat.inj_mul by lia.
  rewrite <- zrange_blocks.
  apply flat_map_ext. intros i.
  rewrite map_map. simpl.
  rewrite <- (map_map (offset (row_major d)) (fun k => i * product d + k)).
  rewrite IH. rewrite Z2Nat.id by lia. reflexivity.
Qed.

Lemma in_indices (d idx : list Z) :
  In idx (indices d) <-> Forall2 (fun i e => 0 <= i < e) idx d.
Proof.
  revert idx. induction d as [|a d IH]; intros idx; simpl.
  - split.
    + intros [<-|[]]. constructor.
    + intros H. inversion H. left. reflexivity.
  - rewrite in_flat_map. split.
    + intros (i & Hi & Hin). apply in_map_iff in Hin as (t & <- & Ht).
      apply in_map_iff in Hi as (j & <- & Hj). apply in_seq in Hj.
      constructor; [lia|]. apply IH. exact Ht.
    + intros H. inversion H as [|i e t d' Hi Ht]; subst.
      exists i. split.
      * apply in_map_iff. exists (Z.to_nat i). split; [lia|]. apply in_seq. lia.
      * apply in_map_iff. exists t. split; [reflexivity|]. apply IH. exact Ht.
Qed.

(** An offset is the sum of index times stride over the dimensions. *)
Lemma offset_as_sum (s x : list Z) :
  length s = length x ->
  offset s x
  = zsum (map (fun j => nth j x 0 * nth j s 0) (seq 0 (length s))).
Proof.
  revert x. induction s as [|a s IH]; intros [|b x] Hl; simpl in *;
    try reflexivity; try discriminate.
  rewrite <- seq_shift, map_map. simpl.
  rewrite <- IH by lia. reflexivity.
Qed.

Lemma offset_permute (p s x : list Z) :
  offset (permute p s) (permute p x)
  = zsum (map (fun j => nth j x 0 * nth j s 0) (map Z.to_nat p)).
Proof.
  unfold permute. induction p as [|a p IH]; simpl; [reflexivity|].
  rewrite IH. reflexivity.
Qed.

(** Reading strides and index through the same permutation leaves the
    offset alone. *)
Lemma offset_permute_both (p s x : list Z) :
  Permutation p (zrange (length s)) ->
  length s = length x ->
  offset (permute p s) (permute p x) = offset s x.
Proof.
  intros Hp Hl. rewrite offset_permute, offset_as_sum by exact Hl.
  apply zsum_Permutation. apply Permutation_map.
  rewrite <- zrange_to_nat. apply Permutation_map. exact Hp.
Qed.

(** *** Permutations *)

Lemma permute_length (p l : list Z) : length (permute p l) = length p.
Proof. unfold permute. apply length_map. Qed.

Lemma permute_nth (p l : list Z) (i : nat) :
  (i < length p)%nat ->
  nth i (permute p l) 0 = nth (Z.to_nat (nth i p 0)) l 0.
Proof.
  intros Hi. unfold permute.
  rewrite (nth_indep _ 0 (nth (Z.to_nat 0) l 0)) by (rewrite length_map; lia).
  rewrite (map_nth (fun j => nth (Z.to_nat j) l 0)). reflexivity.
Qed.

Lemma index_of_nth (p : list Z) (i : nat) :
  List.NoDup p -> (i < length p)%nat ->
  index_of (nth i p 0) p = Z.of_nat i.
Proof.
  revert i. induction p as [|a p IH]; intros i Hnd Hi; simpl in *; [lia|].
  inversion Hnd as [|? ? Hnotin Hnd']; subst.
  destruct i as [|i].
  - rewrite Z.eqb_refl. reflexivity.
  - destruct (Z.eqb_spec a (nth i p 0)) as [Heq|_].
    + exfalso. apply Hnotin. rewrite Heq. apply nth_In. lia.
    + rewrite IH by (assumption || lia). lia.
Qed.

Lemma permutation_facts (p : list Z) :
  Permutation p (zrange (length p)) ->
  List.NoDup p /\ (forall j, In j p -> 0 <= j < Z.of_nat (length p)).
Proof.
  intros Hp. split.
  - eapply Permutation_NoDup; [symmetry; exact Hp|apply NoDup_zrange].
  - intros j Hj. apply in_zrange. eapply Permutation_in; eauto.
Qed.

Lemma inverse_permutation_nth (p : list Z) (k : nat) :
  (k < length p)%nat ->
  nth k (inverse_permutation p) 0 = index_of (Z.of_nat k) p.
Proof.
  intros Hk. unfold inverse_permutation.
  rewrite (nth_indep _ 0 (index_of 0 p)) by (rewrite length_map, zrange_length; lia).
  rewrite (map_nth (fun j => index_of j p)), zrange_nth by lia. reflexivity.
Qed.

Lemma inverse_permutation_length (p : list Z) :
  length (inverse_permutation p) = length p.
Proof. unfold inverse_permutation. rewrite length_map. apply zrange_length. Qed.

(** Reading through the inverse and then through the permutation gives
    the list back. *)
Lemma permute_inverse (p t : list Z) :
  Permutation p (zrange (length p)) ->
  length t = length p ->
  permute p (permute (inverse_permutation p) t) = t.
Proof.
  intros Hp Hl. destruct (permutation_facts p Hp) as [Hnd Hrange].
  apply (nth_ext _ _ 0 0).
  - rewrite permute_length. lia.
  - intros i Hi. rewrite permute_length in Hi.
    rewrite permute_nth by lia.
    assert (Hpi : 0 <= nth i p 0 < Z.of_nat (length p))
      by (apply Hrange, nth_In; lia).
    rewrite permute_nth by (rewrite inverse_permutation_length; lia).
    rewrite inverse_permutation_nth by lia.
    rewrite Z2Nat.id by lia.
    rewrite index_of_nth by assumption.
    rewrite Nat2Z.id. reflexivity.
Qed.

Lemma Forall2_nth_both {A B} (R : A -> B -> Prop) l1 l2 a b (k : nat) :
  Forall2 R l1 l2 -> (k < length l1)%nat -> R (nth k l1 a) (nth k l2 b).
Proof.
  intros H. revert k. induction H; intros k Hk; simpl in *; [lia|].
  destruct k; [assumption|]. apply IHForall2. lia.
Qed.

(** A multi-index below [d], read through a permutation, is a
    multi-index below [d] read through the same permutation. *)
Lemma in_indices_permute (p d idx : list Z) :
  Permutation p (zrange (length p)) ->
  length d = length p ->
  In idx (indices d) -> In (permute p idx) (indices (permute p d)).
Proof.
  intros Hp Hl Hin. destruct (permutation_facts p Hp) as [_ Hrange].
  apply in_indices. apply in_indices in Hin.
  assert (Hli : length idx = length d) by (eapply Forall2_length; eauto).
  assert (Hr : forall j, In j p -> (Z.to_nat j < length idx)%nat)
    by (intros j Hj; specialize (Hrange j Hj); lia).
  clear Hrange Hp Hl. unfold permute.
  induction p as [|a p IH]; simpl; constructor.
  - apply (Forall2_nth_both _ idx d 0 0 _ Hin). apply Hr. left. reflexivity.
  - apply IH. intros j Hj. apply Hr. right. exact Hj.
Qed.

(** The loop of [odla_Transpose] over the strides. *)
Lemma overwrite_loop (f : nat -> Z) (l : list Z) (k : nat) :
  (k <= length l)%nat ->
  fold_left (fun ns i => <[i := f i]> ns) (seq 0 k) l
  = map f (seq 0 k) ++ skipn k l.
Proof.
  intros Hk. induction k as [|k IH]; [reflexivity|].
  rewrite seq_S, fold_left_app, IH by lia. simpl.
  rewrite insert_app_r_alt by (rewrite length_map, length_seq; lia).
  rewrite length_map, length_seq, Nat.sub_diag.
  destruct (lookup_lt_is_Some_2 l k ltac:(lia)) as [y Hy].
  rewrite (drop_S _ y k Hy). simpl.
  rewrite map_app, <- app_assoc. reflexivity.
Qed.

Lemma permute_strides_permute (perms : odla_value_shape) (strides : list Z) :
  Z.to_nat (shape_size perms) = length strides ->
  permute_strides perms strides = permute (getDims perms) strides.
Proof.
  intros Hn. unfold permute_strides.
  rewrite (overwrite_loop (fun i => nth (Z.to_nat (dim_at perms i)) strides 0))
    by lia.
  rewrite skipn_all2, app_nil_r by lia.
  unfold permute, getDims. rewrite map_map. reflexivity.
Qed.

(** *** The strided reorder *)

Lemma classic_in_or_first (a : list Z) (L : list (list Z)) (idx : list Z) :
  In idx (a :: L) -> idx = a \/ (idx <> a /\ In idx L).
Proof.
  intros [H|H].
  - left. symmetry. exact H.
  - destruct (decide (idx = a)) as [He|Hn]; [left; exact He|right; split; assumption].
Qed.

Lemma copy_loop_other esz h0 src dst (f g : list Z -> Z)
    (L : list (list Z)) (acc : heap) (p : pointer) (i : Z) :
  p <> dst ->
  fold_left (fun a idx => copy_elem esz h0 src (f idx) dst (g idx) a) L acc p i
  = acc p i.
Proof.
  intros Hp. revert acc. induction L as [|a L IH]; intros acc; simpl; [reflexivity|].
  rewrite IH. unfold copy_elem.
  destruct (decide (p = dst)); [contradiction|reflexivity].
Qed.

Lemma copy_loop_miss esz h0 src dst (f g : list Z -> Z)
    (L : list (list Z)) (acc : heap) (kd r : Z) :
  0 <= r < esz ->
  (forall idx, In idx L -> g idx <> kd) ->
  fold_left (fun a idx => copy_elem esz h0 src (f idx) dst (g idx) a) L acc
    dst (kd * esz + r)
  = acc dst (kd * esz + r).
Proof.
  intros Hr. revert acc. induction L as [|a L IH]; intros acc Hm; simpl; [reflexivity|].
  rewrite IH by (intros idx Hidx; apply Hm; right; exact Hidx).
  unfold copy_elem.
  destruct (decide (dst = dst)) as [_|Hne]; [|contradiction].
  assert (Hga : g a <> kd) by (apply Hm; left; reflexivity).
  destruct (Z.leb_spec (g a * esz) (kd * esz + r)); simpl; [|reflexivity].
  destruct (Z.ltb_spec (kd * esz + r) (g a * esz + esz)); [|reflexivity].
  exfalso. nia.
Qed.

Lemma copy_loop_hit esz h0 src dst (f g : list Z -> Z)
    (L : list (list Z)) (acc : heap) (idx : list Z) (r : Z) :
  0 <= r < esz ->
  List.NoDup (map g L) ->
  In idx L ->
  fold_left (fun a idx => copy_elem esz h0 src (f idx) dst (g idx) a) L acc
    dst (g idx * esz + r)
  = h0 src (f idx * esz + r).
Proof.
  intros Hr. revert acc. induction L as [|a L IH]; intros acc Hnd Hin; [destruct Hin|].
  simpl in Hnd. inversion Hnd as [|? ? Hnotin Hnd']; subst.
  simpl. destruct (classic_in_or_first a L idx Hin) as [->|[Hne Hin']].
  - rewrite copy_loop_miss.
    + unfold copy_elem.
      destruct (decide (dst = dst)) as [_|Hd]; [|contradiction].
      destruct (Z.leb_spec (g a * esz) (g a * esz + r)); [|lia].
      destruct (Z.ltb_spec (g a * esz + r) (g a * esz + esz)); [|lia].
      simpl. f_equal. lia.
    + exact Hr.
    + intros idx' Hidx' Heq. apply Hnotin. rewrite <- Heq.
      apply in_map. exact Hidx'.
  - apply IH; assumption.
Qed.

(** What a strided reorder leaves in the store: the destination view
    holds the source view, element by element, and no other buffer is
    touched. *)
Lemma reorder_strided_hit esz dims sstr dstr src dst h idx r :
  0 <= r < esz ->
  List.NoDup (map (offset dstr) (indices dims)) ->
  In idx (indices dims) ->
  reorder_strided esz dims sstr dstr src dst h dst (offset dstr idx * esz + r)
  = h src (offset sstr idx * esz + r).
Proof.
  intros Hr Hnd Hin. unfold reorder_strided.
  apply (copy_loop_hit esz h src dst (offset sstr) (offset dstr)); assumption.
Qed.

Lemma reorder_strided_other esz dims sstr dstr src dst h p i :
  p <> dst ->
  reorder_strided esz dims sstr dstr src dst h p i = h p i.
Proof.
  intros Hp. unfold reorder_strided.
  apply (copy_loop_other esz h src dst (offset sstr) (offset dstr)). exact Hp.
Qed.

(** *** Running a plan *)

Lemma run_plan_app lib mems ps1 as1 ps2 as2 h :
  length ps1 = length as1 ->
  run_plan lib mems (ps1 ++ ps2) (as1 ++ as2) h
  = match run_plan lib mems ps1 as1 h with
    | Some h1 => run_plan lib mems ps2 as2 h1
    | None => None
    end.
Proof.
  revert as1 h. induction ps1 as [|p ps1 IH]; intros [|a as1] h Hl;
    simpl in *; try discriminate; [reflexivity|].
  apply IH. lia.
Qed.

Lemma run_plan_total lib mems ps ars h :
  length ps = length ars -> exists h', run_plan lib mems ps ars h = Some h'.
Proof.
  revert ars h. induction ps as [|p ps IH]; intros [|a ars] h Hl;
    simpl in *; try discriminate; [eexists; reflexivity|].
  apply IH. lia.
Qed.

Lemma ensure_stream_ok rt ctx cc :
  contexts rt !! ctx = Some (Some cc) ->
  ensure_stream ctx rt
  = Ok tt (with_contexts
             (fun l => <[ctx := Some {| comp := comp cc; stream := true |}]> l) rt).
Proof.
  intros H. unfold ensure_stream, context_get, bind, get. rewrite H. reflexivity.
Qed.

Lemma execute_plan_ok lib c rt x h :
  g_comps rt !! c = Some x ->
  run_plan lib (memories rt) (primitives x) (args x) (bytes rt) = Some h ->
  execute_plan lib c rt = Ok tt (with_bytes (fun _ => h) rt).
Proof.
  intros Hx Hr. unfold execute_plan.
  rewrite (bind_ok_eq _ _ _ _ _ (comp_get_ok _ _ _ Hx)).
  unfold bind, get, of_option. rewrite Hr. reflexivity.
Qed.

(** *** [odla_Transpose], step by step *)

Lemma Transpose_ok rt c cx input x m perms out id :
  g_comp rt = Some c ->
  g_comps rt !! c = Some cx ->
  values rt !! input = Some x ->
  memories rt !! mem x = Some m ->
  let src_md := desc_by_strides (getDims out) (md_data_type (mem_desc m))
                  (permute_strides perms (getStrides (value_shape x))) in
  let dst_md := desc_by_strides (getDims out) (md_data_type (mem_desc m))
                  (getStrides out) in
  exists rt' cx',
    odla_Transpose input perms out id rt = Ok (length (values rt)) rt'
    /\ memories rt'
       = memories rt ++ [{| mem_desc := src_md; data_handle := nullptr |};
                         {| mem_desc := dst_md;
                            data_handle := engine_ptr (next_buffer rt) |}]
    /\ next_buffer rt' = S (next_buffer rt)
    /\ values rt'
       = values rt ++ [{| mem := S (length (memories rt)); is_const := false;
                          value_shape := out;
                          name := match id with None => EmptyString | Some s => s end |}]
    /\ g_comp rt' = Some c
    /\ length (g_comps rt') = length (g_comps rt)
    /\ g_comps rt' !! c = Some cx'
    /\ primitives cx' = primitives cx ++ [prim_reorder src_md dst_md]
    /\ args cx'
       = args cx ++ [{[ DNNL_ARG_FROM := mem x;
                        DNNL_ARG_TO := S (length (memories rt)) ]}]
    /\ bytes rt' = bytes rt
    /\ contexts rt' = contexts rt.
Proof.
  intros Hc Hx Hv Hm src_md dst_md.
  assert (Hlt : (c < length (g_comps rt))%nat) by (eapply lookup_lt_Some; eauto).
  unfold odla_Transpose.
  rewrite (bind_ok_eq _ _ _ _ _ (value_get_ok _ _ _ Hv)).
  rewrite (bind_ok_eq _ _ _ _ _ (memory_get_ok _ _ _ Hm)).
  fold src_md dst_md.
  rewrite (bind_ok_eq _ _ _ _ _ (new_memory_ok _ _ _)).
  rewrite (bind_ok_eq _ _ _ _ _ (alloc_memory_ok _ _)).
  set (rt1 := with_memories _ (with_next_buffer _ _)).
  rewrite (bind_ok_eq _ _ _ _ _ (push_primitive_ok rt1 c cx _ Hc Hx)).
  set (rt2 := with_g_comps _ rt1).
  assert (Hx2 : g_comps rt2 !! c
                = Some (comp_with_plan (primitives cx ++ [prim_reorder src_md dst_md])
                          (args cx) cx))
    by (apply list_lookup_insert_eq; exact Hlt).
  rewrite (bind_ok_eq _ _ _ _ _ (push_args_ok rt2 c _ _ Hc Hx2)).
  set (rt3 := with_g_comps _ rt2).
  assert (Hx3 : exists y, g_comps rt3 !! c = Some y
                  /\ primitives y = primitives cx ++ [prim_reorder src_md dst_md]
                  /\ args y = args cx ++ [{[ DNNL_ARG_FROM := mem x;
                         DNNL_ARG_TO := S (length (memories rt)) ]}]).
  { eexists. split.
    - unfold rt3. simpl. apply list_lookup_insert_eq.
      rewrite length_insert. exact Hlt.
    - split; [reflexivity|]. simpl. rewrite length_app. simpl.
      replace (length (memories rt) + 1)%nat with (S (length (memories rt))) by lia.
      reflexivity. }
  destruct Hx3 as (y & Hy & Hyp & Hya).
  rewrite (CreateValue_ok rt3 c y _ _ _ Hc Hy).
  eexists _, _. split; [reflexivity|]. simpl.
  split; [rewrite <- app_assoc; reflexivity|].
  split; [reflexivity|].
  split.
  { rewrite length_app. simpl.
    replace (length (memories rt) + 1)%nat with (S (length (memories rt))) by lia.
    reflexivity. }
  split; [exact Hc|].
  split; [rewrite !length_insert; reflexivity|].
  split; [apply list_lookup_insert_eq; rewrite !length_insert; exact Hlt|].
  split; [exact Hyp|]. split; [exact Hya|].
  split; reflexivity.
Qed.


Lemma resolve_two mems (k1 k2 : Z) (r1 r2 : nat) :
  k1 <> k2 ->
  resolve mems {[ k1 := r1; k2 := r2 ]} !! k1 = mems !! r1
  /\ resolve mems {[ k1 := r1; k2 := r2 ]} !! k2 = mems !! r2.
Proof.
  intros Hne. unfold resolve. rewrite !lookup_omap. split.
  - rewrite lookup_insert_eq. reflexivity.
  - rewrite lookup_insert_ne by exact Hne. rewrite lookup_singleton_eq. reflexivity.
Qed.

Lemma execute_strided_reorder lib dims dt sstr dstr (a : gmap Z memory) ms mt h :
  a !! DNNL_ARG_FROM = Some ms ->
  a !! DNNL_ARG_TO = Some mt ->
  execute lib (prim_reorder (desc_by_strides dims dt sstr)
                            (desc_by_strides dims dt dstr)) a h
  = reorder_strided (sizeof dt) dims sstr dstr (data_handle ms) (data_handle mt) h.
Proof.
  intros Hs Ht. unfold execute. simpl. rewrite Hs, Ht.
  destruct (decide (dims = dims /\ dt = dt)) as [_|Hn]; [reflexivity|].
  exfalso. apply Hn. split; reflexivity.
Qed.

Lemma nth_nonneg (d : list Z) (k : nat) :
  Forall (fun e => 0 <= e) d -> 0 <= nth k d 0.
Proof.
  intros Hd. revert k. induction Hd; intros [|k]; simpl; try lia. apply IHHd.
Qed.

Lemma permute_nonneg (p d : list Z) :
  Forall (fun e => 0 <= e) d -> Forall (fun e => 0 <= e) (permute p d).
Proof.
  intros Hd. unfold permute. induction p as [|a p IH]; simpl; constructor.
  - apply nth_nonneg. exact Hd.
  - exact IH.
Qed.

(** Every element of a row-major buffer is the element of one
    multi-index. *)
Lemma row_major_covers (d : list Z) (k : Z) :
  Forall (fun e => 0 <= e) d -> 0 <= k < product d ->
  exists idx, In idx (indices d) /\ offset (row_major d) idx = k.
Proof.
  intros Hd Hk.
  assert (Hin : In k (map (offset (row_major d)) (indices d))).
  { rewrite row_major_offsets by exact Hd. apply in_zrange. lia. }
  apply in_map_iff in Hin as (idx & Hoff & Hin). exists idx. split; assumption.
Qed.

Lemma row_major_NoDup (d : list Z) :
  Forall (fun e => 0 <= e) d ->
  List.NoDup (map (offset (row_major d)) (indices d)).
Proof. intros Hd. rewrite row_major_offsets by exact Hd. apply NoDup_zrange. Qed.

(** The two reorders of a transposition and its inverse, run one after
    the other on fresh destination buffers, copy the source buffer. *)
Lemma reorder_roundtrip (esz : Z) (d p : list Z) (src b1 b2 : pointer) (h : heap) :
  Forall (fun e => 0 <= e) d ->
  length p = length d ->
  Permutation p (zrange (length p)) ->
  let o := permute p d in
  let h1 := reorder_strided esz o (permute p (row_major d)) (row_major o) src b1 h in
  let h2 := reorder_strided esz d (permute (inverse_permutation p) (row_major o))
              (row_major d) b1 b2 h1 in
  forall i, 0 <= i < product d * esz -> h2 b2 i = h src i.
Proof.
  intros Hd Hl Hp o h1 h2 i Hi.
  assert (Hpd : 0 <= product d) by (apply product_nonneg; exact Hd).
  assert (Hesz : 0 < esz) by nia.
  set (k := i / esz). set (r := i mod esz).
  assert (Hr : 0 <= r < esz) by (apply Z.mod_pos_bound; exact Hesz).
  assert (Hik : i = k * esz + r)
    by (unfold k, r; rewrite Z.mul_comm; apply Z.div_mod; lia).
  assert (Hk : 0 <= k < product d).
  { split; [apply Z.div_pos; lia|].
    apply Z.div_lt_upper_bound; [lia|]. rewrite Z.mul_comm. lia. }
  destruct (row_major_covers d k Hd Hk) as (idx & Hin & Hoff).
  assert (Hlidx : length idx = length d).
  { apply in_indices in Hin. eapply Forall2_length; eauto. }
  assert (Ho : Forall (fun e => 0 <= e) o) by (apply permute_nonneg; exact Hd).
  rewrite Hik, <- Hoff. unfold h2.
  rewrite reorder_strided_hit by (assumption || apply row_major_NoDup; assumption).
  assert (Hq : offset (permute (inverse_permutation p) (row_major o)) idx
               = offset (row_major o) (permute p idx)).
  { rewrite <- (offset_permute_both p (permute (inverse_permutation p) (row_major o)) idx).
    - rewrite permute_inverse; [reflexivity|exact Hp|].
      rewrite row_major_length. unfold o. apply permute_length.
    - rewrite permute_length, inverse_permutation_length. exact Hp.
    - rewrite permute_length, inverse_permutation_length. lia. }
  rewrite Hq. unfold h1.
  rewrite reorder_strided_hit.
  - rewrite offset_permute_both; [reflexivity| |].
    + rewrite row_major_length, <- Hl. exact Hp.
    + rewrite row_major_length. lia.
  - exact Hr.
  - apply row_major_NoDup. exact Ho.
  - unfold o. apply in_indices_permute; [exact Hp|lia|exact Hin].
Qed.

(** The round trip, with the extents read through [getDims]. *)
Lemma Transpose_roundtrip_by_getDims
    (lib : library) (rt : runtime)
    (c : odla_computation) (cx : _odla_computation)
    (context : odla_context) (cc : _odla_context)
    (input : odla_value) (x : _odla_value) (m : memory)
    (permutations inverse output_dims back_dims : odla_value_shape)
    (id1 id2 : odla_value_id) :
  g_comp rt = Some c ->
  g_comps rt !! c = Some cx ->
  length (primitives cx) = length (args cx) ->
  contexts rt !! context = Some (Some cc) ->
  values rt !! input = Some x ->
  memories rt !! mem x = Some m ->
  allocated rt (data_handle m) ->
  Forall (fun e => 0 <= e) (getDims (value_shape x)) ->
  shape_size permutations = shape_size (value_shape x) ->
  Permutation (getDims permutations) (zrange (length (getDims permutations))) ->
  shape_size output_dims = shape_size (value_shape x) ->
  getDims output_dims = permute (getDims permutations) (getDims (value_shape x)) ->
  shape_size inverse = shape_size (value_shape x) ->
  getDims inverse = inverse_permutation (getDims permutations) ->
  shape_size back_dims = shape_size (value_shape x) ->
  getDims back_dims = getDims (value_shape x) ->
  Forall fits_int64 (row_major (getDims (value_shape x))) ->
  Forall fits_int64 (row_major (getDims output_dims)) ->
  exists t1 rt1 t2 rt2 rt3 y my,
    odla_Transpose input permutations output_dims id1 rt = Ok t1 rt1
    /\ odla_Transpose t1 inverse back_dims id2 rt1 = Ok t2 rt2
    /\ odla_ExecuteComputation lib c context rt2 = Ok (Some ODLA_SUCCESS) rt3
    /\ values rt3 !! t2 = Some y
    /\ value_shape y = back_dims
    /\ memories rt3 !! mem y = Some my
    /\ memories rt3 !! mem x = Some m
    /\ data_handle my <> data_handle m
    /\ (forall i,
          0 <= i < product (getDims (value_shape x))
                   * sizeof (md_data_type (mem_desc m)) ->
          bytes rt3 (data_handle my) i = bytes rt3 (data_handle m) i)
    /\ (primitives cx = [] ->
        forall i, bytes rt3 (data_handle m) i = bytes rt (data_handle m) i).
Proof.
  intros Hc Hx Hlen Hctx Hv Hm Halloc Hd Hps Hperm Hos Hod His Hid Hbs Hbd Hfit1 Hfit2.
  set (d := getDims (value_shape x)) in *.
  set (p := getDims permutations) in *.
  set (dt := md_data_type (mem_desc m)).
  destruct (Transpose_ok rt c cx input x m permutations output_dims id1 Hc Hx Hv Hm)
    as (rt1 & cx1 & Ht1 & Hmem1 & Hnb1 & Hval1 & Hc1 & Hlc1 & Hx1 & Hp1 & Ha1 & Hb1 & Hk1).
  set (m1 := {| mem_desc := desc_by_strides (getDims output_dims) dt (getStrides output_dims);
                data_handle := engine_ptr (next_buffer rt) |}) in *.
  set (x1 := {| mem := S (length (memories rt)); is_const := false;
                value_shape := output_dims;
                name := match id1 with None => EmptyString | Some s0 => s0 end |}) in *.
  assert (Hv1 : values rt1 !! length (values rt) = Some x1)
    by (rewrite Hval1; apply lookup_snoc).
  assert (Hm1 : memories rt1 !! mem x1 = Some m1).
  { rewrite Hmem1. simpl. rewrite lookup_app_r by lia.
    replace (S (length (memories rt)) - length (memories rt))%nat with 1%nat by lia.
    reflexivity. }
  destruct (Transpose_ok rt1 c cx1 (length (values rt)) x1 m1 inverse back_dims id2
              Hc1 Hx1 Hv1 Hm1)
    as (rt2 & cx2 & Ht2 & Hmem2 & Hnb2 & Hval2 & Hc2 & Hlc2 & Hx2 & Hp2 & Ha2 & Hb2 & Hk2).
  simpl mem_desc in *. simpl md_data_type in *. simpl value_shape in *.
  set (m2 := {| mem_desc := desc_by_strides (getDims back_dims) dt (getStrides back_dims);
                data_handle := engine_ptr (next_buffer rt1) |}) in *.
  (* the plan after the two calls *)
  rewrite Hp1 in Hp2. rewrite Ha1 in Ha2.
  (* execution *)
  assert (Hmx : memories rt2 !! mem x = Some m).
  { rewrite Hmem2, Hmem1. apply lookup_app_l_Some. apply lookup_app_l_Some. exact Hm. }
  assert (Hm1' : memories rt2 !! mem x1 = Some m1).
  { rewrite Hmem2. apply lookup_app_l_Some. exact Hm1. }
  assert (Hm2 : memories rt2 !! S (length (memories rt1)) = Some m2).
  { rewrite Hmem2. rewrite lookup_app_r by lia.
    replace (S (length (memories rt1)) - length (memories rt1))%nat with 1%nat by lia.
    reflexivity. }
  destruct (run_plan_total lib (memories rt2) (primitives cx) (args cx) (bytes rt) Hlen)
    as [h1 Hrun].
  set (nb := next_buffer rt) in *.
  set (h2 := reorder_strided (sizeof dt) (getDims output_dims)
               (permute_strides permutations (getStrides (value_shape x)))
               (getStrides output_dims) (data_handle m) (engine_ptr nb) h1).
  set (h3 := reorder_strided (sizeof dt) (getDims back_dims)
               (permute_strides inverse (getStrides output_dims))
               (getStrides back_dims) (engine_ptr nb) (engine_ptr (S nb)) h2).
  assert (Hplan : run_plan lib (memories rt2) (primitives cx2) (args cx2) (bytes rt2)
                  = Some h3).
  { rewrite Hp2, Ha2, Hb2, Hb1, <- !app_assoc.
    rewrite run_plan_app by exact Hlen. rewrite Hrun. cbn [run_plan app].
    destruct (resolve_two (memories rt2) DNNL_ARG_FROM DNNL_ARG_TO
                (mem x) (S (length (memories rt))) ltac:(discriminate)) as [Hf1 Hto1].
    destruct (resolve_two (memories rt2) DNNL_ARG_FROM DNNL_ARG_TO
                (S (length (memories rt))) (S (length (memories rt1)))
                ltac:(discriminate)) as [Hf2 Hto2].
    rewrite Hmx in Hf1.
    change (memories rt2 !! S (length (memories rt)) = Some m1) in Hm1'.
    rewrite Hm1' in Hto1. rewrite Hm1' in Hf2. rewrite Hm2 in Hto2.
    change (mem x1) with (S (length (memories rt))).
    rewrite (execute_strided_reorder lib _ _ _ _ _ m m1 h1 Hf1 Hto1).
    rewrite (execute_strided_reorder lib _ _ _ _ _ m1 m2 _ Hf2 Hto2).
    simpl data_handle. rewrite Hnb1. reflexivity. }
  assert (Hctx2 : contexts rt2 !! context = Some (Some cc))
    by (rewrite Hk2, Hk1; exact Hctx).
  assert (Hexec : odla_ExecuteComputation lib c context rt2
                  = Ok (Some ODLA_SUCCESS)
                       (with_bytes (fun _ => h3)
                          (with_contexts
                             (fun l => <[context := Some {| comp := comp cc; stream := true |}]> l)
                             rt2))).
  { unfold odla_ExecuteComputation.
    rewrite (bind_ok_eq _ _ _ _ _ (ensure_stream_ok _ _ _ Hctx2)).
    rewrite (bind_ok_eq _ _ _ _ _
               (execute_plan_ok lib c (with_contexts _ rt2) cx2 h3 Hx2 Hplan)).
    reflexivity. }
  (* the shapes and strides, in terms of the permutation *)
  assert (Hlp : length p = length d).
  { unfold p, d. rewrite !getDims_length. congruence. }
  assert (Hs1 : permute_strides permutations (getStrides (value_shape x))
                = permute p (row_major d)).
  { rewrite permute_strides_permute by (rewrite getStrides_length; congruence).
    rewrite getStrides_row_major by exact Hfit1. reflexivity. }
  assert (Hs2 : getStrides output_dims = row_major (permute p d))
    by (rewrite getStrides_row_major by exact Hfit2; rewrite Hod; reflexivity).
  assert (Hs3 : permute_strides inverse (getStrides output_dims)
                = permute (inverse_permutation p) (row_major (permute p d))).
  { rewrite permute_strides_permute by (rewrite getStrides_length; congruence).
    rewrite Hs2, Hid. reflexivity. }
  assert (Hs4 : getStrides back_dims = row_major d)
    by (rewrite getStrides_row_major by (rewrite Hbd; exact Hfit1);
        rewrite Hbd; reflexivity).
  assert (Hne1 : data_handle m <> engine_ptr nb).
  { intros Heq. rewrite Heq in Halloc. simpl in Halloc. unfold nb in Halloc. lia. }
  assert (Hne2 : data_handle m <> engine_ptr (S nb)).
  { intros Heq. rewrite Heq in Halloc. simpl in Halloc. unfold nb in Halloc. lia. }
  assert (Hkeep : forall i, h3 (data_handle m) i = h1 (data_handle m) i).
  { intros i. unfold h3. rewrite reorder_strided_other by exact Hne2.
    unfold h2. rewrite reorder_strided_other by exact Hne1. reflexivity. }
  eexists _, rt1, _, rt2, _, _, m2.
  split; [exact Ht1|]. split; [exact Ht2|]. split; [exact Hexec|].
  simpl.
  split; [rewrite Hval2; apply lookup_snoc|].
  split; [reflexivity|].
  split; [exact Hm2|].
  split; [exact Hmx|].
  split; [simpl; rewrite Hnb1; fold nb; congruence|].
  split.
  - intros i Hi. rewrite Hkeep. simpl data_handle. rewrite Hnb1. fold nb.
    unfold h3, h2. rewrite Hs1, Hs3, Hs2, Hs4, Hod, Hbd.
    apply (reorder_roundtrip (sizeof dt) d p (data_handle m) (engine_ptr nb)
             (engine_ptr (S nb)) h1 Hd Hlp Hperm i Hi).
  - intros Hempty i. rewrite Hkeep.
    rewrite Hempty in Hrun, Hlen.
    destruct (args cx); [|discriminate]. simpl in Hrun.
    congruence.
Qed.

(** C6: transposing a value by a permutation and the result by the
    inverse permutation, with the declared shapes permuted to match, and
    then executing the computation leaves, in the buffer of the second
    result, the bytes of the original value's buffer, for all the bytes
    its elements occupy; the original buffer itself is only read by the
    two reorders. The two lowering calls and the execution all return.
    The extents [d] are not negative, and the row-major strides of the
    two shapes fit an [int64_t]. *)
Theorem Transpose_then_inverse_restores_the_buffer
    (lib : library) (rt : runtime)
    (c : odla_computation) (cx : _odla_computation)
    (context : odla_context) (cc : _odla_context)
    (input : odla_value) (x : _odla_value) (m : memory)
    (permutations inverse output_dims back_dims : odla_value_shape)
    (id1 id2 : odla_value_id) (d p : list Z) :
  g_comp rt = Some c ->
  g_comps rt !! c = Some cx ->
  length (primitives cx) = length (args cx) ->
  contexts rt !! context = Some (Some cc) ->
  values rt !! input = Some x ->
  memories rt !! mem x = Some m ->
  allocated rt (data_handle m) ->
  has_extents (value_shape x) d ->
  has_extents permutations p ->
  has_extents output_dims (permute p d) ->
  has_extents inverse (inverse_permutation p) ->
  has_extents back_dims d ->
  length p = length d ->
  Permutation p (zrange (length p)) ->
  Forall (fun e => 0 <= e) d ->
  Forall fits_int64 (row_major d) ->
  Forall fits_int64 (row_major (permute p d)) ->
  exists t1 rt1 t2 rt2 rt3 y my,
    odla_Transpose input permutations output_dims id1 rt = Ok t1 rt1
    /\ odla_Transpose t1 inverse back_dims id2 rt1 = Ok t2 rt2
    /\ odla_ExecuteComputation lib c context rt2 = Ok (Some ODLA_SUCCESS) rt3
    /\ values rt3 !! t2 = Some y
    /\ value_shape y = back_dims
    /\ memories rt3 !! mem y = Some my
    /\ memories rt3 !! mem x = Some m
    /\ data_handle my <> data_handle m
    /\ (forall i,
          0 <= i < product d * sizeof (md_data_type (mem_desc m)) ->
          bytes rt3 (data_handle my) i = bytes rt3 (data_handle m) i)
    /\ (primitives cx = [] ->
        forall i, bytes rt3 (data_handle m) i = bytes rt (data_handle m) i).
Proof.
  intros Hc Hx Hlen Hctx Hv Hm Halloc Hxd Hpp Hod Hinv Hback Hlp Hperm Hd Hf1 Hf2.
  pose proof (has_extents_getDims _ _ Hxd) as Gx.
  pose proof (has_extents_getDims _ _ Hpp) as Gp.
  pose proof (has_extents_getDims _ _ Hod) as Go.
  pose proof (has_extents_getDims _ _ Hinv) as Gi.
  pose proof (has_extents_getDims _ _ Hback) as Gb.
  destruct Hxd as [Sx _]. destruct Hpp as [Sp _]. destruct Hod as [So _].
  destruct Hinv as [Si _]. destruct Hback as [Sb _].
  rewrite permute_length in So. rewrite inverse_permutation_length in Si.
  rewrite <- Gx.
  apply (Transpose_roundtrip_by_getDims lib rt c cx context cc input x m
           permutations inverse output_dims back_dims id1 id2);
    rewrite ?Gx, ?Gp, ?Go, ?Gi, ?Gb; try assumption; try reflexivity; try lia.
Qed.

Lemma Transpose_then_inverse_restores_the_buffer_witness :
  exists t1 rt1 t2 rt2 rt3,
    odla_Transpose 0%nat (shape_of [2; 0; 1]) (shape_of [4; 2; 3]) None
      (demo_with_context debug_build) = Ok t1 rt1
    /\ odla_Transpose t1 (shape_of [1; 2; 0]) (shape_of [2; 3; 4]) None rt1
       = Ok t2 rt2
    /\ odla_ExecuteComputation plain_library 0%nat 0%nat rt2
       = Ok (Some ODLA_SUCCESS) rt3.
Proof.
  assert (Hc : g_comp (demo_with_context debug_build) = Some 0%nat)
    by (vm_compute; reflexivity).
  assert (Hx : exists cx, g_comps (demo_with_context debug_build) !! 0%nat = Some cx
                          /\ length (primitives cx) = length (args cx))
    by (vm_compute; eexists; split; reflexivity).
  destruct Hx as (cx & Hx & Hlen).
  assert (Hctx : exists cc, contexts (demo_with_context debug_build) !! 0%nat
                            = Some (Some cc))
    by (vm_compute; eexists; reflexivity).
  destruct Hctx as [cc Hctx].
  assert (Hv : values (demo_with_context debug_build) !! 0%nat
               = Some {| mem := 0%nat; is_const := false;
                         value_shape := shape_of [2; 3; 4]; name := "x" |})
    by (vm_compute; reflexivity).
  assert (Hm : memories (demo_with_context debug_build) !! 0%nat
               = Some {| mem_desc := desc_by_strides [2; 3; 4] f32 [12; 4; 1];
                         data_handle := engine_ptr 0 |})
    by (vm_compute; reflexivity).
  assert (Ha : allocated (demo_with_context debug_build) (engine_ptr 0))
    by (vm_compute; lia).
  assert (Hp : Permutation [2; 0; 1] (zrange 3)).
  { change (zrange 3) with ([0; 1] ++ 2 :: []).
    apply Permutation_cons_app. reflexivity. }
  assert (Hd : Forall (fun e => 0 <= e) [2; 3; 4])
    by (repeat constructor; lia).
  assert (Hf1 : Forall fits_int64 (row_major [2; 3; 4]))
    by (repeat constructor; unfold fits_int64; simpl; lia).
  assert (Hf2 : Forall fits_int64 (row_major (permute [2; 0; 1] [2; 3; 4])))
    by (repeat constructor; unfold fits_int64; simpl; lia).
  destruct (Transpose_then_inverse_restores_the_buffer plain_library
              (demo_with_context debug_build) 0%nat cx 0%nat cc 0%nat
              {| mem := 0%nat; is_const := false;
                 value_shape := shape_of [2; 3; 4]; name := "x" |}
              {| mem_desc := desc_by_strides [2; 3; 4] f32 [12; 4; 1];
                 data_handle := engine_ptr 0 |}
              (shape_of [2; 0; 1]) (shape_of [1; 2; 0]) (shape_of [4; 2; 3])
              (shape_of [2; 3; 4]) None None [2; 3; 4] [2; 0; 1]
              Hc Hx Hlen Hctx Hv Hm Ha
              (conj eq_refl eq_refl) (conj eq_refl eq_refl) (conj eq_refl eq_refl)
              (conj eq_refl eq_refl) (conj eq_refl eq_refl) eq_refl Hp Hd Hf1 Hf2)
    as (t1 & rt1 & t2 & rt2 & rt3 & y & my & H1 & H2 & H3 & _).
  exists t1, rt1, t2, rt2, rt3. repeat split; assumption.
Defined.

End TransposeFacts.

(* ===================================================================== *)
(** ** Further properties of the shape helpers *)
(* ===================================================================== *)

Module ShapeMore.
Import Dnnl Odla Notions Across ShapeFacts RegistryFacts ModeFacts AssertionFacts
  TransposeFacts.

(** X1: for a shape whose row-major strides each fit an [int64_t],
    [getStrides] computes those strides (stride [i] is the product of the
    extents after [i]), and for extents that are not negative they are
    packed: the multi-indices, taken in row-major order, land on the
    consecutive element offsets 0, 1, 2, ... below the product of the
    extents. *)
Theorem getStrides_addresses_a_packed_buffer
    (od : odla_value_shape) (d : list Z) :
  has_extents od d ->
  Forall (fun e => 0 <= e) d ->
  Forall fits_int64 (row_major d) ->
  length (getStrides od) = length d
  /\ getStrides od = row_major d
  /\ map (offset (getStrides od)) (indices d) = zrange (Z.to_nat (product d)).
Proof.
  intros He Hd Hf.
  pose proof (has_extents_getDims od d He) as G.
  assert (Hs : getStrides od = row_major d)
    by (rewrite getStrides_row_major; rewrite G; [reflexivity|exact Hf]).
  split; [rewrite Hs; apply row_major_length|].
  split; [exact Hs|].
  rewrite Hs. apply row_major_offsets. exact Hd.
Qed.

Lemma getStrides_addresses_a_packed_buffer_witness :
  getStrides (shape_of [2; 3; 4]) = [12; 4; 1]
  /\ map (offset (getStrides (shape_of [2; 3]))) (indices [2; 3])
     = [0; 1; 2; 3; 4; 5].
Proof.
  destruct (getStrides_addresses_a_packed_buffer (shape_of [2; 3; 4]) [2; 3; 4]
              (conj eq_refl eq_refl)) as (_ & H1 & _).
  - repeat constructor; lia.
  - repeat constructor; unfold fits_int64; simpl; lia.
  - destruct (getStrides_addresses_a_packed_buffer (shape_of [2; 3]) [2; 3]
                (conj eq_refl eq_refl)) as (_ & _ & H2).
    + repeat constructor; lia.
    + repeat constructor; unfold fits_int64; simpl; lia.
    + split; [exact H1|]. rewrite H2. reflexivity.
Defined.

Lemma to_int_range z : - 2 ^ 31 <= to_int z < 2 ^ 31.
Proof. unfold to_int. pose proof (Z.mod_pos_bound (z + 2 ^ 31) (2 ^ 32)). lia. Qed.

Lemma to_int_small z : - 2 ^ 31 <= z < 2 ^ 31 -> to_int z = z.
Proof. intros H. unfold to_int. rewrite Z.mod_small by lia. lia. Qed.

Lemma to_int_congr a b : (a - b) mod 2 ^ 32 = 0 -> to_int a = to_int b.
Proof.
  intros H. unfold to_int. f_equal.
  apply Z.mod_divide in H; [|lia]. destruct H as [k Hk].
  replace (a + 2 ^ 31) with (b + 2 ^ 31 + k * 2 ^ 32) by lia.
  apply Z.mod_add. lia.
Qed.

Lemma to_int_step acc d :
  to_int (to_size_t (to_size_t (to_int acc) * to_size_t d)) = to_int (acc * d).
Proof.
  apply to_int_congr. unfold to_size_t, to_int.
  pose proof (Z.div_mod (acc + 2 ^ 31) (2 ^ 32) ltac:(lia)) as H1.
  pose proof (Z.div_mod d (2 ^ 64) ltac:(lia)) as H2.
  set (i := (acc + 2 ^ 31) mod 2 ^ 32 - 2 ^ 31) in *.
  pose proof (Z.div_mod i (2 ^ 64) ltac:(lia)) as H3.
  pose proof (Z.div_mod (i mod 2 ^ 64 * (d mod 2 ^ 64)) (2 ^ 64) ltac:(lia)) as H4.
  set (q1 := (acc + 2 ^ 31) / 2 ^ 32) in *.
  set (q2 := d / 2 ^ 64) in *. set (q3 := i / 2 ^ 64) in *.
  set (q4 := (i mod 2 ^ 64 * (d mod 2 ^ 64)) / 2 ^ 64) in *.
  set (r2 := d mod 2 ^ 64) in *. set (r3 := i mod 2 ^ 64) in *.
  set (r4 := (r3 * r2) mod 2 ^ 64) in *.
  apply Z.mod_divide; [lia|].
  exists (- q4 * 2 ^ 32 - q3 * 2 ^ 32 * r2 - i * q2 * 2 ^ 32 - q1 * d).
  replace (2 ^ 64) with (2 ^ 32 * 2 ^ 32) in * by reflexivity.
  assert (Hacc : acc = 2 ^ 32 * q1 + i) by (unfold i; lia).
  nia.
Qed.

Lemma GetTotalElements_loop (l : list Z) (acc : Z) :
  fold_left (fun a d => to_int (to_size_t (to_size_t a * to_size_t d))) l (to_int acc)
  = to_int (acc * product l).
Proof.
  revert acc. induction l as [|d l IH]; intros acc; simpl.
  - rewrite Z.mul_1_r. reflexivity.
  - rewrite to_int_step, IH. f_equal. lia.
Qed.

(** X2: [GetTotalElements] is the product of the extents reduced to a
    signed 32-bit integer: it is the true element count whenever that
    count fits 32 bits, and wraps around otherwise. *)
Theorem GetTotalElements_wraps_at_32_bits (od : odla_value_shape) :
  GetTotalElements od = to_int (product (getDims od))
  /\ - 2 ^ 31 <= GetTotalElements od < 2 ^ 31
  /\ (- 2 ^ 31 <= product (getDims od) < 2 ^ 31 ->
      GetTotalElements od = product (getDims od)).
Proof.
  assert (H : GetTotalElements od = to_int (product (getDims od))).
  { unfold GetTotalElements.
    change 1 with (to_int 1) at 1.
    rewrite GetTotalElements_loop. f_equal. lia. }
  split; [exact H|]. split.
  - rewrite H. apply to_int_range.
  - intros Hs. rewrite H. apply to_int_small. exact Hs.
Qed.

Lemma GetTotalElements_wraps_at_32_bits_witness :
  GetTotalElements (shape_of [2; 3; 4]) = 24
  /\ GetTotalElements (shape_of [65536; 65536]) = 0.
Proof.
  split.
  - destruct (GetTotalElements_wraps_at_32_bits (shape_of [2; 3; 4]))
      as (_ & _ & H).
    rewrite H; [reflexivity|]. vm_compute. split; [discriminate|reflexivity].
  - destruct (GetTotalElements_wraps_at_32_bits (shape_of [65536; 65536]))
      as (H & _).
    rewrite H. reflexivity.
Defined.

Lemma getDims_four s :
  shape_size s = 4 ->
  getDims s = [dim_at s 0; dim_at s 1; dim_at s 2; dim_at s 3].
Proof. intros H. unfold getDims. rewrite H. reflexivity. Qed.

Lemma getDims_literal n a b c d :
  n = 4 ->
  getDims {| shape_size := n; shape_dims := [a; b; c; d] |} = [a; b; c; d].
Proof. intros ->. reflexivity. Qed.

(** X3: on a shape of rank 4, [getNCHWDims] and [getOIHWDims] return, in
    every build and without touching the state, the same four extents in
    the order 0,3,1,2 and 3,2,0,1: a permutation, so the element count is
    kept. In a build with assertions any other rank aborts with the state
    untouched. *)
Theorem layout_reshapes_permute_the_extents
    (cfg : build) (s : odla_value_shape) (rt : runtime) :
  (shape_size s = 4 ->
     exists a b,
       getNCHWDims cfg s rt = Ok a rt
       /\ getOIHWDims cfg s rt = Ok b rt
       /\ shape_size a = 4 /\ shape_size b = 4
       /\ getDims a = permute [0; 3; 1; 2] (getDims s)
       /\ getDims b = permute [3; 2; 0; 1] (getDims s)
       /\ Permutation (getDims a) (getDims s)
       /\ Permutation (getDims b) (getDims s)
       /\ product (getDims a) = product (getDims s)
       /\ product (getDims b) = product (getDims s))
  /\ (NDEBUG cfg = false -> shape_size s <> 4 ->
       getNCHWDims cfg s rt = AssertFail rt
       /\ getOIHWDims cfg s rt = AssertFail rt).
Proof.
  split.
  - intros Hs.
    assert (Ha : assert_ cfg (ret (shape_size s =? 4)) rt = Ok tt rt).
    { unfold assert_. destruct (NDEBUG cfg); [reflexivity|].
      unfold bind, ret. rewrite Hs. reflexivity. }
    eexists _, _.
    split; [unfold getNCHWDims; rewrite (bind_ok_eq _ _ _ _ _ Ha); reflexivity|].
    split; [unfold getOIHWDims; rewrite (bind_ok_eq _ _ _ _ _ Ha); reflexivity|].
    simpl shape_size. split; [exact Hs|]. split; [exact Hs|].
    rewrite !(getDims_literal _ _ _ _ _ Hs), (getDims_four s Hs).
    split; [reflexivity|]. split; [reflexivity|].
    split.
    { apply perm_skip.
      change ([dim_at s 3; dim_at s 1; dim_at s 2])
        with ([dim_at s 3] ++ [dim_at s 1; dim_at s 2]).
      change ([dim_at s 1; dim_at s 2; dim_at s 3])
        with ([dim_at s 1; dim_at s 2] ++ [dim_at s 3]).
      apply Permutation_app_comm. }
    split.
    { change ([dim_at s 3; dim_at s 2; dim_at s 0; dim_at s 1])
        with ([dim_at s 3; dim_at s 2] ++ [dim_at s 0; dim_at s 1]).
      change ([dim_at s 0; dim_at s 1; dim_at s 2; dim_at s 3])
        with ([dim_at s 0; dim_at s 1] ++ [dim_at s 2; dim_at s 3]).
      etransitivity; [apply Permutation_app_comm|].
      apply Permutation_app_head. apply perm_swap. }
    split; simpl product; ring.
  - intros HN Hs.
    assert (Ha : assert_ cfg (ret (shape_size s =? 4)) rt = AssertFail rt).
    { unfold assert_. rewrite HN. unfold bind, ret.
      destruct (Z.eqb_spec (shape_size s) 4); [contradiction|reflexivity]. }
    split; [unfold getNCHWDims|unfold getOIHWDims];
      apply bind_abort_eq; exact Ha.
Qed.

Lemma layout_reshapes_permute_the_extents_witness :
  exists a, getNCHWDims debug_build (shape_of [1; 4; 5; 3]) empty_runtime
            = Ok a empty_runtime
            /\ getDims a = [1; 3; 4; 5].
Proof.
  destruct (layout_reshapes_permute_the_extents debug_build
              (shape_of [1; 4; 5; 3]) empty_runtime) as [H _].
  destruct (H eq_refl) as (a & b & Ha & _ & _ & _ & Hd & _).
  exists a. split; [exact Ha|]. rewrite Hd. reflexivity.
Defined.

(** X4: on a kernel shape of rank 4, [getGOIHWDims] with a group count
    other than 0 returns, in every build, the rank-5 shape
    [groups, O / groups, I, H, W] with a truncating quotient: the element
    count drops by the remainder of O by the group count times I*H*W, and
    is kept exactly when the group count divides O. *)
Theorem grouped_kernel_reshape_truncates
    (cfg : build) (s : odla_value_shape) (groups : Z) (rt : runtime) :
  shape_size s = 4 ->
  groups <> 0 ->
  exists g,
    getGOIHWDims cfg s groups ODLA_OIS rt = Ok g rt
    /\ shape_size g = 5
    /\ getDims g = [groups; Z.quot (dim_at s 0) groups;
                    dim_at s 1; dim_at s 2; dim_at s 3]
    /\ product (getDims g)
       = product (getDims s)
         - Z.rem (dim_at s 0) groups * (dim_at s 1 * dim_at s 2 * dim_at s 3)
    /\ (Z.rem (dim_at s 0) groups = 0 ->
        product (getDims g) = product (getDims s)).
Proof.
  intros Hs Hg.
  assert (Ha : assert_ cfg (ret (shape_size s =? 4)) rt = Ok tt rt).
  { unfold assert_. destruct (NDEBUG cfg); [reflexivity|].
    unfold bind, ret. rewrite Hs. reflexivity. }
  assert (Hb : assert_ cfg (ret (bool_decide (ODLA_OIS = ODLA_OIS))) rt = Ok tt rt).
  { unfold assert_. destruct (NDEBUG cfg); reflexivity. }
  eexists. split.
  { unfold getGOIHWDims.
    rewrite (bind_ok_eq _ _ _ _ _ Ha), (bind_ok_eq _ _ _ _ _ Hb).
    destruct (Z.eqb_spec groups 0); [contradiction|reflexivity]. }
  simpl shape_size. split; [lia|].
  assert (Hd : getDims {| shape_size := shape_size s + 1;
                          shape_dims := [groups; Z.quot (dim_at s 0) groups;
                                         dim_at s 1; dim_at s 2; dim_at s 3] |}
               = [groups; Z.quot (dim_at s 0) groups;
                  dim_at s 1; dim_at s 2; dim_at s 3]).
  { unfold getDims. simpl shape_size. rewrite Hs. reflexivity. }
  rewrite Hd. split; [reflexivity|].
  rewrite (getDims_four s Hs). simpl product.
  pose proof (Z.quot_rem' (dim_at s 0) groups) as Hq.
  split; [nia|]. intros Hr. nia.
Qed.

Lemma grouped_kernel_reshape_truncates_witness :
  exists g, getGOIHWDims release_build (shape_of [7; 2; 3; 3]) 2 ODLA_OIS
              empty_runtime = Ok g empty_runtime
            /\ product (getDims g) = 108.
Proof.
  destruct (grouped_kernel_reshape_truncates release_build
              (shape_of [7; 2; 3; 3]) 2 empty_runtime eq_refl ltac:(lia))
    as (g & Hg & _ & _ & Hp & _).
  exists g. split; [exact Hg|]. rewrite Hp. reflexivity.
Defined.

End ShapeMore.

(* ===================================================================== *)
(** ** Further properties of the registry and the binding calls *)
(* ===================================================================== *)

Module BindingMore.
Import Dnnl Odla Notions Across ShapeFacts RegistryFacts ModeFacts AssertionFacts
  TransposeFacts.

Lemma context_get_ok rt ctx cc :
  contexts rt !! ctx = Some (Some cc) -> context_get ctx rt = Ok cc rt.
Proof. intros H. unfold context_get, bind, get. rewrite H. reflexivity. Qed.

Lemma set_data_handle_ok rt r m p :
  memories rt !! r = Some m ->
  set_data_handle r p rt
  = Ok tt (with_memories (fun l => <[r := memory_with_handle p m]> l) rt).
Proof.
  intros H. unfold set_data_handle.
  rewrite (bind_ok_eq _ _ _ _ _ (memory_get_ok _ _ _ H)). reflexivity.
Qed.

Lemma BindToArgument_ok rt value x m p :
  values rt !! value = Some x ->
  memories rt !! mem x = Some m ->
  odla_BindToArgument value p rt
  = Ok (Some ODLA_SUCCESS)
       (with_memories (fun l => <[mem x := memory_with_handle p m]> l) rt).
Proof.
  intros Hv Hm. unfold odla_BindToArgument.
  rewrite (bind_ok_eq _ _ _ _ _ (value_get_ok _ _ _ Hv)).
  rewrite (bind_ok_eq _ _ _ _ _ (set_data_handle_ok _ _ _ p Hm)).
  reflexivity.
Qed.

Lemma CreateArgument_ok rt c cx type nm :
  g_comp rt = Some c ->
  g_comps rt !! c = Some cx ->
  exists rt1 cx1,
    odla_CreateArgument type (Some nm) rt = Ok (length (values rt)) rt1
    /\ values rt1
       = values rt ++ [{| mem := length (memories rt); is_const := false;
                          value_shape := shape type; name := nm |}]
    /\ memories rt1
       = memories rt ++ [{| mem_desc := getMemoryDesc (shape type) ODLA_FLOAT32;
                            data_handle := engine_ptr (next_buffer rt) |}]
    /\ g_comp rt1 = Some c
    /\ g_comps rt1 !! c = Some cx1
    /\ inputs cx1 = <[nm := length (values rt)]> (inputs cx)
    /\ outputs cx1 = outputs cx
    /\ primitives cx1 = primitives cx
    /\ args cx1 = args cx
    /\ contexts rt1 = contexts rt
    /\ bytes rt1 = bytes rt.
Proof.
  intros Hc Hx.
  assert (Hlt : (c < length (g_comps rt))%nat) by (eapply lookup_lt_Some; eauto).
  unfold odla_CreateArgument.
  rewrite (bind_ok_eq _ _ _ _ _ (alloc_memory_ok _ _)).
  set (rt0 := with_memories _ _).
  rewrite (bind_ok_eq _ _ _ _ _ (CreateValue_ok rt0 c cx _ _ _ Hc Hx)).
  set (rt1 := with_g_comps _ _).
  unfold of_option at 1.
  rewrite (bind_ok_eq _ _ rt1 nm rt1 eq_refl).
  rewrite (bind_ok_eq _ _ _ _ _ (active_ok rt1 c Hc)).
  assert (Hx1 : g_comps rt1 !! c
                = Some (comp_with_vals (vals cx ++ [length (values rt)]) cx))
    by (apply list_lookup_insert_eq; exact Hlt).
  rewrite (bind_ok_eq _ _ _ _ _ (comp_update_ok rt1 c _ _ Hx1)).
  eexists _, _. split; [reflexivity|]. simpl.
  split; [reflexivity|]. split; [reflexivity|]. split; [exact Hc|].
  split; [apply list_lookup_insert_eq; rewrite length_insert; exact Hlt|].
  repeat split; reflexivity.
Qed.

(** X5: an argument created under a name is found again by that name:
    binding by id through any context of the active computation is
    binding the created value by handle; it returns [ODLA_SUCCESS], leaves
    the bytes alone and repoints the argument's memory object, whose
    descriptor stays the 32-bit float one, to the caller's buffer. *)
Theorem created_argument_is_bound_by_its_name
    (rt : runtime) (c : odla_computation) (cx : _odla_computation)
    (context : odla_context) (cc : _odla_context)
    (type : odla_value_type) (nm : string) (data_ptr : pointer) :
  g_comp rt = Some c ->
  g_comps rt !! c = Some cx ->
  contexts rt !! context = Some (Some cc) ->
  comp cc = Some c ->
  exists a rt1 rt2 ma,
    odla_CreateArgument type (Some nm) rt = Ok a rt1
    /\ odla_BindToArgumentById nm data_ptr context rt1
       = odla_BindToArgument a data_ptr rt1
    /\ odla_BindToArgumentById nm data_ptr context rt1
       = Ok (Some ODLA_SUCCESS) rt2
    /\ memory_of rt2 a = Some ma
    /\ data_handle ma = data_ptr
    /\ mem_desc ma = getMemoryDesc (shape type) ODLA_FLOAT32
    /\ bytes rt2 = bytes rt.
Proof.
  intros Hc Hx Hctx Hcc.
  destruct (CreateArgument_ok rt c cx type nm Hc Hx)
    as (rt1 & cx1 & Hcall & Hval & Hmem & Hc1 & Hx1 & Hin & _ & _ & _ & Hk & Hb).
  assert (Hv1 : values rt1 !! length (values rt)
                = Some {| mem := length (memories rt); is_const := false;
                          value_shape := shape type; name := nm |})
    by (rewrite Hval; apply lookup_snoc).
  assert (Hm1 : memories rt1 !! length (memories rt)
                = Some {| mem_desc := getMemoryDesc (shape type) ODLA_FLOAT32;
                          data_handle := engine_ptr (next_buffer rt) |})
    by (rewrite Hmem; apply lookup_snoc).
  assert (Hby : odla_BindToArgumentById nm data_ptr context rt1
                = odla_BindToArgument (length (values rt)) data_ptr rt1).
  { unfold odla_BindToArgumentById.
    rewrite (bind_ok_eq _ _ _ _ _ (context_get_ok rt1 context cc ltac:(rewrite Hk; exact Hctx))).
    rewrite Hcc. unfold of_option at 1.
    rewrite (bind_ok_eq _ _ rt1 c rt1 eq_refl).
    rewrite (bind_ok_eq _ _ _ _ _ (comp_get_ok _ _ _ Hx1)).
    rewrite Hin, lookup_insert_eq. reflexivity. }
  eexists _, rt1, _, _. split; [exact Hcall|]. split; [exact Hby|].
  split; [rewrite Hby; apply (BindToArgument_ok rt1 _ _ _ data_ptr Hv1 Hm1)|].
  unfold memory_of. simpl. rewrite Hv1. simpl.
  split.
  { apply list_lookup_insert_eq. eapply lookup_lt_Some. exact Hm1. }
  repeat split. exact Hb.
Qed.

Lemma created_argument_is_bound_by_its_name_witness :
  exists a rt1 rt2,
    odla_CreateArgument
      {| element_type := ODLA_INT32; shape := shape_of [5] |} (Some "w")
      (demo_with_context debug_build) = Ok a rt1
    /\ odla_BindToArgumentById "w" (caller_ptr 9) 0%nat rt1
       = Ok (Some ODLA_SUCCESS) rt2.
Proof.
  assert (Hc : g_comp (demo_with_context debug_build) = Some 0%nat)
    by (vm_compute; reflexivity).
  assert (Hx : exists cx, g_comps (demo_with_context debug_build) !! 0%nat = Some cx)
    by (vm_compute; eexists; reflexivity).
  destruct Hx as [cx Hx].
  assert (Hk : contexts (demo_with_context debug_build) !! 0%nat
               = Some (Some {| comp := Some 0%nat; stream := false |}))
    by (vm_compute; reflexivity).
  destruct (created_argument_is_bound_by_its_name (demo_with_context debug_build)
              0%nat cx 0%nat _
              {| element_type := ODLA_INT32; shape := shape_of [5] |} "w"
              (caller_ptr 9) Hc Hx Hk eq_refl)
    as (a & rt1 & rt2 & ma & H1 & _ & H2 & _).
  exists a, rt1, rt2. split; assumption.
Defined.

(** X6: binding by a name that is in neither table is outside defined
    behaviour: the table lookup yields a null value, which the binding
    call dereferences. No status comes back. *)
Theorem binding_by_a_missing_name_is_undefined
    (rt : runtime) (c : odla_computation) (cx : _odla_computation)
    (context : odla_context) (cc : _odla_context)
    (nm : string) (data_ptr : pointer) :
  contexts rt !! context = Some (Some cc) ->
  comp cc = Some c ->
  g_comps rt !! c = Some cx ->
  (inputs cx !! nm = None ->
     odla_BindToArgumentById nm data_ptr context rt = Undefined)
  /\ (outputs cx !! nm = None ->
     odla_BindToOutputById nm data_ptr context rt = Undefined).
Proof.
  intros Hctx Hcc Hx. split; intros Hn.
  - unfold odla_BindToArgumentById.
    rewrite (bind_ok_eq _ _ _ _ _ (context_get_ok rt context cc Hctx)).
    rewrite Hcc. unfold of_option at 1.
    rewrite (bind_ok_eq _ _ rt c rt eq_refl).
    rewrite (bind_ok_eq _ _ _ _ _ (comp_get_ok _ _ _ Hx)).
    rewrite Hn. reflexivity.
  - unfold odla_BindToOutputById.
    rewrite (bind_ok_eq _ _ _ _ _ (context_get_ok rt context cc Hctx)).
    rewrite Hcc. unfold of_option at 1.
    rewrite (bind_ok_eq _ _ rt c rt eq_refl).
    rewrite (bind_ok_eq _ _ _ _ _ (comp_get_ok _ _ _ Hx)).
    rewrite Hn. reflexivity.
Qed.

Lemma binding_by_a_missing_name_is_undefined_witness :
  odla_BindToArgumentById "nobody" (caller_ptr 9) 0%nat
    (demo_with_context debug_build) = Undefined
  /\ odla_BindToOutputById "x" (caller_ptr 9) 0%nat
       (demo_with_context debug_build) = Undefined.
Proof.
  assert (Hx : exists cx, g_comps (demo_with_context debug_build) !! 0%nat = Some cx
                          /\ inputs cx !! "nobody"%string = None
                          /\ outputs cx !! "x"%string = None)
    by (vm_compute; eexists; repeat split; reflexivity).
  destruct Hx as (cx & Hx & Hi & Ho).
  assert (Hk : contexts (demo_with_context debug_build) !! 0%nat
               = Some (Some {| comp := Some 0%nat; stream := false |}))
    by (vm_compute; reflexivity).
  destruct (binding_by_a_missing_name_is_undefined (demo_with_context debug_build)
              0%nat cx 0%nat _ "nobody" (caller_ptr 9) Hk eq_refl Hx) as [H1 _].
  destruct (binding_by_a_missing_name_is_undefined (demo_with_context debug_build)
              0%nat cx 0%nat _ "x" (caller_ptr 9) Hk eq_refl Hx) as [_ H2].
  split; [exact (H1 Hi)|exact (H2 Ho)].
Defined.

(** X9: binding an argument after the graph is built reaches every plan
    entry that uses the value: the call rewrites the one memory object
    the value and the argument maps share, so every argument map that
    names it resolves to the caller's buffer under the old descriptor,
    and every other binding resolves as before; the plan itself, the
    values and the bytes are not touched. *)
Theorem binding_reaches_every_plan_entry
    (rt : runtime) (value : odla_value) (x : _odla_value) (m : memory)
    (data_ptr : pointer) :
  values rt !! value = Some x ->
  memories rt !! mem x = Some m ->
  exists rt',
    odla_BindToArgument value data_ptr rt = Ok (Some ODLA_SUCCESS) rt'
    /\ g_comps rt' = g_comps rt
    /\ values rt' = values rt
    /\ bytes rt' = bytes rt
    /\ forall (a : gmap Z nat) (k : Z) (r : nat),
         a !! k = Some r ->
         resolve (memories rt') a !! k
         = if decide (r = mem x)
           then Some {| mem_desc := mem_desc m; data_handle := data_ptr |}
           else resolve (memories rt) a !! k.
Proof.
  intros Hv Hm. eexists. split; [apply (BindToArgument_ok rt value x m data_ptr Hv Hm)|].
  simpl. do 3 (split; [reflexivity|]).
  intros a k r Ha. unfold resolve. rewrite !lookup_omap, Ha. simpl.
  destruct (decide (r = mem x)) as [->|Hne].
  - apply list_lookup_insert_eq. eapply lookup_lt_Some. exact Hm.
  - apply list_lookup_insert_ne. congruence.
Qed.

Lemma binding_reaches_every_plan_entry_witness :
  exists rt',
    odla_BindToArgument 0%nat (caller_ptr 0) (demo_runtime debug_build)
    = Ok (Some ODLA_SUCCESS) rt'
    /\ resolve (memories rt') {[ DNNL_ARG_SRC := 0%nat ]} !! DNNL_ARG_SRC
       = Some {| mem_desc := desc_by_strides [2; 3; 4] f32 [12; 4; 1];
                 data_handle := caller_ptr 0 |}.
Proof.
  assert (Hv : values (demo_runtime debug_build) !! 0%nat
               = Some {| mem := 0%nat; is_const := false;
                         value_shape := shape_of [2; 3; 4]; name := "x" |})
    by (vm_compute; reflexivity).
  assert (Hm : memories (demo_runtime debug_build) !! 0%nat
               = Some {| mem_desc := desc_by_strides [2; 3; 4] f32 [12; 4; 1];
                         data_handle := engine_ptr 0 |})
    by (vm_compute; reflexivity).
  destruct (binding_reaches_every_plan_entry (demo_runtime debug_build) 0%nat _ _
              (caller_ptr 0) Hv Hm) as (rt' & Hcall & _ & _ & _ & Hres).
  exists rt'. split; [exact Hcall|].
  rewrite (Hres {[ DNNL_ARG_SRC := 0%nat ]} DNNL_ARG_SRC 0%nat
             (lookup_singleton_eq _ _)).
  reflexivity.
Defined.

Lemma Reshape_ok rt c cx input x output_dims id :
  g_comp rt = Some c ->
  g_comps rt !! c = Some cx ->
  values rt !! input = Some x ->
  exists rt1,
    odla_Reshape input output_dims id rt = Ok (length (values rt)) rt1
    /\ values rt1
       = values rt ++ [{| mem := mem x; is_const := false;
                          value_shape := output_dims;
                          name := match id with None => EmptyString | Some s => s end |}]
    /\ memories rt1 = memories rt
    /\ bytes rt1 = bytes rt.
Proof.
  intros Hc Hx Hv. unfold odla_Reshape.
  rewrite (bind_ok_eq _ _ _ _ _ (value_get_ok _ _ _ Hv)).
  rewrite (CreateValue_ok rt c cx _ _ _ Hc Hx).
  eexists. split; [reflexivity|]. repeat split; reflexivity.
Qed.

(** X10: a reshaped value follows the binding of its input: binding the
    input or binding the reshaped value leaves one and the same state, in
    which both values lead to the caller's buffer, because the two share
    one memory object. *)
Theorem rebinding_follows_a_reshape
    (rt : runtime) (c : odla_computation) (cx : _odla_computation)
    (input : odla_value) (x : _odla_value) (m : memory)
    (output_dims : odla_value_shape) (id : odla_value_id) (data_ptr : pointer) :
  g_comp rt = Some c ->
  g_comps rt !! c = Some cx ->
  values rt !! input = Some x ->
  memories rt !! mem x = Some m ->
  exists v rt1 rt2,
    odla_Reshape input output_dims id rt = Ok v rt1
    /\ v <> input
    /\ odla_BindToArgument input data_ptr rt1 = Ok (Some ODLA_SUCCESS) rt2
    /\ odla_BindToArgument v data_ptr rt1 = Ok (Some ODLA_SUCCESS) rt2
    /\ memory_of rt2 v
       = Some {| mem_desc := mem_desc m; data_handle := data_ptr |}
    /\ memory_of rt2 input
       = Some {| mem_desc := mem_desc m; data_handle := data_ptr |}.
Proof.
  intros Hc Hx Hv Hm.
  destruct (Reshape_ok rt c cx input x output_dims id Hc Hx Hv)
    as (rt1 & Hcall & Hval & Hmem & _).
  set (y := {| mem := mem x; is_const := false; value_shape := output_dims;
               name := match id with None => EmptyString | Some s0 => s0 end |}) in *.
  assert (Hlt : (input < length (values rt))%nat) by (eapply lookup_lt_Some; eauto).
  assert (Hv1 : values rt1 !! input = Some x)
    by (rewrite Hval; eapply lookup_snoc_old; exact Hv).
  assert (Hy1 : values rt1 !! length (values rt) = Some y)
    by (rewrite Hval; apply lookup_snoc).
  assert (Hm1 : memories rt1 !! mem x = Some m) by (rewrite Hmem; exact Hm).
  eexists _, rt1, _. split; [exact Hcall|]. split; [lia|].
  split; [apply (BindToArgument_ok rt1 input x m data_ptr Hv1 Hm1)|].
  split; [apply (BindToArgument_ok rt1 _ y m data_ptr Hy1 Hm1)|].
  unfold memory_of. simpl. rewrite Hy1, Hv1. simpl.
  split; apply list_lookup_insert_eq; eapply lookup_lt_Some; exact Hm1.
Qed.

Lemma rebinding_follows_a_reshape_witness :
  exists v rt1 rt2,
    odla_Reshape 0%nat (shape_of [24]) None (demo_runtime debug_build) = Ok v rt1
    /\ odla_BindToArgument 0%nat (caller_ptr 3) rt1 = Ok (Some ODLA_SUCCESS) rt2
    /\ memory_of rt2 v
       = Some {| mem_desc := desc_by_strides [2; 3; 4] f32 [12; 4; 1];
                 data_handle := caller_ptr 3 |}.
Proof.
  assert (Hc : g_comp (demo_runtime debug_build) = Some 0%nat)
    by (vm_compute; reflexivity).
  assert (Hx : exists cx, g_comps (demo_runtime debug_build) !! 0%nat = Some cx)
    by (vm_compute; eexists; reflexivity).
  destruct Hx as [cx Hx].
  assert (Hv : values (demo_runtime debug_build) !! 0%nat
               = Some {| mem := 0%nat; is_const := false;
                         value_shape := shape_of [2; 3; 4]; name := "x" |})
    by (vm_compute; reflexivity).
  assert (Hm : memories (demo_runtime debug_build) !! 0%nat
               = Some {| mem_desc := desc_by_strides [2; 3; 4] f32 [12; 4; 1];
                         data_handle := engine_ptr 0 |})
    by (vm_compute; reflexivity).
  destruct (rebinding_follows_a_reshape (demo_runtime debug_build) 0%nat cx
              0%nat _ _ (shape_of [24]) None (caller_ptr 3) Hc Hx Hv Hm)
    as (v & rt1 & rt2 & H1 & _ & H2 & _ & H3 & _).
  exists v, rt1, rt2. repeat split; assumption.
Defined.

(** X11: reshaping a constant yields a value that is not marked constant,
    so binding the reshaped value as an output does not copy: no byte
    moves, and the memory object of the constant itself is repointed to
    the caller's buffer. *)
Theorem a_reshaped_constant_is_bound_by_alias
    (rt : runtime) (c : odla_computation) (cx : _odla_computation)
    (input : odla_value) (x : _odla_value) (m : memory)
    (output_dims : odla_value_shape) (id : odla_value_id) (data_ptr : pointer) :
  g_comp rt = Some c ->
  g_comps rt !! c = Some cx ->
  values rt !! input = Some x ->
  memories rt !! mem x = Some m ->
  is_const x = true ->
  exists v rt1 y rt2,
    odla_Reshape input output_dims id rt = Ok v rt1
    /\ values rt1 !! v = Some y
    /\ is_const y = false
    /\ odla_BindToOutput v data_ptr rt1 = Ok (Some ODLA_SUCCESS) rt2
    /\ bytes rt2 = bytes rt
    /\ values rt2 !! input = Some x
    /\ memory_of rt2 input
       = Some {| mem_desc := mem_desc m; data_handle := data_ptr |}.
Proof.
  intros Hc Hx Hv Hm Hk.
  destruct (Reshape_ok rt c cx input x output_dims id Hc Hx Hv)
    as (rt1 & Hcall & Hval & Hmem & Hb).
  set (y := {| mem := mem x; is_const := false; value_shape := output_dims;
               name := match id with None => EmptyString | Some s0 => s0 end |}) in *.
  assert (Hv1 : values rt1 !! input = Some x)
    by (rewrite Hval; eapply lookup_snoc_old; exact Hv).
  assert (Hy1 : values rt1 !! length (values rt) = Some y)
    by (rewrite Hval; apply lookup_snoc).
  assert (Hm1 : memories rt1 !! mem x = Some m) by (rewrite Hmem; exact Hm).
  eexists _, rt1, y, _. split; [exact Hcall|]. split; [exact Hy1|].
  split; [reflexivity|].
  split.
  { unfold odla_BindToOutput.
    rewrite (bind_ok_eq _ _ _ _ _ (value_get_ok _ _ _ Hy1)). simpl is_const. cbv iota.
    rewrite (bind_ok_eq _ _ _ _ _ (set_data_handle_ok rt1 (mem x) m data_ptr Hm1)).
    reflexivity. }
  simpl. split; [exact Hb|]. split; [exact Hv1|].
  unfold memory_of. simpl. rewrite Hv1.
  apply list_lookup_insert_eq. eapply lookup_lt_Some. exact Hm1.
Qed.

Lemma a_reshaped_constant_is_bound_by_alias_witness :
  exists v rt1 rt2,
    odla_Reshape 1%nat (shape_of [2; 2]) None (demo_runtime debug_build) = Ok v rt1
    /\ odla_BindToOutput v (caller_ptr 3) rt1 = Ok (Some ODLA_SUCCESS) rt2
    /\ memory_of rt2 1%nat
       = Some {| mem_desc := desc_by_strides [4] s32 [1];
                 data_handle := caller_ptr 3 |}.
Proof.
  assert (Hc : g_comp (demo_runtime debug_build) = Some 0%nat)
    by (vm_compute; reflexivity).
  assert (Hx : exists cx, g_comps (demo_runtime debug_build) !! 0%nat = Some cx)
    by (vm_compute; eexists; reflexivity).
  destruct Hx as [cx Hx].
  assert (Hv : values (demo_runtime debug_build) !! 1%nat
               = Some {| mem := 1%nat; is_const := true;
                         value_shape := shape_of [4]; name := "k" |})
    by (vm_compute; reflexivity).
  assert (Hm : memories (demo_runtime debug_build) !! 1%nat
               = Some {| mem_desc := desc_by_strides [4] s32 [1];
                         data_handle := caller_ptr 0 |})
    by (vm_compute; reflexivity).
  destruct (a_reshaped_constant_is_bound_by_alias (demo_runtime debug_build) 0%nat cx
              1%nat _ _ (shape_of [2; 2]) None (caller_ptr 3) Hc Hx Hv Hm eq_refl)
    as (v & rt1 & y & rt2 & H1 & _ & _ & H2 & _ & _ & H3).
  exists v, rt1, rt2. repeat split; assumption.
Defined.

End BindingMore.

(* ===================================================================== *)
(** ** Further properties of the two execution modes *)
(* ===================================================================== *)

Module ExecutionMore.
Import Dnnl Odla Notions Across ShapeFacts RegistryFacts ModeFacts AssertionFacts
  TransposeFacts BindingMore.

(** X12: executing a computation whose plan pairs every primitive with
    an argument map replays that plan on the byte store and returns
    [ODLA_SUCCESS]; it creates the context's stream and changes nothing
    else, so the plan, the values and the memory objects are as before
    and a second execution replays the same plan on the bytes the first
    one left. The computation executed is the one passed in: neither the
    computation the context was created for nor the active one is read. *)
Theorem ExecuteComputation_replays_and_keeps_the_plan
    (lib : library) (rt : runtime)
    (c : odla_computation) (cx : _odla_computation)
    (context : odla_context) (cc : _odla_context) :
  g_comps rt !! c = Some cx ->
  length (primitives cx) = length (args cx) ->
  contexts rt !! context = Some (Some cc) ->
  exists h1 h2 rt1 rt2,
    run_plan lib (memories rt) (primitives cx) (args cx) (bytes rt) = Some h1
    /\ run_plan lib (memories rt) (primitives cx) (args cx) h1 = Some h2
    /\ odla_ExecuteComputation lib c context rt = Ok (Some ODLA_SUCCESS) rt1
    /\ odla_ExecuteComputation lib c context rt1 = Ok (Some ODLA_SUCCESS) rt2
    /\ bytes rt1 = h1 /\ bytes rt2 = h2
    /\ (primitives cx = [] -> h1 = bytes rt)
    /\ g_comps rt1 = g_comps rt /\ g_comps rt2 = g_comps rt
    /\ values rt1 = values rt /\ values rt2 = values rt
    /\ memories rt1 = memories rt /\ memories rt2 = memories rt
    /\ g_comp rt1 = g_comp rt
    /\ contexts rt1 !! context = Some (Some {| comp := comp cc; stream := true |}).
Proof.
  intros Hx Hlen Hctx.
  destruct (run_plan_total lib (memories rt) (primitives cx) (args cx) (bytes rt) Hlen)
    as [h1 Hr1].
  destruct (run_plan_total lib (memories rt) (primitives cx) (args cx) h1 Hlen)
    as [h2 Hr2].
  assert (Hlt : (context < length (contexts rt))%nat) by (eapply lookup_lt_Some; eauto).
  set (rta := with_contexts
                (fun l => <[context := Some {| comp := comp cc; stream := true |}]> l) rt).
  assert (H1 : odla_ExecuteComputation lib c context rt
               = Ok (Some ODLA_SUCCESS) (with_bytes (fun _ => h1) rta)).
  { unfold odla_ExecuteComputation.
    rewrite (bind_ok_eq _ _ _ _ _ (ensure_stream_ok _ _ _ Hctx)).
    rewrite (bind_ok_eq _ _ _ _ _ (execute_plan_ok lib c rta cx h1 Hx Hr1)).
    reflexivity. }
  set (rt1 := with_bytes (fun _ => h1) rta) in *.
  assert (Hctx1 : contexts rt1 !! context
                  = Some (Some {| comp := comp cc; stream := true |}))
    by (apply list_lookup_insert_eq; exact Hlt).
  set (rtb := with_contexts
                (fun l => <[context := Some {| comp := comp cc; stream := true |}]> l) rt1).
  assert (H2 : odla_ExecuteComputation lib c context rt1
               = Ok (Some ODLA_SUCCESS) (with_bytes (fun _ => h2) rtb)).
  { unfold odla_ExecuteComputation.
    rewrite (bind_ok_eq _ _ _ _ _ (ensure_stream_ok _ _ _ Hctx1)).
    rewrite (bind_ok_eq _ _ _ _ _ (execute_plan_ok lib c rtb cx h2 Hx Hr2)).
    reflexivity. }
  exists h1, h2, rt1, (with_bytes (fun _ => h2) rtb).
  split; [exact Hr1|]. split; [exact Hr2|]. split; [exact H1|]. split; [exact H2|].
  split; [reflexivity|]. split; [reflexivity|].
  split.
  { intros He. rewrite He in Hr1, Hlen. destruct (args cx); [|discriminate].
    simpl in Hr1. congruence. }
  repeat split; try reflexivity. exact Hctx1.
Qed.

Lemma ExecuteComputation_replays_and_keeps_the_plan_witness :
  exists rt1 rt2,
    odla_ExecuteComputation plain_library 0%nat 0%nat (demo_with_context debug_build)
    = Ok (Some ODLA_SUCCESS) rt1
    /\ odla_ExecuteComputation plain_library 0%nat 0%nat rt1
       = Ok (Some ODLA_SUCCESS) rt2.
Proof.
  assert (Hx : exists cx, g_comps (demo_with_context debug_build) !! 0%nat = Some cx
                          /\ length (primitives cx) = length (args cx))
    by (vm_compute; eexists; split; reflexivity).
  destruct Hx as (cx & Hx & Hlen).
  assert (Hk : contexts (demo_with_context debug_build) !! 0%nat
               = Some (Some {| comp := Some 0%nat; stream := false |}))
    by (vm_compute; reflexivity).
  destruct (ExecuteComputation_replays_and_keeps_the_plan plain_library
              (demo_with_context debug_build) 0%nat cx 0%nat _ Hx Hlen Hk)
    as (h1 & h2 & rt1 & rt2 & _ & _ & H1 & H2 & _).
  exists rt1, rt2. split; assumption.
Defined.

(** [InterpretIfNeeded] in immediate mode, step by step. *)
Lemma InterpretIfNeeded_ok cfg lib rt c cx h :
  immediate cfg rt ->
  g_comp rt = Some c ->
  g_comps rt !! c = Some cx ->
  run_plan lib (memories rt) (primitives cx) (args cx) (bytes rt) = Some h ->
  match interpreter_context rt with
  | Some k => exists kc, contexts rt !! k = Some (Some kc)
  | None => True
  end ->
  exists rt1,
    InterpretIfNeeded cfg lib rt = Ok tt rt1
    /\ bytes rt1 = h
    /\ memories rt1 = memories rt
    /\ values rt1 = values rt
    /\ g_comp rt1 = Some c
    /\ g_comps rt1 = <[c := comp_with_plan [] [] cx]> (g_comps rt)
    /\ g_interpret_mode rt1 = true
    /\ next_buffer rt1 = next_buffer rt.
Proof.
  intros [Hb Hm] Hc Hx Hr Hk.
  assert (Hlt : (c < length (g_comps rt))%nat) by (eapply lookup_lt_Some; eauto).
  unfold InterpretIfNeeded. rewrite Hb.
  rewrite (bind_ok_eq get _ rt rt rt eq_refl). rewrite Hm. cbn [negb].
  assert (Hctx : exists k rta,
    (match interpreter_context rt with
     | Some c0 => ret c0
     | None => r <- odla_CreateContext;;
               modify (with_interpreter_context (Some (snd r)));;; ret (snd r)
     end) rt = Ok k rta
    /\ (exists kc, contexts rta !! k = Some (Some kc))
    /\ memories rta = memories rt /\ values rta = values rt
    /\ g_comp rta = g_comp rt /\ g_comps rta = g_comps rt
    /\ bytes rta = bytes rt /\ g_interpret_mode rta = g_interpret_mode rt
    /\ next_buffer rta = next_buffer rt).
  { destruct (interpreter_context rt) as [k|].
    - exists k, rt. split; [reflexivity|]. split; [exact Hk|]. repeat split.
    - eexists _, _. split; [reflexivity|]. simpl.
      split; [eexists; apply lookup_snoc|]. repeat split. }
  destruct Hctx as (k & rta & Hcall & [kc Hkc] & Hma & Hva & Hca & Hxa & Hba & Hia & Hna).
  rewrite (bind_ok_eq _ _ _ _ _ Hcall).
  rewrite (bind_ok_eq _ _ _ _ _ (ensure_stream_ok _ _ _ Hkc)).
  set (rtb := with_contexts _ rta).
  rewrite (bind_ok_eq _ _ _ _ _ (active_ok rtb c ltac:(simpl; congruence))).
  assert (Hxb : g_comps rtb !! c = Some cx) by (simpl; rewrite Hxa; exact Hx).
  assert (Hrb : run_plan lib (memories rtb) (primitives cx) (args cx) (bytes rtb) = Some h)
    by (simpl; rewrite Hma, Hba; exact Hr).
  rewrite (bind_ok_eq _ _ _ _ _ (execute_plan_ok lib c rtb cx h Hxb Hrb)).
  set (rtc := with_bytes _ rtb).
  rewrite (bind_ok_eq _ _ _ _ _ (comp_update_ok rtc c cx _ Hxb)).
  erewrite comp_update_ok
    by (simpl; apply list_lookup_insert_eq; rewrite Hxa; exact Hlt).
  eexists. split; [reflexivity|]. simpl.
  split; [reflexivity|]. split; [exact Hma|]. split; [exact Hva|].
  split; [congruence|].
  split; [rewrite list_insert_insert_eq, Hxa; reflexivity|].
  split; [congruence|exact Hna].
Qed.

(** X13: in immediate mode [InterpretIfNeeded] leaves the bytes an
    explicit [odla_ExecuteComputation] of the active computation leaves,
    with the same values and memory objects; the one difference is the
    plan, which the explicit execution keeps and the immediate one
    clears. *)
Theorem immediate_execution_is_execution_followed_by_clearing
    (cfg : build) (lib : library) (rt : runtime)
    (c : odla_computation) (cx : _odla_computation)
    (context : odla_context) (cc : _odla_context) :
  immediate cfg rt ->
  g_comp rt = Some c ->
  g_comps rt !! c = Some cx ->
  length (primitives cx) = length (args cx) ->
  contexts rt !! context = Some (Some cc) ->
  match interpreter_context rt with
  | Some k => exists kc, contexts rt !! k = Some (Some kc)
  | None => True
  end ->
  exists rt1 rt2,
    InterpretIfNeeded cfg lib rt = Ok tt rt1
    /\ odla_ExecuteComputation lib c context rt = Ok (Some ODLA_SUCCESS) rt2
    /\ bytes rt1 = bytes rt2
    /\ memories rt1 = memories rt2
    /\ values rt1 = values rt2
    /\ active_plan rt1 = Some ([], [])
    /\ active_plan rt2 = Some (primitives cx, args cx).
Proof.
  intros Him Hc Hx Hlen Hctx Hk.
  destruct (run_plan_total lib (memories rt) (primitives cx) (args cx) (bytes rt) Hlen)
    as [h Hr].
  destruct (InterpretIfNeeded_ok cfg lib rt c cx h Him Hc Hx Hr Hk)
    as (rt1 & H1 & Hb1 & Hm1 & Hv1 & Hc1 & Hx1 & _).
  assert (Hlt : (c < length (g_comps rt))%nat) by (eapply lookup_lt_Some; eauto).
  exists rt1. eexists. split; [exact H1|].
  split.
  { unfold odla_ExecuteComputation.
    rewrite (bind_ok_eq _ _ _ _ _ (ensure_stream_ok _ _ _ Hctx)).
    rewrite (bind_ok_eq _ _ _ _ _
               (execute_plan_ok lib c (with_contexts _ rt) cx h Hx Hr)).
    reflexivity. }
  simpl. split; [exact Hb1|]. split; [exact Hm1|]. split; [exact Hv1|].
  unfold active_plan. rewrite Hc1, Hx1. simpl. rewrite Hc, Hx.
  rewrite list_lookup_insert_eq by exact Hlt. split; reflexivity.
Qed.

Lemma immediate_execution_is_execution_followed_by_clearing_witness :
  exists rt1 rt2,
    InterpretIfNeeded interpreter_build plain_library
      (demo_with_context interpreter_build) = Ok tt rt1
    /\ odla_ExecuteComputation plain_library 1%nat 0%nat
         (demo_with_context interpreter_build) = Ok (Some ODLA_SUCCESS) rt2
    /\ bytes rt1 = bytes rt2.
Proof.
  assert (Hi : immediate interpreter_build (demo_with_context interpreter_build))
    by (split; vm_compute; reflexivity).
  assert (Hc : g_comp (demo_with_context interpreter_build) = Some 1%nat)
    by (vm_compute; reflexivity).
  assert (Hx : exists cx, g_comps (demo_with_context interpreter_build) !! 1%nat = Some cx
                          /\ length (primitives cx) = length (args cx))
    by (vm_compute; eexists; split; reflexivity).
  destruct Hx as (cx & Hx & Hlen).
  assert (Hk : exists cc, contexts (demo_with_context interpreter_build) !! 0%nat
                          = Some (Some cc))
    by (vm_compute; eexists; reflexivity).
  destruct Hk as [cc Hk].
  assert (Hn : interpreter_context (demo_with_context interpreter_build) = None)
    by (vm_compute; reflexivity).
  destruct (immediate_execution_is_execution_followed_by_clearing interpreter_build
              plain_library (demo_with_context interpreter_build) 1%nat cx 0%nat cc
              Hi Hc Hx Hlen Hk) as (rt1 & rt2 & H1 & H2 & Hb & _).
  - rewrite Hn. exact I.
  - exists rt1, rt2. repeat split; assumption.
Defined.

(** Closure rules for [keeps_mode]: no operator writes the interpret
    flag. *)
Lemma km_ret {A} (a : A) : keeps_mode (ret a).
Proof. intros rt b rt' H. injection H as _ <-. reflexivity. Qed.

Lemma km_bind {A B} (m : M A) (k : A -> M B) :
  keeps_mode m -> (forall a, keeps_mode (k a)) -> keeps_mode (bind m k).
Proof.
  intros Hm Hk rt b rt' H. apply bind_Ok in H as (a & rt1 & H1 & H2).
  rewrite (Hk _ _ _ _ H2). exact (Hm _ _ _ H1).
Qed.

Lemma km_get : keeps_mode get.
Proof. intros rt b rt' H. injection H as _ <-. reflexivity. Qed.

Lemma km_modify f :
  (forall rt, g_interpret_mode (f rt) = g_interpret_mode rt) -> keeps_mode (modify f).
Proof. intros Hf rt b rt' H. injection H as _ <-. apply Hf. Qed.

Lemma km_undefined {A} : keeps_mode (@undefined A).
Proof. intros rt b rt' H. discriminate. Qed.

Lemma km_abort {A} : keeps_mode (@abort A).
Proof. intros rt b rt' H. discriminate. Qed.

Lemma km_of_option {A} (o : option A) : keeps_mode (of_option o).
Proof. destruct o; [apply km_ret|apply km_undefined]. Qed.

Ltac km_step :=
  first
    [ apply km_ret | apply km_get | apply km_undefined | apply km_abort
    | apply km_of_option
    | apply km_modify; intros; reflexivity
    | apply km_bind; [|intros]
    | match goal with
      | |- keeps_mode (if ?b then _ else _) => destruct b
      | |- keeps_mode (match ?o with _ => _ end) => destruct o
      end ].

Ltac km :=
  repeat first
    [ km_step
    | progress unfold InterpretIfNeeded, odla_CreateContext, ensure_stream,
        context_get, execute_plan, execute_now, assert_, divides_check,
        getNCHWDims, getOIHWDims, getGOIHWDims, getFormatTag_of,
        CreateValue, alloc_memory, new_memory, set_data_handle, push_primitive,
        push_args, value_update, value_get, memory_get, comp_update, comp_get,
        active ].

Lemma km_InterpretIfNeeded cfg lib : keeps_mode (InterpretIfNeeded cfg lib).
Proof. km. Qed.

(** Closure rules for [ends_drained]. *)
Lemma ed_bind_keep {A B} cfg (m : M A) (k : A -> M B) :
  keeps_mode m -> (forall a, ends_drained cfg (k a)) -> ends_drained cfg (bind m k).
Proof.
  intros Hm Hk rt b rt' [Hb Hi] H. apply bind_Ok in H as (a & rt1 & H1 & H2).
  apply (Hk a rt1 b rt'); [|exact H2].
  split; [exact Hb|]. rewrite (Hm _ _ _ H1). exact Hi.
Qed.

Lemma ed_interpret_ret {A} cfg lib (v : A) :
  ends_drained cfg (InterpretIfNeeded cfg lib;;; ret v).
Proof.
  intros rt b rt' Him H. apply bind_Ok in H as ([] & rt1 & H1 & H2).
  injection H2 as _ <-. split.
  - destruct Him as [Hb Hi]. split; [exact Hb|].
    rewrite (km_InterpretIfNeeded cfg lib _ _ _ H1). exact Hi.
  - eapply InterpretIfNeeded_drains; eauto.
Qed.

Ltac ed :=
  repeat first
    [ apply ed_interpret_ret
    | apply ed_bind_keep; [solve [km]|intros]
    | match goal with
      | |- ends_drained _ (if ?b then _ else _) => destruct b
      | |- ends_drained _ (match ?o with _ => _ end) => destruct o
      end ].

Lemma ed_binary_eltwise cfg lib algo lhs rhs id :
  ends_drained cfg (binary_eltwise cfg lib algo lhs rhs id).
Proof. unfold binary_eltwise. ed. Qed.

(** X14: in immediate mode every operator that ends in
    [InterpretIfNeeded] (the element-wise binary operators, the sigmoid,
    the two convolutions) and the matrix product with a bias, which ends
    in [odla_Add], returns with the plan of the active computation empty
    and the mode still immediate, whatever the operands. *)
Theorem interpreting_operators_return_with_an_empty_plan
    (cfg : build) (lib : library) :
  (forall lhs rhs id, ends_drained cfg (odla_Add cfg lib lhs rhs id))
  /\ (forall lhs rhs id, ends_drained cfg (odla_Mul cfg lib lhs rhs id))
  /\ (forall input id, ends_drained cfg (odla_Sigmoid cfg lib input id))
  /\ (forall input il group kernel kl strides dilations pf pb bias odims id,
        ends_drained cfg
          (odla_Conv cfg lib input il group kernel kl strides dilations pf pb
             bias odims id))
  /\ (forall input il group kernel kl strides dilations pf pb bias odims id,
        ends_drained cfg
          (odla_DeConv cfg lib input il group kernel kl strides dilations pf pb
             bias odims id))
  /\ (forall lhs tl rhs tr b odims id,
        ends_drained cfg (odla_Gemm cfg lib lhs tl rhs tr (Some b) odims id)).
Proof.
  split; [intros; apply ed_binary_eltwise|].
  split; [intros; apply ed_binary_eltwise|].
  split; [intros; unfold odla_Sigmoid; ed|].
  split; [intros; destruct bias; unfold odla_Conv; ed|].
  split; [intros; destruct bias; unfold odla_DeConv; ed|].
  intros; unfold odla_Gemm; ed.
Qed.

Lemma interpreting_operators_return_with_an_empty_plan_witness :
  exists v rt',
    odla_Sigmoid interpreter_build plain_library 0%nat (Some "s"%string)
      (demo_runtime interpreter_build) = Ok v rt'
    /\ active_plan rt' = Some ([], []).
Proof.
  assert (Hi : immediate interpreter_build (demo_runtime interpreter_build))
    by (split; vm_compute; reflexivity).
  assert (Hr : exists v rt',
             odla_Sigmoid interpreter_build plain_library 0%nat (Some "s"%string)
               (demo_runtime interpreter_build) = Ok v rt')
    by (vm_compute; eexists _, _; reflexivity).
  destruct Hr as (v & rt' & Hr).
  exists v, rt'. split; [exact Hr|].
  destruct (interpreting_operators_return_with_an_empty_plan interpreter_build
              plain_library) as (_ & _ & Hs & _).
  exact (proj2 (Hs 0%nat (Some "s"%string) _ v rt' Hi Hr)).
Defined.

(** X15: the three calls of the immediate-mode interface assert
    [g_interpret_mode] before anything else: in a debug build outside
    immediate mode each aborts with the state untouched; once the
    assertion passes or is compiled out, [odla_CreateValue] is
    [odla_CreateArgument] and [odla_SetValueData] is
    [odla_BindToArgument]. *)
Theorem value_data_calls_assert_the_interpret_mode
    (cfg : build) (rt : runtime)
    (type : odla_value_type) (id : odla_value_id)
    (v : odla_value) (p : pointer) :
  (NDEBUG cfg = false -> g_interpret_mode rt = false ->
     odla_CreateValue cfg type id rt = AssertFail rt
     /\ odla_SetValueData cfg v p rt = AssertFail rt
     /\ odla_GetValueData cfg v p rt = AssertFail rt)
  /\ (NDEBUG cfg = true \/ g_interpret_mode rt = true ->
        odla_CreateValue cfg type id rt = odla_CreateArgument type id rt
        /\ odla_SetValueData cfg v p rt = odla_BindToArgument v p rt).
Proof.
  split.
  - intros Hd Hm.
    unfold odla_CreateValue, odla_SetValueData, odla_GetValueData,
      odla_GetValueData_body, assert_.
    rewrite Hd. unfold bind, get, ret. rewrite Hm. simpl. repeat split.
  - intros H.
    unfold odla_CreateValue, odla_SetValueData, odla_BindToArgument, assert_.
    destruct (NDEBUG cfg) eqn:Hd.
    + split; reflexivity.
    + destruct H as [H|H]; [discriminate|].
      assert (Ha : (b <- (r <- get;; ret (g_interpret_mode r));;
                    if b then ret tt else @abort unit) rt = Ok tt rt)
        by (unfold bind, get, ret; rewrite H; reflexivity).
      rewrite !(bind_ok_eq _ _ _ _ _ Ha). split; reflexivity.
Qed.

Lemma value_data_calls_assert_the_interpret_mode_witness :
  odla_SetValueData debug_build 0%nat (caller_ptr 5) (demo_runtime debug_build)
  = AssertFail (demo_runtime debug_build)
  /\ odla_SetValueData release_build 0%nat (caller_ptr 5) (demo_runtime release_build)
     = odla_BindToArgument 0%nat (caller_ptr 5) (demo_runtime release_build).
Proof.
  assert (Hm : g_interpret_mode (demo_runtime debug_build) = false)
    by (vm_compute; reflexivity).
  destruct (value_data_calls_assert_the_interpret_mode debug_build
              (demo_runtime debug_build)
              {| element_type := ODLA_FLOAT32; shape := shape_of [1] |} None
              0%nat (caller_ptr 5)) as [Hd _].
  destruct (value_data_calls_assert_the_interpret_mode release_build
              (demo_runtime release_build)
              {| element_type := ODLA_FLOAT32; shape := shape_of [1] |} None
              0%nat (caller_ptr 5)) as [_ Hr].
  split.
  - exact (proj1 (proj2 (Hd eq_refl Hm))).
  - exact (proj2 (Hr (or_introl eq_refl))).
Defined.

End ExecutionMore.

(* ===================================================================== *)
(** ** Further properties of the operators *)
(* ===================================================================== *)

Module OperatorMore.
Import Dnnl Odla Notions Across ShapeFacts RegistryFacts ModeFacts AssertionFacts
  TransposeFacts BindingMore ExecutionMore.

(** What [odla_Transpose] computes, with the extents read through
    [getDims]. *)
Lemma Transpose_moves_by_getDims
    (lib : library) (rt : runtime)
    (c : odla_computation) (cx : _odla_computation)
    (context : odla_context) (cc : _odla_context)
    (input : odla_value) (x : _odla_value) (m : memory)
    (permutations output_dims : odla_value_shape) (id : odla_value_id) :
  g_comp rt = Some c ->
  g_comps rt !! c = Some cx ->
  length (primitives cx) = length (args cx) ->
  contexts rt !! context = Some (Some cc) ->
  values rt !! input = Some x ->
  memories rt !! mem x = Some m ->
  allocated rt (data_handle m) ->
  Forall (fun e => 0 <= e) (getDims (value_shape x)) ->
  shape_size permutations = shape_size (value_shape x) ->
  Permutation (getDims permutations) (zrange (length (getDims permutations))) ->
  shape_size output_dims = shape_size (value_shape x) ->
  getDims output_dims = permute (getDims permutations) (getDims (value_shape x)) ->
  Forall fits_int64 (row_major (getDims (value_shape x))) ->
  Forall fits_int64 (row_major (getDims output_dims)) ->
  exists t rt1 rt2 y my h,
    odla_Transpose input permutations output_dims id rt = Ok t rt1
    /\ odla_ExecuteComputation lib c context rt1 = Ok (Some ODLA_SUCCESS) rt2
    /\ values rt2 !! t = Some y
    /\ value_shape y = output_dims
    /\ memories rt2 !! mem y = Some my
    /\ data_handle my <> data_handle m
    /\ run_plan lib (memories rt1) (primitives cx) (args cx) (bytes rt) = Some h
    /\ (primitives cx = [] -> h = bytes rt)
    /\ (forall idx r,
          In idx (indices (getDims (value_shape x))) ->
          0 <= r < sizeof (md_data_type (mem_desc m)) ->
          bytes rt2 (data_handle my)
            (offset (row_major (getDims output_dims))
                    (permute (getDims permutations) idx)
             * sizeof (md_data_type (mem_desc m)) + r)
          = h (data_handle m)
              (offset (row_major (getDims (value_shape x))) idx
               * sizeof (md_data_type (mem_desc m)) + r)).
Proof.
  intros Hc Hx Hlen Hctx Hv Hm Halloc Hd Hps Hperm Hos Hod Hfit1 Hfit2.
  set (d := getDims (value_shape x)) in *.
  set (p := getDims permutations) in *.
  set (dt := md_data_type (mem_desc m)).
  destruct (Transpose_ok rt c cx input x m permutations output_dims id Hc Hx Hv Hm)
    as (rt1 & cx1 & Ht1 & Hmem1 & Hnb1 & Hval1 & Hc1 & Hlc1 & Hx1 & Hp1 & Ha1 & Hb1 & Hk1).
  set (m1 := {| mem_desc := desc_by_strides (getDims output_dims) dt (getStrides output_dims);
                data_handle := engine_ptr (next_buffer rt) |}) in *.
  assert (Hmx : memories rt1 !! mem x = Some m)
    by (rewrite Hmem1; apply lookup_app_l_Some; exact Hm).
  assert (Hm1 : memories rt1 !! S (length (memories rt)) = Some m1).
  { rewrite Hmem1. rewrite lookup_app_r by lia.
    replace (S (length (memories rt)) - length (memories rt))%nat with 1%nat by lia.
    reflexivity. }
  destruct (run_plan_total lib (memories rt1) (primitives cx) (args cx) (bytes rt) Hlen)
    as [h1 Hrun].
  set (nb := next_buffer rt) in *.
  set (h2 := reorder_strided (sizeof dt) (getDims output_dims)
               (permute_strides permutations (getStrides (value_shape x)))
               (getStrides output_dims) (data_handle m) (engine_ptr nb) h1).
  assert (Hplan : run_plan lib (memories rt1) (primitives cx1) (args cx1) (bytes rt1)
                  = Some h2).
  { rewrite Hp1, Ha1, Hb1.
    rewrite run_plan_app by exact Hlen. rewrite Hrun. cbn [run_plan app].
    destruct (resolve_two (memories rt1) DNNL_ARG_FROM DNNL_ARG_TO
                (mem x) (S (length (memories rt))) ltac:(discriminate)) as [Hf1 Hto1].
    rewrite Hmx in Hf1. rewrite Hm1 in Hto1.
    rewrite (execute_strided_reorder lib _ _ _ _ _ m m1 h1 Hf1 Hto1).
    reflexivity. }
  assert (Hctx1 : contexts rt1 !! context = Some (Some cc))
    by (rewrite Hk1; exact Hctx).
  assert (Hexec : odla_ExecuteComputation lib c context rt1
                  = Ok (Some ODLA_SUCCESS)
                       (with_bytes (fun _ => h2)
                          (with_contexts
                             (fun l => <[context := Some {| comp := comp cc; stream := true |}]> l)
                             rt1))).
  { unfold odla_ExecuteComputation.
    rewrite (bind_ok_eq _ _ _ _ _ (ensure_stream_ok _ _ _ Hctx1)).
    rewrite (bind_ok_eq _ _ _ _ _
               (execute_plan_ok lib c (with_contexts _ rt1) cx1 h2 Hx1 Hplan)).
    reflexivity. }
  assert (Hlp : length p = length d).
  { unfold p, d. rewrite !getDims_length. congruence. }
  assert (Hs1 : permute_strides permutations (getStrides (value_shape x))
                = permute p (row_major d)).
  { rewrite permute_strides_permute by (rewrite getStrides_length; congruence).
    rewrite getStrides_row_major by exact Hfit1. reflexivity. }
  assert (Hs2 : getStrides output_dims = row_major (permute p d))
    by (rewrite getStrides_row_major by exact Hfit2; rewrite Hod; reflexivity).
  assert (Hne1 : engine_ptr nb <> data_handle m).
  { intros Heq. rewrite <- Heq in Halloc. simpl in Halloc. unfold nb in Halloc. lia. }
  eexists _, rt1, _, _, m1, h1.
  split; [exact Ht1|]. split; [exact Hexec|].
  simpl.
  split; [rewrite Hval1; apply lookup_snoc|].
  split; [reflexivity|].
  split; [exact Hm1|].
  split; [exact Hne1|].
  split; [exact Hrun|].
  split.
  { intros He. rewrite He in Hrun, Hlen. destruct (args cx); [|discriminate].
    simpl in Hrun. congruence. }
  intros idx r Hin Hr. fold nb. unfold h2.
  rewrite Hs1, Hs2, Hod.
  rewrite reorder_strided_hit.
  - rewrite offset_permute_both; [reflexivity| |].
    + rewrite row_major_length, <- Hlp. exact Hperm.
    + rewrite row_major_length. apply in_indices in Hin.
      symmetry. eapply Forall2_length; eauto.
  - exact Hr.
  - apply row_major_NoDup. apply permute_nonneg. exact Hd.
  - apply in_indices_permute; [exact Hperm|lia|exact Hin].
Qed.

(** X16: what [odla_Transpose] computes. After the call and an execution
    of the computation, the element at multi-index [idx] of the input is
    the element at the permuted multi-index of the result, both buffers
    read row-major: the bytes are those the input buffer held when the
    reorder ran, which is after the earlier entries of the plan. The
    result has a buffer of its own. The extents [d] are not negative, and
    the row-major strides of the two shapes fit an [int64_t]. *)
Theorem Transpose_moves_each_element_to_its_permuted_index
    (lib : library) (rt : runtime)
    (c : odla_computation) (cx : _odla_computation)
    (context : odla_context) (cc : _odla_context)
    (input : odla_value) (x : _odla_value) (m : memory)
    (permutations output_dims : odla_value_shape) (id : odla_value_id)
    (d p : list Z) :
  g_comp rt = Some c ->
  g_comps rt !! c = Some cx ->
  length (primitives cx) = length (args cx) ->
  contexts rt !! context = Some (Some cc) ->
  values rt !! input = Some x ->
  memories rt !! mem x = Some m ->
  allocated rt (data_handle m) ->
  has_extents (value_shape x) d ->
  has_extents permutations p ->
  has_extents output_dims (permute p d) ->
  length p = length d ->
  Permutation p (zrange (length p)) ->
  Forall (fun e => 0 <= e) d ->
  Forall fits_int64 (row_major d) ->
  Forall fits_int64 (row_major (permute p d)) ->
  exists t rt1 rt2 y my h,
    odla_Transpose input permutations output_dims id rt = Ok t rt1
    /\ odla_ExecuteComputation lib c context rt1 = Ok (Some ODLA_SUCCESS) rt2
    /\ values rt2 !! t = Some y
    /\ value_shape y = output_dims
    /\ memories rt2 !! mem y = Some my
    /\ data_handle my <> data_handle m
    /\ run_plan lib (memories rt1) (primitives cx) (args cx) (bytes rt) = Some h
    /\ (primitives cx = [] -> h = bytes rt)
    /\ (forall idx r,
          Forall2 (fun i e => 0 <= i < e) idx d ->
          0 <= r < sizeof (md_data_type (mem_desc m)) ->
          bytes rt2 (data_handle my)
            (offset (row_major (permute p d)) (permute p idx)
             * sizeof (md_data_type (mem_desc m)) + r)
          = h (data_handle m)
              (offset (row_major d) idx * sizeof (md_data_type (mem_desc m)) + r)).
Proof.
  intros Hc Hx Hlen Hctx Hv Hm Halloc Hxd Hpp Hod Hlp Hperm Hd Hf1 Hf2.
  pose proof (has_extents_getDims _ _ Hxd) as Gx.
  pose proof (has_extents_getDims _ _ Hpp) as Gp.
  pose proof (has_extents_getDims _ _ Hod) as Go.
  destruct Hxd as [Sx _]. destruct Hpp as [Sp _]. destruct Hod as [So _].
  rewrite permute_length in So.
  destruct (Transpose_moves_by_getDims lib rt c cx context cc input x m
              permutations output_dims id Hc Hx Hlen Hctx Hv Hm Halloc)
    as (t & rt1 & rt2 & y & my & h & H1 & H2 & H3 & H4 & H5 & H6 & H7 & H8 & H9);
    rewrite ?Gx, ?Gp, ?Go; try assumption; try lia; try reflexivity.
  exists t, rt1, rt2, y, my, h.
  repeat (split; [assumption|]).
  intros idx r Hidx Hr.
  rewrite Gx, Gp, Go in H9. apply H9; [|exact Hr].
  apply in_indices. exact Hidx.
Qed.

Lemma Transpose_moves_each_element_to_its_permuted_index_witness :
  exists t rt1 rt2,
    odla_Transpose 0%nat (shape_of [2; 0; 1]) (shape_of [4; 2; 3]) None
      (demo_with_context debug_build) = Ok t rt1
    /\ odla_ExecuteComputation plain_library 0%nat 0%nat rt1
       = Ok (Some ODLA_SUCCESS) rt2.
Proof.
  assert (Hc : g_comp (demo_with_context debug_build) = Some 0%nat)
    by (vm_compute; reflexivity).
  assert (Hx : exists cx, g_comps (demo_with_context debug_build) !! 0%nat = Some cx
                          /\ length (primitives cx) = length (args cx))
    by (vm_compute; eexists; split; reflexivity).
  destruct Hx as (cx & Hx & Hlen).
  assert (Hctx : exists cc, contexts (demo_with_context debug_build) !! 0%nat
                            = Some (Some cc))
    by (vm_compute; eexists; reflexivity).
  destruct Hctx as [cc Hctx].
  assert (Hv : values (demo_with_context debug_build) !! 0%nat
               = Some {| mem := 0%nat; is_const := false;
                         value_shape := shape_of [2; 3; 4]; name := "x" |})
    by (vm_compute; reflexivity).
  assert (Hm : memories (demo_with_context debug_build) !! 0%nat
               = Some {| mem_desc := desc_by_strides [2; 3; 4] f32 [12; 4; 1];
                         data_handle := engine_ptr 0 |})
    by (vm_compute; reflexivity).
  assert (Ha : allocated (demo_with_context debug_build) (engine_ptr 0))
    by (vm_compute; lia).
  assert (Hp : Permutation [2; 0; 1] (zrange 3)).
  { change (zrange 3) with ([0; 1] ++ 2 :: []).
    apply Permutation_cons_app. reflexivity. }
  assert (Hd : Forall (fun e => 0 <= e) [2; 3; 4])
    by (repeat constructor; lia).
  assert (Hf1 : Forall fits_int64 (row_major [2; 3; 4]))
    by (repeat constructor; unfold fits_int64; simpl; lia).
  assert (Hf2 : Forall fits_int64 (row_major (permute [2; 0; 1] [2; 3; 4])))
    by (repeat constructor; unfold fits_int64; simpl; lia).
  destruct (Transpose_moves_each_element_to_its_permuted_index plain_library
              (demo_with_context debug_build) 0%nat cx 0%nat cc 0%nat
              {| mem := 0%nat; is_const := false;
                 value_shape := shape_of [2; 3; 4]; name := "x" |}
              {| mem_desc := desc_by_strides [2; 3; 4] f32 [12; 4; 1];
                 data_handle := engine_ptr 0 |}
              (shape_of [2; 0; 1]) (shape_of [4; 2; 3]) None [2; 3; 4] [2; 0; 1]
              Hc Hx Hlen Hctx Hv Hm Ha
              (conj eq_refl eq_refl) (conj eq_refl eq_refl) (conj eq_refl eq_refl)
              eq_refl Hp Hd Hf1 Hf2)
    as (t & rt1 & rt2 & y & my & h & H1 & H2 & _).
  exists t, rt1, rt2. split; assumption.
Defined.

(** X17: on operands of equal rank [binary_eltwise] asserts nothing and
    compares no extents, in any build: it appends one binary primitive
    and one value with the left operand's shape. When the two element
    counts agree the right operand is read through the left operand's
    descriptor, whatever its own extents are; otherwise it is read
    through the descriptor of its own memory object. The argument map
    names the memory objects of the two operands and the fresh
    destination. *)
Theorem binary_eltwise_equal_rank_checks_nothing
    (cfg : build) (lib : library) (algo : algorithm) (rt : runtime)
    (c : odla_computation) (cx : _odla_computation)
    (lhs rhs : odla_value) (l r : _odla_value) (lm rm : memory)
    (id : odla_value_id) :
  g_comp rt = Some c ->
  g_comps rt !! c = Some cx ->
  values rt !! lhs = Some l ->
  values rt !! rhs = Some r ->
  memories rt !! mem l = Some lm ->
  memories rt !! mem r = Some rm ->
  shape_size (value_shape l) = shape_size (value_shape r) ->
  let lhs_md := desc_by_tag (getDims (value_shape l)) (md_data_type (mem_desc lm))
                  (getFormatTag (value_shape l)) in
  let rhs_md := if GetTotalElements (value_shape l) =? GetTotalElements (value_shape r)
                then lhs_md else mem_desc rm in
  exists rt1 cx1,
    binary_eltwise cfg lib algo lhs rhs id rt
      = (InterpretIfNeeded cfg lib;;; ret (length (values rt))) rt1
    /\ (~ immediate cfg rt ->
          binary_eltwise cfg lib algo lhs rhs id rt = Ok (length (values rt)) rt1)
    /\ g_comps rt1 !! c = Some cx1
    /\ primitives cx1 = primitives cx ++ [prim_binary algo lhs_md rhs_md lhs_md]
    /\ args cx1 = args cx ++ [{[ DNNL_ARG_SRC_0 := mem l; DNNL_ARG_SRC_1 := mem r;
                                 DNNL_ARG_DST := length (memories rt) ]}]
    /\ values rt1
       = values rt ++ [{| mem := length (memories rt); is_const := false;
                          value_shape := value_shape l;
                          name := match id with None => EmptyString | Some s => s end |}]
    /\ memories rt1
       = memories rt ++ [{| mem_desc := lhs_md;
                            data_handle := engine_ptr (next_buffer rt) |}]
    /\ bytes rt1 = bytes rt.
Proof.
  intros Hc Hx Hl Hr Hlm Hrm Heq lhs_md rhs_md.
  assert (Hrm' : forall md p,
    memory_get (mem r)
      (with_memories (fun l0 => l0 ++ [{| mem_desc := md; data_handle := p |}])
         (with_next_buffer (S (next_buffer rt)) rt))
    = Ok rm (with_memories (fun l0 => l0 ++ [{| mem_desc := md; data_handle := p |}])
         (with_next_buffer (S (next_buffer rt)) rt))).
  { intros md p. apply memory_get_ok. simpl. eapply lookup_snoc_old. exact Hrm. }
  assert (Hsz : (shape_size (value_shape l) =? shape_size (value_shape r)) = true)
    by (apply Z.eqb_eq; exact Heq).
  assert (Hlt : (c < length (g_comps rt))%nat) by (eapply lookup_lt_Some; eauto).
  unfold binary_eltwise.
  rewrite (bind_ok_eq _ _ _ _ _ (value_get_ok _ _ _ Hl)).
  rewrite (bind_ok_eq _ _ _ _ _ (value_get_ok _ _ _ Hr)).
  rewrite (bind_ok_eq _ _ _ _ _ (memory_get_ok _ _ _ Hlm)).
  rewrite (bind_ok_eq _ _ _ _ _ (alloc_memory_ok _ _)).
  rewrite (bind_ok_eq _ _ _ _ _ (Hrm' _ _)).
  rewrite Hsz. cbn [negb]. fold lhs_md.
  set (rt1 := with_memories _ _).
  assert (Hsel : (if GetTotalElements (value_shape l) =? GetTotalElements (value_shape r)
                  then ret lhs_md else ret (mem_desc rm)) rt1 = Ok rhs_md rt1).
  { unfold rhs_md.
    destruct (GetTotalElements (value_shape l) =? GetTotalElements (value_shape r));
      reflexivity. }
  rewrite (bind_ok_eq _ _ _ _ _ Hsel).
  rewrite (bind_ok_eq _ _ _ _ _ (push_primitive_ok rt1 c cx _ Hc Hx)).
  set (rt2 := with_g_comps _ rt1).
  assert (Hx2 : g_comps rt2 !! c
                = Some (comp_with_plan (primitives cx ++ [prim_binary algo lhs_md rhs_md lhs_md])
                          (args cx) cx))
    by (apply list_lookup_insert_eq; exact Hlt).
  rewrite (bind_ok_eq _ _ _ _ _ (CreateValue_ok rt2 c _ _ _ _ Hc Hx2)).
  set (rt3 := with_g_comps _ (with_values _ rt2)).
  assert (Hl3 : values rt3 !! lhs = Some l) by (eapply lookup_snoc_old; exact Hl).
  assert (Hr3 : values rt3 !! rhs = Some r) by (eapply lookup_snoc_old; exact Hr).
  rewrite (bind_ok_eq _ _ _ _ _ (value_get_ok _ _ _ Hl3)).
  rewrite (bind_ok_eq _ _ _ _ _ (value_get_ok _ _ _ Hr3)).
  assert (Hx3 : g_comps rt3 !! c
                = Some (comp_with_vals (vals cx ++ [length (values rt)])
                          (comp_with_plan
                             (primitives cx ++ [prim_binary algo lhs_md rhs_md lhs_md])
                             (args cx) cx))).
  { unfold rt3. simpl. apply list_lookup_insert_eq.
    rewrite length_insert. exact Hlt. }
  rewrite (bind_ok_eq _ _ _ _ _ (push_args_ok rt3 c _ _ Hc Hx3)).
  set (rt4 := with_g_comps _ rt3).
  exists rt4. eexists.
  split; [reflexivity|].
  split.
  { intros Hni.
    assert (Hcm : ODLA_DNNL_BUILD_AS_INTERPRETER cfg = false
                  \/ g_interpret_mode rt4 = false).
    { unfold immediate in Hni. simpl.
      destruct (ODLA_DNNL_BUILD_AS_INTERPRETER cfg); [|left; reflexivity].
      destruct (g_interpret_mode rt); [|right; reflexivity].
      exfalso. apply Hni. split; reflexivity. }
    rewrite (bind_ok_eq _ _ _ _ _ (InterpretIfNeeded_compiled cfg lib rt4 Hcm)).
    reflexivity. }
  split.
  { unfold rt4. simpl. apply list_lookup_insert_eq.
    rewrite !length_insert. exact Hlt. }
  repeat split; reflexivity.
Qed.

Lemma binary_eltwise_equal_rank_checks_nothing_witness :
  exists rt1,
    odla_Add debug_build plain_library 2%nat 5%nat None (demo_runtime debug_build)
    = Ok (length (values (demo_runtime debug_build))) rt1.
Proof.
  assert (Hc : g_comp (demo_runtime debug_build) = Some 0%nat)
    by (vm_compute; reflexivity).
  assert (Hx : exists cx, g_comps (demo_runtime debug_build) !! 0%nat = Some cx)
    by (vm_compute; eexists; reflexivity).
  destruct Hx as [cx Hx].
  assert (Hl : values (demo_runtime debug_build) !! 2%nat
               = Some {| mem := 2%nat; is_const := false;
                         value_shape := shape_of [2; 3]; name := "y" |})
    by (vm_compute; reflexivity).
  assert (Hr : values (demo_runtime debug_build) !! 5%nat
               = Some {| mem := 5%nat; is_const := false;
                         value_shape := shape_of [3; 2]; name := "z" |})
    by (vm_compute; reflexivity).
  assert (Hlm : memories (demo_runtime debug_build) !! 2%nat
                = Some {| mem_desc := desc_by_strides [2; 3] f32 [3; 1];
                          data_handle := engine_ptr 1 |})
    by (vm_compute; reflexivity).
  assert (Hrm : memories (demo_runtime debug_build) !! 5%nat
                = Some {| mem_desc := desc_by_strides [3; 2] f32 [2; 1];
                          data_handle := engine_ptr 3 |})
    by (vm_compute; reflexivity).
  assert (Hni : ~ immediate debug_build (demo_runtime debug_build))
    by (intros [Hb _]; discriminate).
  destruct (binary_eltwise_equal_rank_checks_nothing debug_build plain_library
              binary_add (demo_runtime debug_build) 0%nat cx 2%nat 5%nat _ _ _ _ None
              Hc Hx Hl Hr Hlm Hrm eq_refl) as (rt1 & cx1 & _ & Hcall & _).
  exists rt1. exact (Hcall Hni).
Defined.

(** Associativity and the right unit of [bind], point by point. *)
Lemma bind_assoc {A B C} (m : M A) (k : A -> M B) (k' : B -> M C) rt :
  bind (bind m k) k' rt = bind m (fun a => bind (k a) k') rt.
Proof. unfold bind. destruct (m rt); reflexivity. Qed.


End OperatorMore.

(* ===================================================================== *)
(** ** Buffers, value data and contexts *)
(* ===================================================================== *)

Module DataMore.
Import Dnnl Odla Notions Across ShapeFacts RegistryFacts ModeFacts AssertionFacts
  TransposeFacts BindingMore ExecutionMore OperatorMore.

Lemma bind_ret_eq {A B} (a : A) (k : A -> M B) rt : bind (ret a) k rt = k a rt.
Proof. reflexivity. Qed.

Lemma span_row_major (d : list Z) : span d (row_major d) = product d.
Proof.
  induction d as [|a d IH]; [reflexivity|].
  cbn [row_major span]. rewrite IH.
  change (product (a :: d)) with (a * product d). ring.
Qed.

(** X19: the descriptor the API gives a value of rank 1 to 6 occupies
    one element size per element, row-major and without padding: its
    size is the product of the extents times the size of the DNNL element
    type, and 0 when some extent is not positive. [ODLA_INT64] is mapped
    to the 32-bit integer type, so a 64-bit integer value is described
    with the size of a 32-bit one. *)
Theorem packed_descriptor_occupies_the_element_count
    (sh : odla_value_shape) (ty : odla_element_type) :
  1 <= shape_size sh <= 6 ->
  md_format (getMemoryDesc sh ty) = fmt_blocked (row_major (getDims sh))
  /\ get_size (getMemoryDesc_type {| element_type := ty; shape := sh |})
     = (if forallb (fun d => 0 <? d) (getDims sh)
        then product (getDims sh) * sizeof (getDataType ty) else 0)
  /\ get_size (getMemoryDesc sh ODLA_INT64) = get_size (getMemoryDesc sh ODLA_INT32)
  /\ (Forall (fun d => 0 < d) (getDims sh) ->
      get_size (getMemoryDesc sh ODLA_FLOAT32) = product (getDims sh) * 4
      /\ get_size (getMemoryDesc sh ODLA_INT64) = product (getDims sh) * 4
      /\ get_size (getMemoryDesc sh ODLA_BFLOAT16) = product (getDims sh) * 2).
Proof.
  intros Hr.
  assert (Hd : forall t, getMemoryDesc sh t
                         = desc_by_strides (getDims sh) (getDataType t)
                             (row_major (getDims sh)))
    by (intros t; unfold getMemoryDesc; apply desc_by_tag_plain; exact Hr).
  assert (Hs : forall t, get_size (getMemoryDesc sh t)
                         = (if forallb (fun d => 0 <? d) (getDims sh)
                            then product (getDims sh) * sizeof (getDataType t) else 0)).
  { intros t. rewrite Hd. unfold get_size, desc_by_strides. cbn.
    rewrite span_row_major. reflexivity. }
  split; [rewrite Hd; reflexivity|].
  split; [unfold getMemoryDesc_type; cbn [shape element_type]; apply Hs|].
  split; [rewrite !Hs; reflexivity|].
  intros Hpos.
  assert (Hall : forallb (fun d => 0 <? d) (getDims sh) = true).
  { clear -Hpos. induction Hpos as [|a l Ha _ IH]; [reflexivity|].
    cbn [forallb]. rewrite IH. destruct (Z.ltb_spec 0 a); [reflexivity|lia]. }
  rewrite !Hs, Hall. repeat split; reflexivity.
Qed.

Lemma packed_descriptor_occupies_the_element_count_witness :
  get_size (getMemoryDesc (shape_of [2; 3; 4]) ODLA_FLOAT32) = 96
  /\ get_size (getMemoryDesc (shape_of [2; 3; 4]) ODLA_INT64) = 96.
Proof.
  destruct (packed_descriptor_occupies_the_element_count (shape_of [2; 3; 4])
              ODLA_FLOAT32 ltac:(simpl; lia)) as (_ & _ & _ & H).
  destruct H as (Hf & Hi & _).
  - unfold getDims, shape_of, dim_at; simpl. repeat constructor; lia.
  - split; [exact Hf|exact Hi].
Defined.

(** X21: a context belongs to the computation that is active when it is
    created. Changing the active computation afterwards, to any handle or
    to null, does not change where [odla_BindToArgumentById] looks a name
    up: it binds the input of the computation the context was created
    under. *)
Theorem a_context_keeps_the_computation_it_was_created_under
    (rt : runtime) (c1 : odla_computation) (cx1 : _odla_computation)
    (nm : string) (v : odla_value) (x : _odla_value) (m : memory)
    (p : pointer) (c2 : option odla_computation) :
  g_comp rt = Some c1 ->
  g_comps rt !! c1 = Some cx1 ->
  inputs cx1 !! nm = Some v ->
  values rt !! v = Some x ->
  memories rt !! mem x = Some m ->
  exists rt1 rt2,
    odla_CreateContext rt = Ok (Some ODLA_SUCCESS, length (contexts rt)) rt1
    /\ (odla_SetActiveComputation c2;;;
        odla_BindToArgumentById nm p (length (contexts rt))) rt1
       = Ok (Some ODLA_SUCCESS) rt2
    /\ g_comp rt2 = c2
    /\ contexts rt2 !! length (contexts rt)
       = Some (Some {| comp := Some c1; stream := false |})
    /\ memories rt2 !! mem x = Some {| mem_desc := mem_desc m; data_handle := p |}.
Proof.
  intros Hc Hx Hi Hv Hm.
  assert (Hlt : (mem x < length (memories rt))%nat) by (eapply lookup_lt_Some; eauto).
  eexists _, _. split; [reflexivity|].
  cbn [fst snd]. split.
  { unfold odla_SetActiveComputation.
    unfold bind at 1 2. unfold modify at 1. unfold ret at 1. cbv beta iota.
    unfold odla_BindToArgumentById.
    erewrite (bind_ok_eq (context_get _));
      [|apply context_get_ok; cbn; apply lookup_snoc].
    cbn [comp]. rewrite Hc. cbn [of_option].
    rewrite bind_ret_eq.
    erewrite (bind_ok_eq (comp_get c1)); [|apply comp_get_ok; cbn; exact Hx].
    rewrite Hi. cbn [of_option]. rewrite bind_ret_eq.
    apply (BindToArgument_ok _ v x m p); cbn; assumption. }
  cbn. split; [reflexivity|]. split; [apply lookup_snoc|].
  apply list_lookup_insert_eq. exact Hlt.
Qed.

Lemma a_context_keeps_the_computation_it_was_created_under_witness :
  exists rt1 rt2,
    odla_CreateContext (demo_runtime debug_build)
    = Ok (Some ODLA_SUCCESS, length (contexts (demo_runtime debug_build))) rt1
    /\ (odla_SetActiveComputation None;;;
        odla_BindToArgumentById "x" (caller_ptr 9)
          (length (contexts (demo_runtime debug_build)))) rt1
       = Ok (Some ODLA_SUCCESS) rt2.
Proof.
  assert (Hc : g_comp (demo_runtime debug_build) = Some 0%nat)
    by (vm_compute; reflexivity).
  assert (Hx : exists cx, g_comps (demo_runtime debug_build) !! 0%nat = Some cx
                          /\ inputs cx !! "x"%string = Some 0%nat)
    by (vm_compute; eexists; split; reflexivity).
  destruct Hx as (cx & Hx & Hi).
  assert (Hv : values (demo_runtime debug_build) !! 0%nat
               = Some {| mem := 0%nat; is_const := false;
                         value_shape := shape_of [2; 3; 4]; name := "x" |})
    by (vm_compute; reflexivity).
  assert (Hm : memories (demo_runtime debug_build) !! 0%nat
               = Some {| mem_desc := desc_by_strides [2; 3; 4] f32 [12; 4; 1];
                         data_handle := engine_ptr 0 |})
    by (vm_compute; reflexivity).
  destruct (a_context_keeps_the_computation_it_was_created_under
              (demo_runtime debug_build) 0%nat cx "x"%string 0%nat _ _
              (caller_ptr 9) None Hc Hx Hi Hv Hm)
    as (rt1 & rt2 & H1 & H2 & _).
  exists rt1, rt2. split; assumption.
Defined.

Lemma context_get_destroyed {A} ctx (k : _odla_context -> M A) rt :
  bind (context_get ctx) k (with_contexts (fun l => <[ctx := None]> l) rt) = Undefined.
Proof.
  unfold bind at 1, context_get, bind, get. cbn [contexts with_contexts].
  destruct (decide (ctx < length (contexts rt))%nat) as [Hlt|Hge].
  - rewrite list_lookup_insert_eq by exact Hlt. reflexivity.
  - rewrite list_insert_ge by lia.
    rewrite lookup_ge_None_2 by lia. reflexivity.
Qed.

(** X22: [odla_DestroyContext] frees a live context and nothing keeps
    track of that: every later call that reads the context, which are
    [odla_ExecuteComputation], [odla_BindToArgumentById] and
    [odla_BindToOutputById], is outside defined behaviour, while
    [odla_BindToArgument] and [odla_BindToOutput], which never read their
    context, behave as before the destruction. *)
Theorem a_destroyed_context_cannot_be_used
    (lib : library) (rt : runtime) (ctx : odla_context) (cc : _odla_context)
    (c : odla_computation) (nm : string) (v : odla_value) (p : pointer) :
  contexts rt !! ctx = Some (Some cc) ->
  (odla_DestroyContext ctx;;; odla_ExecuteComputation lib c ctx) rt = Undefined
  /\ (odla_DestroyContext ctx;;; odla_BindToArgumentById nm p ctx) rt = Undefined
  /\ (odla_DestroyContext ctx;;; odla_BindToOutputById nm p ctx) rt = Undefined
  /\ (forall s rt1, odla_BindToArgument v p rt = Ok s rt1 ->
        exists rt2, (odla_DestroyContext ctx;;; odla_BindToArgument v p) rt = Ok s rt2
                    /\ memories rt2 = memories rt1 /\ bytes rt2 = bytes rt1)
  /\ (forall s rt1, odla_BindToOutput v p rt = Ok s rt1 ->
        exists rt2, (odla_DestroyContext ctx;;; odla_BindToOutput v p) rt = Ok s rt2
                    /\ memories rt2 = memories rt1 /\ bytes rt2 = bytes rt1).
Proof.
  intros _.
  assert (Hd : forall A (k : M A),
             (odla_DestroyContext ctx;;; k) rt
             = k (with_contexts (fun l => <[ctx := None]> l) rt))
    by reflexivity.
  rewrite !Hd.
  split; [unfold odla_ExecuteComputation, ensure_stream;
          rewrite bind_assoc; apply context_get_destroyed|].
  split; [apply context_get_destroyed|].
  split; [apply context_get_destroyed|].
  split.
  - intros s rt1 H.
    unfold odla_BindToArgument in *.
    apply bind_Ok in H as (x & rt0 & Hx & H).
    unfold value_get, bind, get, of_option in Hx.
    destruct (values rt !! v) as [x0|] eqn:Hv; [|discriminate].
    injection Hx as <- <-.
    apply bind_Ok in H as ([] & rt0 & Hs & H). injection H as <- <-.
    unfold set_data_handle in Hs.
    apply bind_Ok in Hs as (m & rt3 & Hm & Hs).
    unfold memory_get, bind, get, of_option in Hm.
    destruct (memories rt !! mem x0) as [m0|] eqn:Hm0; [|discriminate].
    injection Hm as <- <-. injection Hs as <-.
    eexists. split.
    + erewrite (bind_ok_eq (value_get v)); [|apply value_get_ok; cbn; exact Hv].
      erewrite (bind_ok_eq (set_data_handle _ _));
        [|apply set_data_handle_ok; cbn; exact Hm0].
      reflexivity.
    + split; reflexivity.
  - intros s rt1 H.
    unfold odla_BindToOutput in *.
    apply bind_Ok in H as (x & rt0 & Hx & H).
    unfold value_get, bind, get, of_option in Hx.
    destruct (values rt !! v) as [x0|] eqn:Hv; [|discriminate].
    injection Hx as <- <-.
    apply bind_Ok in H as ([] & rt0 & Hs & H). injection H as <- <-.
    erewrite (bind_ok_eq (value_get v)); [|apply value_get_ok; cbn; exact Hv].
    destruct (is_const x0).
    + apply bind_Ok in Hs as (m & rt3 & Hm & Hs).
      unfold memory_get, bind, get, of_option in Hm.
      destruct (memories rt !! mem x0) as [m0|] eqn:Hm0; [|discriminate].
      injection Hm as <- <-. injection Hs as <-.
      eexists. split.
      * erewrite (bind_ok_eq (bind (memory_get _) _)).
        -- reflexivity.
        -- erewrite (bind_ok_eq (memory_get _));
             [|apply memory_get_ok; cbn; exact Hm0].
           reflexivity.
      * split; reflexivity.
    + unfold set_data_handle in Hs.
      apply bind_Ok in Hs as (m & rt3 & Hm & Hs).
      unfold memory_get, bind, get, of_option in Hm.
      destruct (memories rt !! mem x0) as [m0|] eqn:Hm0; [|discriminate].
      injection Hm as <- <-. injection Hs as <-.
      eexists. split.
      * erewrite (bind_ok_eq (set_data_handle _ _));
          [|apply set_data_handle_ok; cbn; exact Hm0].
        reflexivity.
      * split; reflexivity.
Qed.

Lemma a_destroyed_context_cannot_be_used_witness :
  (odla_DestroyContext 0%nat;;;
   odla_ExecuteComputation plain_library 0%nat 0%nat) (demo_with_context debug_build)
  = Undefined
  /\ exists rt2,
       (odla_DestroyContext 0%nat;;; odla_BindToArgument 0%nat (caller_ptr 9))
         (demo_with_context debug_build) = Ok (Some ODLA_SUCCESS) rt2.
Proof.
  assert (Hb : exists rt1, odla_BindToArgument 0%nat (caller_ptr 9)
                             (demo_with_context debug_build)
                           = Ok (Some ODLA_SUCCESS) rt1)
    by (vm_compute; eexists; reflexivity).
  destruct Hb as [rt1 Hb].
  assert (Hk : contexts (demo_with_context debug_build) !! 0%nat
               = Some (Some {| comp := Some 0%nat; stream := false |}))
    by (vm_compute; reflexivity).
  destruct (a_destroyed_context_cannot_be_used plain_library
              (demo_with_context debug_build) 0%nat _ 0%nat "x"%string 0%nat
              (caller_ptr 9) Hk) as (He & _ & _ & Ha & _).
  split; [exact He|].
  destruct (Ha _ _ Hb) as (rt2 & H2 & _). exists rt2. exact H2.
Defined.

(** What [InterpretIfNeeded] does to the contexts in immediate mode. *)
Lemma InterpretIfNeeded_context cfg lib rt rt1 :
  immediate cfg rt ->
  InterpretIfNeeded cfg lib rt = Ok tt rt1 ->
  interpreter_context rt1
  = Some (match interpreter_context rt with
          | Some k => k
          | None => length (contexts rt)
          end)
  /\ length (contexts rt1)
     = (match interpreter_context rt with
        | Some _ => length (contexts rt)
        | None => S (length (contexts rt))
        end).
Proof.
  intros [Hb Hm] H. unfold InterpretIfNeeded in H. rewrite Hb in H.
  apply bind_Ok in H as (rt0 & rt0' & Hg & H).
  unfold get in Hg. injection Hg as <- <-. rewrite Hm in H. cbn [negb] in H.
  apply bind_Ok in H as (ctx & rt2 & Hctx & H).
  apply bind_Ok in H as ([] & rt3 & Hens & H).
  apply bind_Ok in H as (c & rt4 & Hc & H).
  apply bind_Ok in H as ([] & rt5 & He & H).
  apply bind_Ok in H as ([] & rt6 & H6 & H).
  assert (H2 : interpreter_context rt2 = Some ctx
               /\ interpreter_context rt2
                  = Some (match interpreter_context rt with
                          | Some k => k
                          | None => length (contexts rt)
                          end)
               /\ length (contexts rt2)
                  = (match interpreter_context rt with
                     | Some _ => length (contexts rt)
                     | None => S (length (contexts rt))
                     end)).
  { destruct (interpreter_context rt) as [k|] eqn:Hk.
    - injection Hctx as <- <-. rewrite Hk. repeat split.
    - injection Hctx as <- <-. cbn. rewrite length_app. cbn.
      repeat split; f_equal; lia. }
  destruct H2 as (_ & Hi2 & Hl2).
  assert (H3 : interpreter_context rt3 = interpreter_context rt2
               /\ length (contexts rt3) = length (contexts rt2)).
  { unfold ensure_stream in Hens.
    apply bind_Ok in Hens as (x & rt2' & Hx & Hens).
    unfold context_get, bind, get in Hx.
    destruct (contexts rt2 !! ctx) as [[y|]|]; try discriminate.
    injection Hx as <- <-. injection Hens as <-. cbn.
    rewrite length_insert. split; reflexivity. }
  assert (H4 : rt4 = rt3).
  { unfold active, bind, get, of_option in Hc.
    destruct (g_comp rt3); [|discriminate]. injection Hc as _ <-. reflexivity. }
  subst rt4.
  assert (H5 : interpreter_context rt5 = interpreter_context rt3
               /\ contexts rt5 = contexts rt3).
  { apply execute_plan_frame in He as [h He]. subst rt5. split; reflexivity. }
  assert (Hupd : forall f r r', comp_update c f r = Ok tt r' ->
                   interpreter_context r' = interpreter_context r
                   /\ contexts r' = contexts r).
  { intros f r r' Hu. unfold comp_update in Hu.
    apply bind_Ok in Hu as (x & r0 & Hx & Hu).
    unfold comp_get, bind, get, of_option in Hx.
    destruct (g_comps r !! c); [|discriminate].
    injection Hx as <- <-. injection Hu as <-. split; reflexivity. }
  destruct (Hupd _ _ _ H6) as [Hi6 Hc6].
  destruct (Hupd _ _ _ H) as [Hi7 Hc7].
  destruct H3 as [Hi3 Hl3]. destruct H5 as [Hi5 Hc5].
  split; [congruence|]. rewrite Hc7, Hc6, Hc5, Hl3. exact Hl2.
Qed.

(** X23: the context of immediate mode is created once. The first
    [InterpretIfNeeded] that returns in immediate mode creates it when
    none exists and records it; every later one finds it recorded and
    creates nothing, so two consecutive immediate executions leave at
    most one more context than there was, and the second leaves the
    number of contexts as it found it. *)
Theorem the_immediate_context_is_created_once
    (cfg : build) (lib : library) (rt rt1 rt2 : runtime) :
  immediate cfg rt ->
  InterpretIfNeeded cfg lib rt = Ok tt rt1 ->
  InterpretIfNeeded cfg lib rt1 = Ok tt rt2 ->
  interpreter_context rt1 <> None
  /\ interpreter_context rt2 = interpreter_context rt1
  /\ length (contexts rt2) = length (contexts rt1)
  /\ (interpreter_context rt = None ->
      interpreter_context rt1 = Some (length (contexts rt))
      /\ length (contexts rt1) = S (length (contexts rt)))
  /\ (interpreter_context rt <> None ->
      interpreter_context rt1 = interpreter_context rt
      /\ length (contexts rt1) = length (contexts rt)).
Proof.
  intros Him H1 H2.
  assert (Him1 : immediate cfg rt1).
  { destruct Him as [Hb Hm]. split; [exact Hb|].
    rewrite (km_InterpretIfNeeded cfg lib _ _ _ H1). exact Hm. }
  destruct (InterpretIfNeeded_context cfg lib rt rt1 Him H1) as [Hi1 Hl1].
  destruct (InterpretIfNeeded_context cfg lib rt1 rt2 Him1 H2) as [Hi2 Hl2].
  rewrite Hi1 in Hi2, Hl2.
  split; [rewrite Hi1; discriminate|].
  split; [congruence|]. split; [exact Hl2|].
  split.
  - intros Hn. rewrite Hn in Hi1, Hl1. split; assumption.
  - intros Hn. destruct (interpreter_context rt); [|contradiction].
    split; assumption.
Qed.

Lemma the_immediate_context_is_created_once_witness :
  exists rt1 rt2,
    InterpretIfNeeded interpreter_build plain_library (demo_runtime interpreter_build)
    = Ok tt rt1
    /\ InterpretIfNeeded interpreter_build plain_library rt1 = Ok tt rt2
    /\ length (contexts rt2) = length (contexts rt1).
Proof.
  assert (Hi : immediate interpreter_build (demo_runtime interpreter_build))
    by (split; vm_compute; reflexivity).
  assert (Hr : exists rt1 rt2,
             InterpretIfNeeded interpreter_build plain_library
               (demo_runtime interpreter_build) = Ok tt rt1
             /\ InterpretIfNeeded interpreter_build plain_library rt1 = Ok tt rt2)
    by (vm_compute; eexists _, _; split; reflexivity).
  destruct Hr as (rt1 & rt2 & H1 & H2).
  exists rt1, rt2. split; [exact H1|]. split; [exact H2|].
  exact (proj1 (proj2 (proj2
    (the_immediate_context_is_created_once interpreter_build plain_library
       _ rt1 rt2 Hi H1 H2)))).
Defined.

End DataMore.

(* ===================================================================== *)
(** ** Invariants of the process state *)
(* ===================================================================== *)

Module InvariantMore.
Import Dnnl Odla Notions Across ShapeFacts RegistryFacts ModeFacts AssertionFacts
  TransposeFacts BindingMore ExecutionMore OperatorMore DataMore.

(** *** The plan stays balanced *)

Lemma triple_ret {A} P (a : A) : triple P (ret a) P.
Proof. intros rt b rt' HP H. injection H as _ <-. exact HP. Qed.

Lemma triple_get P : triple P get P.
Proof. intros rt b rt' HP H. injection H as _ <-. exact HP. Qed.

Lemma triple_undefined {A} P Q : triple P (@undefined A) Q.
Proof. intros rt b rt' _ H. discriminate. Qed.

Lemma triple_abort {A} P Q : triple P (@abort A) Q.
Proof. intros rt b rt' _ H. discriminate. Qed.

Lemma triple_of_option {A} P (o : option A) : triple P (of_option o) P.
Proof. destruct o; [apply triple_ret|apply triple_undefined]. Qed.

Lemma triple_bind {A B} P Q R (m : M A) (k : A -> M B) :
  triple P m Q -> (forall a, triple Q (k a) R) -> triple P (bind m k) R.
Proof.
  intros Hm Hk rt b rt' HP H. apply bind_Ok in H as (a & rt1 & H1 & H2).
  exact (Hk a rt1 b rt' (Hm rt a rt1 HP H1) H2).
Qed.

Lemma skewed_modify d f :
  (forall rt, g_comps (f rt) = g_comps rt /\ g_comp (f rt) = g_comp rt) ->
  triple (skewed d) (modify f) (skewed d).
Proof.
  intros Hf rt b rt' HP H. injection H as H. subst rt'.
  destruct (Hf rt) as [H1 H2]. intros c cx Hx.
  rewrite H1 in Hx. rewrite H2. exact (HP c cx Hx).
Qed.

Lemma skewed_insert d d' rt c x y :
  skewed d rt ->
  g_comps rt !! c = Some x ->
  (length (primitives y) + length (args x)
   + (if decide (g_comp rt = Some c) then d else 0)
   = length (primitives x) + length (args y)
     + (if decide (g_comp rt = Some c) then d' else 0))%nat ->
  (forall c0, c0 <> c -> (if decide (g_comp rt = Some c0) then d else 0%nat)
                         = (if decide (g_comp rt = Some c0) then d' else 0%nat)) ->
  skewed d' (with_g_comps (fun l => <[c := y]> l) rt).
Proof.
  intros HP Hx Hlen Hoth c0 cx0 H0. cbn in *.
  destruct (decide (c0 = c)) as [->|Hne].
  - rewrite list_lookup_insert_eq in H0 by (eapply lookup_lt_Some; eauto).
    injection H0 as <-. pose proof (HP c x Hx) as Hb. lia.
  - rewrite list_lookup_insert_ne in H0 by congruence.
    rewrite <- (Hoth c0 Hne). exact (HP c0 cx0 H0).
Qed.

Lemma skewed_comp_update_keep d c f :
  (forall x, primitives (f x) = primitives x /\ args (f x) = args x) ->
  triple (skewed d) (comp_update c f) (skewed d).
Proof.
  intros Hf rt b rt' HP H. unfold comp_update in H.
  apply bind_Ok in H as (x & rt0 & Hx & H).
  unfold comp_get, bind, get, of_option in Hx.
  destruct (g_comps rt !! c) as [x0|] eqn:Hl; [|discriminate].
  injection Hx as <- <-. injection H as H. subst rt'.
  destruct (Hf x0) as [Hp Ha].
  apply (skewed_insert d d rt c x0 (f x0) HP Hl).
  - rewrite Hp, Ha. lia.
  - reflexivity.
Qed.

Lemma skewed_push_primitive d p :
  triple (skewed d) (push_primitive p) (skewed (S d)).
Proof.
  intros rt b rt' HP H. unfold push_primitive in H.
  apply bind_Ok in H as (c & rt0 & Hc & H).
  unfold active, bind, get, of_option in Hc.
  destruct (g_comp rt) as [c0|] eqn:Hg; [|discriminate].
  injection Hc as <- <-.
  unfold comp_update in H.
  apply bind_Ok in H as (x & rt0 & Hx & H).
  unfold comp_get, bind, get, of_option in Hx.
  destruct (g_comps rt !! c0) as [x0|] eqn:Hl; [|discriminate].
  injection Hx as <- <-. injection H as H. subst rt'.
  apply (skewed_insert d (S d) rt c0 x0 _ HP Hl).
  - cbn. rewrite length_app. cbn. rewrite Hg, !decide_True by reflexivity. lia.
  - intros c1 Hne. rewrite Hg. rewrite !decide_False by congruence. reflexivity.
Qed.

Lemma skewed_push_args d a :
  triple (skewed (S d)) (push_args a) (skewed d).
Proof.
  intros rt b rt' HP H. unfold push_args in H.
  apply bind_Ok in H as (c & rt0 & Hc & H).
  unfold active, bind, get, of_option in Hc.
  destruct (g_comp rt) as [c0|] eqn:Hg; [|discriminate].
  injection Hc as <- <-.
  unfold comp_update in H.
  apply bind_Ok in H as (x & rt0 & Hx & H).
  unfold comp_get, bind, get, of_option in Hx.
  destruct (g_comps rt !! c0) as [x0|] eqn:Hl; [|discriminate].
  injection Hx as <- <-. injection H as H. subst rt'.
  apply (skewed_insert (S d) d rt c0 x0 _ HP Hl).
  - cbn. rewrite length_app. cbn. rewrite Hg, !decide_True by reflexivity. lia.
  - intros c1 Hne. rewrite Hg. rewrite !decide_False by congruence. reflexivity.
Qed.

Ltac sk_step :=
  first
    [ apply triple_ret | apply triple_get | apply triple_undefined
    | apply triple_abort | apply triple_of_option
    | apply skewed_push_primitive | apply skewed_push_args
    | apply skewed_comp_update_keep; intros; split; reflexivity
    | apply skewed_modify; intros; split; reflexivity
    | eapply triple_bind; [|intros]
    | match goal with
      | |- triple _ (if ?b then _ else _) _ => destruct b
      | |- triple _ (match ?o with _ => _ end) _ => destruct o
      end ].

Ltac sk :=
  repeat first
    [ sk_step
    | progress unfold odla_CreateContext, ensure_stream,
        context_get, execute_plan, execute_now, assert_, divides_check,
        getNCHWDims, getOIHWDims, getGOIHWDims, getFormatTag_of,
        CreateValue, alloc_memory, new_memory, set_data_handle,
        value_update, value_get, memory_get, comp_get, active ].

(** In immediate mode the two lists of the active computation are
    cleared together; otherwise nothing happens. *)
Lemma skewed_InterpretIfNeeded cfg lib :
  triple (skewed 0%nat) (InterpretIfNeeded cfg lib) (skewed 0%nat).
Proof.
  unfold InterpretIfNeeded.
  destruct (ODLA_DNNL_BUILD_AS_INTERPRETER cfg); [|apply triple_ret].
  eapply triple_bind; [apply triple_get|intros rt0].
  destruct (negb (g_interpret_mode rt0)); [apply triple_ret|].
  eapply triple_bind; [sk|intros ctx].
  eapply triple_bind; [sk|intros _].
  intros rt b rt' HP H.
  apply bind_Ok in H as (c & rt1 & Hc & H).
  unfold active, bind, get, of_option in Hc.
  destruct (g_comp rt) as [c0|] eqn:Hg; [|discriminate].
  injection Hc as <- <-.
  apply bind_Ok in H as ([] & rt2 & He & H).
  apply execute_plan_frame in He as [h He]. subst rt2.
  apply bind_Ok in H as ([] & rt3 & H3 & H).
  unfold comp_update in H3, H.
  apply bind_Ok in H3 as (x & rt0' & Hx & H3).
  unfold comp_get, bind, get, of_option in Hx. cbn in Hx.
  destruct (g_comps rt !! c0) as [x0|] eqn:Hl; [|discriminate].
  injection Hx as <- <-. injection H3 as H3. subst rt3.
  apply bind_Ok in H as (y & rt0' & Hy & H).
  unfold comp_get, bind, get, of_option in Hy. cbn in Hy.
  rewrite list_lookup_insert_eq in Hy by (eapply lookup_lt_Some; eauto).
  injection Hy as <- <-. injection H as H. subst rt'.
  intros c1 cx1 H1. cbn in H1 |- *.
  rewrite list_insert_insert_eq in H1.
  destruct (decide (c1 = c0)) as [->|Hne].
  - rewrite list_lookup_insert_eq in H1 by (eapply lookup_lt_Some; eauto).
    injection H1 as <-. cbn. rewrite Hg. destruct (decide _); reflexivity.
  - rewrite list_lookup_insert_ne in H1 by congruence.
    exact (HP c1 cx1 H1).
Qed.

Ltac bal :=
  repeat first
    [ apply skewed_InterpretIfNeeded
    | sk_step
    | progress unfold odla_CreateContext, ensure_stream,
        context_get, execute_plan, execute_now, assert_, divides_check,
        getNCHWDims, getOIHWDims, getGOIHWDims, getFormatTag_of,
        CreateValue, alloc_memory, new_memory, set_data_handle,
        value_update, value_get, memory_get, comp_get, active ].

Lemma balanced_iff rt :
  balanced rt
  <-> forall c cx, g_comps rt !! c = Some cx -> length (primitives cx) = length (args cx).
Proof.
  unfold balanced, skewed. split; intros H c cx Hx; specialize (H c cx Hx).
  - destruct (decide _) in H; lia.
  - destruct (decide _); lia.
Qed.

Lemma balanced_CreateComputation want :
  triple balanced (odla_CreateComputation want) balanced.
Proof.
  intros rt b rt' HP H. injection H as _ H. subst rt'.
  apply balanced_iff. intros c cx Hx. cbn in Hx.
  apply lookup_app_Some in Hx as [Hx|[_ Hx]].
  - exact (proj1 (balanced_iff rt) HP c cx Hx).
  - destruct (c - length (g_comps rt))%nat; [|destruct n; discriminate].
    injection Hx as <-. reflexivity.
Qed.

Lemma balanced_SetActiveComputation c :
  triple balanced (odla_SetActiveComputation c) balanced.
Proof.
  intros rt b rt' HP H. injection H as _ H. subst rt'.
  apply balanced_iff. intros c0 cx Hx.
  exact (proj1 (balanced_iff rt) HP c0 cx Hx).
Qed.

Lemma balanced_initial cfg : balanced (initial_runtime cfg).
Proof.
  apply balanced_iff. unfold initial_runtime.
  destruct (ODLA_DNNL_BUILD_AS_INTERPRETER cfg); intros c cx Hx; cbn in Hx.
  - destruct c as [|c]; [|destruct c; discriminate].
    injection Hx as <-. reflexivity.
  - destruct c; discriminate.
Qed.

(** X24: the plan of every computation stays balanced. The initial
    state has as many primitives as argument maps in every computation,
    and every call of the API that returns keeps it so: an operator
    pushes its primitives and their argument maps in pairs, and immediate
    execution clears both lists together. So, in any state reached by
    calls of the API, the loop of [odla_ExecuteComputation] finds an
    argument map for each primitive and the call returns
    [ODLA_SUCCESS]. *)
Theorem every_call_keeps_the_plan_balanced (cfg : build) (lib : library) :
  balanced (initial_runtime cfg)
  /\ (forall want, triple balanced (odla_CreateComputation want) balanced)
  /\ (forall c, triple balanced (odla_SetActiveComputation c) balanced)
  /\ (forall c, triple balanced (odla_DestroyComputation c) balanced)
  /\ (forall v, triple balanced (odla_GetValueType v) balanced)
  /\ (forall c o, triple balanced (odla_ConfigTargetOptions c o) balanced)
  /\ triple balanced odla_CreateContext balanced
  /\ (forall ctx, triple balanced (odla_DestroyContext ctx) balanced)
  /\ (forall c ctx, triple balanced (odla_ExecuteComputation lib c ctx) balanced)
  /\ (forall ty id, triple balanced (odla_CreateArgument ty id) balanced)
  /\ (forall ty id, triple balanced (odla_CreateValue cfg ty id) balanced)
  /\ (forall ty p id, triple balanced (odla_CreateConstant ty p id) balanced)
  /\ (forall v p, triple balanced (odla_BindToArgument v p) balanced)
  /\ (forall nm p ctx, triple balanced (odla_BindToArgumentById nm p ctx) balanced)
  /\ (forall v p, triple balanced (odla_SetValueData cfg v p) balanced)
  /\ (forall v p, triple balanced (odla_GetValueData cfg v p) balanced)
  /\ (forall v, triple balanced (odla_SetValueAsOutput v) balanced)
  /\ (forall v p, triple balanced (odla_BindToOutput v p) balanced)
  /\ (forall nm p ctx, triple balanced (odla_BindToOutputById nm p ctx) balanced)
  /\ (forall l r id, triple balanced (odla_Add cfg lib l r id) balanced)
  /\ (forall l r id, triple balanced (odla_Mul cfg lib l r id) balanced)
  /\ (forall v id, triple balanced (odla_Sigmoid cfg lib v id) balanced)
  /\ (forall v p o id, triple balanced (odla_Transpose v p o id) balanced)
  /\ (forall v o id, triple balanced (odla_Reshape v o id) balanced)
  /\ (forall input il group kernel kl strides dilations pf pb bias odims id,
        triple balanced
          (odla_Conv cfg lib input il group kernel kl strides dilations pf pb
             bias odims id) balanced)
  /\ (forall input il group kernel kl strides dilations pf pb bias odims id,
        triple balanced
          (odla_DeConv cfg lib input il group kernel kl strides dilations pf pb
             bias odims id) balanced)
  /\ (forall lhs tl rhs tr bias odims id,
        triple balanced (odla_Gemm cfg lib lhs tl rhs tr bias odims id) balanced)
  /\ (forall rt c cx ctx cc,
        balanced rt ->
        g_comps rt !! c = Some cx ->
        contexts rt !! ctx = Some (Some cc) ->
        exists rt', odla_ExecuteComputation lib c ctx rt = Ok (Some ODLA_SUCCESS) rt').
Proof.
  split; [apply balanced_initial|].
  split; [intros; apply balanced_CreateComputation|].
  split; [intros; apply balanced_SetActiveComputation|].
  unfold balanced.
  split; [intros; unfold odla_DestroyComputation; bal|].
  split; [intros; unfold odla_GetValueType; bal|].
  split; [intros; unfold odla_ConfigTargetOptions; bal|].
  split; [unfold odla_CreateContext; bal|].
  split; [intros; unfold odla_DestroyContext; bal|].
  split; [intros; unfold odla_ExecuteComputation; bal|].
  split; [intros; unfold odla_CreateArgument; bal|].
  split; [intros; unfold odla_CreateValue, odla_CreateArgument; bal|].
  split; [intros; unfold odla_CreateConstant; bal|].
  split; [intros; unfold odla_BindToArgument; bal|].
  split; [intros; unfold odla_BindToArgumentById, odla_BindToArgument; bal|].
  split; [intros; unfold odla_SetValueData; bal|].
  split; [intros; unfold odla_GetValueData; bal|].
  split; [intros; unfold odla_SetValueAsOutput; bal|].
  split; [intros; unfold odla_BindToOutput; bal|].
  split; [intros; unfold odla_BindToOutputById, odla_BindToOutput; bal|].
  split; [intros; unfold odla_Add, binary_eltwise; bal|].
  split; [intros; unfold odla_Mul, binary_eltwise; bal|].
  split; [intros; unfold odla_Sigmoid; bal|].
  split; [intros; unfold odla_Transpose; bal|].
  split; [intros; unfold odla_Reshape; bal|].
  split; [intros; unfold odla_Conv, lower_convolution, odla_Add, binary_eltwise; bal|].
  split; [intros; unfold odla_DeConv, lower_convolution, odla_Add, binary_eltwise; bal|].
  split; [intros; unfold odla_Gemm, odla_Add, binary_eltwise; bal|].
  intros rt c cx ctx cc Hb Hx Hctx.
  pose proof (proj1 (balanced_iff rt) Hb c cx Hx) as Hlen.
  destruct (run_plan_total lib (memories rt) (primitives cx) (args cx) (bytes rt) Hlen)
    as [h Hr].
  eexists. unfold odla_ExecuteComputation.
  rewrite (bind_ok_eq _ _ _ _ _ (ensure_stream_ok _ _ _ Hctx)).
  rewrite (bind_ok_eq _ _ _ _ _
             (execute_plan_ok lib c (with_contexts _ rt) cx h Hx Hr)).
  reflexivity.
Qed.

Lemma every_call_keeps_the_plan_balanced_witness :
  exists rt1 rt2,
    odla_CreateContext (initial_runtime interpreter_build)
    = Ok (Some ODLA_SUCCESS, 0%nat) rt1
    /\ odla_ExecuteComputation plain_library 0%nat 0%nat rt1
       = Ok (Some ODLA_SUCCESS) rt2.
Proof.
  destruct (every_call_keeps_the_plan_balanced interpreter_build plain_library)
    as (H0 & _ & _ & _ & _ & _ & Hctx & _ & _ & _ & _ & _ & _ & _ & _ & _ & _ & _
        & _ & _ & _ & _ & _ & _ & _ & _ & _ & Hexec).
  eexists. 
  assert (H1 : odla_CreateContext (initial_runtime interpreter_build)
               = Ok (Some ODLA_SUCCESS, 0%nat)
                    (state_after odla_CreateContext (initial_runtime interpreter_build)))
    by reflexivity.
  pose proof (Hctx _ _ _ H0 H1) as Hb.
  destruct (Hexec _ 0%nat new_computation 0%nat
              {| comp := Some 0%nat; stream := false |} Hb eq_refl eq_refl)
    as [rt2 H2].
  exists rt2. split; [exact H1|exact H2].
Defined.

(** *** No output is ever registered *)








(** *** Lowering only adds *)

Lemma grows_refl rt : grows rt rt.
Proof.
  split; [exists []; rewrite app_nil_r; reflexivity|].
  split; [intros v x Hv; exists x; repeat split; exact Hv|].
  repeat split; lia.
Qed.

Lemma grows_trans rt1 rt2 rt3 : grows rt1 rt2 -> grows rt2 rt3 -> grows rt1 rt3.
Proof.
  intros ([l1 Hm1] & Hv1 & Hc1 & Hl1 & Hn1) ([l2 Hm2] & Hv2 & Hc2 & Hl2 & Hn2).
  split; [exists (l1 ++ l2); rewrite Hm2, Hm1, app_assoc; reflexivity|].
  split.
  { intros v x Hv. destruct (Hv1 v x Hv) as (x' & Hx' & Hs & Hn & Hk).
    destruct (Hv2 v x' Hx') as (x'' & Hx'' & Hs' & Hn' & Hk').
    exists x''. repeat split; congruence. }
  repeat split; try congruence. lia.
Qed.

Lemma oa_ret {A} (a : A) : only_adds (ret a).
Proof. intros rt b rt' H. injection H as _ <-. apply grows_refl. Qed.

Lemma oa_get : only_adds get.
Proof. intros rt b rt' H. injection H as _ <-. apply grows_refl. Qed.

Lemma oa_undefined {A} : only_adds (@undefined A).
Proof. intros rt b rt' H. discriminate. Qed.

Lemma oa_abort {A} : only_adds (@abort A).
Proof. intros rt b rt' H. discriminate. Qed.

Lemma oa_of_option {A} (o : option A) : only_adds (of_option o).
Proof. destruct o; [apply oa_ret|apply oa_undefined]. Qed.

Lemma oa_bind {A B} (m : M A) (k : A -> M B) :
  only_adds m -> (forall a, only_adds (k a)) -> only_adds (bind m k).
Proof.
  intros Hm Hk rt b rt' H. apply bind_Ok in H as (a & rt1 & H1 & H2).
  exact (grows_trans _ _ _ (Hm _ _ _ H1) (Hk _ _ _ _ H2)).
Qed.

Lemma oa_modify f : (forall rt, grows rt (f rt)) -> only_adds (modify f).
Proof. intros Hf rt b rt' H. injection H as H. subst rt'. apply Hf. Qed.

Lemma grows_memories_app rt l : grows rt (with_memories (fun m => m ++ l) rt).
Proof.
  split; [exists l; reflexivity|].
  split; [intros v x Hv; exists x; repeat split; exact Hv|].
  repeat split; cbn; lia.
Qed.

Lemma grows_values_app rt l : grows rt (with_values (fun v => v ++ l) rt).
Proof.
  split; [exists []; cbn; rewrite app_nil_r; reflexivity|].
  split.
  { intros v x Hv. exists x. cbn. split; [apply lookup_app_l_Some; exact Hv|].
    repeat split. }
  repeat split; cbn; lia.
Qed.

Lemma grows_g_comps_insert rt c y :
  grows rt (with_g_comps (fun l => <[c := y]> l) rt).
Proof.
  split; [exists []; cbn; rewrite app_nil_r; reflexivity|].
  split; [intros v x Hv; exists x; repeat split; exact Hv|].
  cbn. rewrite length_insert. repeat split; lia.
Qed.

Lemma grows_same rt rt' :
  memories rt' = memories rt -> values rt' = values rt ->
  g_comp rt' = g_comp rt -> g_comps rt' = g_comps rt ->
  next_buffer rt' = next_buffer rt -> grows rt rt'.
Proof.
  intros Hm Hv Hc Hx Hn.
  split; [exists []; rewrite Hm, app_nil_r; reflexivity|].
  split; [intros v x H; exists x; rewrite Hv; repeat split; exact H|].
  rewrite Hc, Hx, Hn. repeat split; lia.
Qed.

Lemma oa_alloc_memory md : only_adds (alloc_memory md).
Proof.
  intros rt b rt' H. rewrite alloc_memory_ok in H. injection H as _ H. subst rt'.
  split; [eexists; reflexivity|].
  split; [intros v x Hv; exists x; repeat split; exact Hv|].
  repeat split; cbn; lia.
Qed.

Lemma oa_value_update v f :
  (forall x, value_shape (f x) = value_shape x /\ name (f x) = name x
             /\ is_const (f x) = is_const x) ->
  only_adds (value_update v f).
Proof.
  intros Hf rt b rt' H. unfold value_update in H.
  apply bind_Ok in H as (x & rt0 & Hx & H).
  unfold value_get, bind, get, of_option in Hx.
  destruct (values rt !! v) as [x0|] eqn:Hl; [|discriminate].
  injection Hx as <- <-. injection H as H. subst rt'.
  split; [exists []; cbn; rewrite app_nil_r; reflexivity|].
  split.
  { intros v0 y Hv0. cbn. destruct (decide (v0 = v)) as [->|Hne].
    - rewrite list_lookup_insert_eq by (eapply lookup_lt_Some; eauto).
      exists (f x0). split; [reflexivity|].
      assert (y = x0) by congruence. subst y. apply Hf.
    - rewrite list_lookup_insert_ne by congruence.
      exists y. repeat split. exact Hv0. }
  repeat split; cbn; lia.
Qed.

Ltac oa_step :=
  first
    [ apply oa_ret | apply oa_get | apply oa_undefined | apply oa_abort
    | apply oa_of_option
    | apply oa_alloc_memory
    | apply oa_value_update; intros; repeat split; reflexivity
    | apply oa_modify; intros;
        first [ apply grows_memories_app | apply grows_values_app
              | apply grows_g_comps_insert
              | apply grows_same; reflexivity ]
    | apply oa_bind; [|intros]
    | match goal with
      | |- only_adds (if ?b then _ else _) => destruct b
      | |- only_adds (match ?o with _ => _ end) => destruct o
      end ].

Ltac oa :=
  repeat first
    [ oa_step
    | progress unfold InterpretIfNeeded, odla_CreateContext, ensure_stream,
        context_get, execute_plan, execute_now, assert_, divides_check,
        getNCHWDims, getOIHWDims, getGOIHWDims, getFormatTag_of,
        CreateValue, new_memory, push_primitive, push_args,
        value_get, memory_get, comp_update, comp_get, active ].

Lemma oa_CreateConstant ty p id : only_adds (odla_CreateConstant ty p id).
Proof.
  intros rt b rt' H. unfold odla_CreateConstant in H.
  rewrite (bind_ok_eq _ _ _ _ _ (new_memory_ok _ _ _)) in H.
  apply bind_Ok in H as (v & rt2 & Hcv & H).
  assert (Hg : grows rt rt2 /\ v = length (values rt)
               /\ length (values rt2) = S (length (values rt))).
  { unfold CreateValue in Hcv.
    rewrite (bind_ok_eq get _ _ _ _ eq_refl) in Hcv.
    apply bind_Ok in Hcv as ([] & rt3 & H3 & Hcv).
    injection H3 as H3. subst rt3.
    apply bind_Ok in Hcv as (c & rt4 & Hc & Hcv).
    unfold active, bind, get, of_option in Hc. cbn in Hc.
    destruct (g_comp rt) as [c0|]; [|discriminate].
    injection Hc as <- <-.
    apply bind_Ok in Hcv as ([] & rt5 & H5 & Hcv).
    injection Hcv as <- <-.
    unfold comp_update in H5.
    apply bind_Ok in H5 as (x & rt6 & Hx & H5).
    unfold comp_get, bind, get, of_option in Hx. cbn in Hx.
    destruct (g_comps rt !! c0) as [x0|]; [|discriminate].
    injection Hx as <- <-. injection H5 as H5. subst rt5.
    split; [|split; [reflexivity|cbn; rewrite length_app; cbn; lia]].
    eapply grows_trans; [apply grows_memories_app|].
    eapply grows_trans; [apply grows_values_app|].
    apply grows_g_comps_insert. }
  destruct Hg as (Hg & Hv & Hlen).
  apply bind_Ok in H as ([] & rt3 & Hu & H). injection H as _ <-.
  unfold value_update in Hu.
  apply bind_Ok in Hu as (x & rt4 & Hx & Hu).
  unfold value_get, bind, get, of_option in Hx.
  destruct (values rt2 !! v) as [x0|] eqn:Hl; [|discriminate].
  injection Hx as <- <-. injection Hu as Hu. subst rt3.
  destruct Hg as (Hm & Hvals & Hc & Hlc & Hn).
  split; [exact Hm|].
  split.
  { intros v0 y Hv0. cbn.
    assert (v0 <> v).
    { apply lookup_lt_Some in Hv0. lia. }
    rewrite list_lookup_insert_ne by congruence. exact (Hvals v0 y Hv0). }
  repeat split; assumption.
Qed.

(** X25: lowering only adds to the state. Each call that creates a value
    or lowers an operator, and each execution, leaves every memory object
    that existed before as it was, its descriptor and its data handle
    included, with the new ones after them; leaves every value handle
    valid, leading to a value of the same shape, name and constness;
    keeps the active computation and the number of computations, and
    hands no buffer out twice. (The binding calls are not among these:
    they change data handles.) *)
Theorem lowering_only_adds_to_the_state (cfg : build) (lib : library) :
  (forall ty id, only_adds (odla_CreateArgument ty id))
  /\ (forall ty id, only_adds (odla_CreateValue cfg ty id))
  /\ (forall ty p id, only_adds (odla_CreateConstant ty p id))
  /\ (forall v, only_adds (odla_SetValueAsOutput v))
  /\ (forall v p, only_adds (odla_GetValueData cfg v p))
  /\ (forall c ctx, only_adds (odla_ExecuteComputation lib c ctx))
  /\ (forall l r id, only_adds (odla_Add cfg lib l r id))
  /\ (forall l r id, only_adds (odla_Mul cfg lib l r id))
  /\ (forall v id, only_adds (odla_Sigmoid cfg lib v id))
  /\ (forall v p o id, only_adds (odla_Transpose v p o id))
  /\ (forall v o id, only_adds (odla_Reshape v o id))
  /\ (forall input il group kernel kl strides dilations pf pb bias odims id,
        only_adds
          (odla_Conv cfg lib input il group kernel kl strides dilations pf pb
             bias odims id))
  /\ (forall input il group kernel kl strides dilations pf pb bias odims id,
        only_adds
          (odla_DeConv cfg lib input il group kernel kl strides dilations pf pb
             bias odims id))
  /\ (forall lhs tl rhs tr bias odims id,
        only_adds (odla_Gemm cfg lib lhs tl rhs tr bias odims id)).
Proof.
  split; [intros; unfold odla_CreateArgument; oa|].
  split; [intros; unfold odla_CreateValue, odla_CreateArgument; oa|].
  split; [intros; apply oa_CreateConstant|].
  split; [intros; unfold odla_SetValueAsOutput; oa|].
  split; [intros; unfold odla_GetValueData; oa|].
  split; [intros; unfold odla_ExecuteComputation; oa|].
  split; [intros; unfold odla_Add, binary_eltwise; oa|].
  split; [intros; unfold odla_Mul, binary_eltwise; oa|].
  split; [intros; unfold odla_Sigmoid; oa|].
  split; [intros; unfold odla_Transpose; oa|].
  split; [intros; unfold odla_Reshape; oa|].
  split; [intros; unfold odla_Conv, lower_convolution, odla_Add, binary_eltwise; oa|].
  split; [intros; unfold odla_DeConv, lower_convolution, odla_Add, binary_eltwise; oa|].
  intros; unfold odla_Gemm, odla_Add, binary_eltwise; oa.
Qed.

Lemma lowering_only_adds_to_the_state_witness :
  exists v rt',
    odla_Sigmoid debug_build plain_library 0%nat None (demo_runtime debug_build)
    = Ok v rt'
    /\ grows (demo_runtime debug_build) rt'.
Proof.
  assert (Hr : exists v rt',
             odla_Sigmoid debug_build plain_library 0%nat None
               (demo_runtime debug_build) = Ok v rt')
    by (vm_compute; eexists _, _; reflexivity).
  destruct Hr as (v & rt' & Hr).
  exists v, rt'. split; [exact Hr|].
  destruct (lowering_only_adds_to_the_state debug_build plain_library)
    as (_ & _ & _ & _ & _ & _ & _ & _ & Hs & _).
  exact (Hs 0%nat None _ v rt' Hr).
Defined.

End InvariantMore.

(* ===================================================================== *)
(** ** The matrix product *)
(* ===================================================================== *)

Module GemmMore.
Import Dnnl Odla Notions Across ShapeFacts RegistryFacts ModeFacts AssertionFacts
  TransposeFacts BindingMore ExecutionMore OperatorMore DataMore.

(** X27: [odla_Gemm] asserts that both operands have rank 2 and, in a
    build with assertions, aborts otherwise with the state untouched.
    When it goes on it never reads an extent of the left operand: the
    matrix product is described by [M] and [N] of the declared output
    shape and by [K] of the right operand, with the leading dimensions
    the two transposition flags select. The strided views it builds over
    the operands' buffers are stored but not bound: the argument map
    names the operands' own memory objects. *)
Theorem Gemm_describes_the_product_by_the_output_shape
    (cfg : build) (lib : library) (rt : runtime)
    (c : odla_computation) (cx : _odla_computation)
    (lhs rhs : odla_value) (l r : _odla_value) (lm rm : memory)
    (tl tr : bool) (bias : option odla_value)
    (odims : odla_value_shape) (id : odla_value_id) :
  g_comp rt = Some c ->
  g_comps rt !! c = Some cx ->
  values rt !! lhs = Some l ->
  values rt !! rhs = Some r ->
  memories rt !! mem l = Some lm ->
  memories rt !! mem r = Some rm ->
  let dt := md_data_type (mem_desc lm) in
  let M_ := dim_at odims 0 in
  let N_ := dim_at odims 1 in
  let K_ := if tr then dim_at (value_shape r) 1 else dim_at (value_shape r) 0 in
  let lhs_md := desc_by_strides [M_; K_] dt (if tl then [1; M_] else [K_; 1]) in
  let rhs_md := desc_by_strides [K_; N_] dt (if tr then [1; K_] else [N_; 1]) in
  let ret_md := desc_by_strides [M_; N_] dt [N_; 1] in
  (NDEBUG cfg = false ->
   shape_size (value_shape l) <> 2 \/ shape_size (value_shape r) <> 2 ->
   odla_Gemm cfg lib lhs tl rhs tr bias odims id rt = AssertFail rt)
  /\ (NDEBUG cfg = true
      \/ (shape_size (value_shape l) = 2 /\ shape_size (value_shape r) = 2) ->
      exists rt1 cx1,
        odla_Gemm cfg lib lhs tl rhs tr None odims id rt
        = Ok (length (values rt)) rt1
        /\ g_comps rt1 !! c = Some cx1
        /\ primitives cx1 = primitives cx ++ [prim_matmul lhs_md rhs_md ret_md]
        /\ args cx1
           = args cx ++ [{[ DNNL_ARG_SRC := mem l; DNNL_ARG_WEIGHTS := mem r;
                            DNNL_ARG_DST := length (memories rt) ]}]
        /\ memories rt1
           = memories rt
             ++ [{| mem_desc := ret_md; data_handle := engine_ptr (next_buffer rt) |};
                 {| mem_desc := lhs_md; data_handle := data_handle lm |};
                 {| mem_desc := rhs_md; data_handle := data_handle rm |}]
        /\ values rt1
           = values rt ++ [{| mem := length (memories rt); is_const := false;
                              value_shape := odims;
                              name := match id with
                                      | None => EmptyString
                                      | Some s => s
                                      end |}]
        /\ bytes rt1 = bytes rt).
Proof.
  intros Hc Hx Hl Hr Hlm Hrm dt M_ N_ K_ lhs_md rhs_md ret_md.
  assert (Hlt : (c < length (g_comps rt))%nat) by (eapply lookup_lt_Some; eauto).
  split.
  - intros Hd Hrank. unfold odla_Gemm.
    rewrite (bind_ok_eq _ _ _ _ _ (value_get_ok _ _ _ Hl)).
    rewrite (bind_ok_eq _ _ _ _ _ (value_get_ok _ _ _ Hr)).
    rewrite (bind_ok_eq _ _ _ _ _ (memory_get_ok _ _ _ Hlm)).
    apply bind_abort_eq. unfold assert_. rewrite Hd.
    unfold bind, ret.
    destruct (Z.eqb_spec (shape_size (value_shape l)) 2);
      destruct (Z.eqb_spec (shape_size (value_shape r)) 2);
      try reflexivity.
    destruct Hrank; contradiction.
  - intros Hgo. unfold odla_Gemm.
    rewrite (bind_ok_eq _ _ _ _ _ (value_get_ok _ _ _ Hl)).
    rewrite (bind_ok_eq _ _ _ _ _ (value_get_ok _ _ _ Hr)).
    rewrite (bind_ok_eq _ _ _ _ _ (memory_get_ok _ _ _ Hlm)).
    assert (Ha : assert_ cfg
                   (ret ((shape_size (value_shape l) =? 2)
                         && (shape_size (value_shape r) =? 2))) rt = Ok tt rt).
    { unfold assert_. destruct (NDEBUG cfg); [reflexivity|].
      destruct Hgo as [Hgo|[H1 H2]]; [discriminate|].
      rewrite H1, H2. reflexivity. }
    rewrite (bind_ok_eq _ _ _ _ _ Ha).
    fold dt. cbn [negb].
    replace (if negb tr then dim_at (value_shape r) 0 else dim_at (value_shape r) 1)
      with K_ by (unfold K_; destruct tr; reflexivity).
    fold M_ N_.
    replace (if tl then M_ else K_) with (if tl then M_ else K_) by reflexivity.
    assert (Hlmd : desc_by_strides [M_; K_] dt
                     (if tl then [1; if tl then M_ else K_]
                      else [if tl then M_ else K_; 1]) = lhs_md)
      by (unfold lhs_md; destruct tl; reflexivity).
    assert (Hrmd : desc_by_strides [K_; N_] dt
                     (if tr then [1; if tr then K_ else N_]
                      else [if tr then K_ else N_; 1]) = rhs_md)
      by (unfold rhs_md; destruct tr; reflexivity).
    rewrite Hlmd, Hrmd. fold ret_md.
    rewrite (bind_ok_eq _ _ _ _ _ (alloc_memory_ok _ _)).
    rewrite (bind_ok_eq _ _ _ _ _ (new_memory_ok _ _ _)).
    set (rt2 := with_memories _ (with_memories _ _)).
    assert (Hrm2 : memories rt2 !! mem r = Some rm).
    { unfold rt2. cbn. apply lookup_app_l_Some. apply lookup_app_l_Some. exact Hrm. }
    rewrite (bind_ok_eq _ _ _ _ _ (memory_get_ok rt2 _ _ Hrm2)).
    rewrite (bind_ok_eq _ _ _ _ _ (new_memory_ok _ _ _)).
    set (rt3 := with_memories _ rt2).
    rewrite (bind_ok_eq _ _ _ _ _ (push_primitive_ok rt3 c cx _ Hc Hx)).
    set (rt4 := with_g_comps _ rt3).
    assert (Hx4 : g_comps rt4 !! c
                  = Some (comp_with_plan
                            (primitives cx ++ [prim_matmul lhs_md rhs_md ret_md])
                            (args cx) cx))
      by (apply list_lookup_insert_eq; exact Hlt).
    rewrite (bind_ok_eq _ _ _ _ _ (push_args_ok rt4 c _ _ Hc Hx4)).
    set (rt5 := with_g_comps _ rt4).
    assert (Hx5 : exists y, g_comps rt5 !! c = Some y
                    /\ primitives y = primitives cx ++ [prim_matmul lhs_md rhs_md ret_md]
                    /\ args y = args cx ++ [{[ DNNL_ARG_SRC := mem l;
                                               DNNL_ARG_WEIGHTS := mem r;
                                               DNNL_ARG_DST := length (memories rt) ]}]).
    { eexists. split.
      - unfold rt5. cbn. apply list_lookup_insert_eq.
        rewrite length_insert. exact Hlt.
      - split; reflexivity. }
    destruct Hx5 as (y & Hy & Hyp & Hya).
    rewrite (bind_ok_eq _ _ _ _ _ (CreateValue_ok rt5 c y _ _ _ Hc Hy)).
    eexists _, _. split; [reflexivity|]. cbn.
    split; [apply list_lookup_insert_eq; rewrite !length_insert; exact Hlt|].
    split; [exact Hyp|]. split; [exact Hya|].
    split; [rewrite <- !app_assoc; reflexivity|].
    split; reflexivity.
Qed.

Lemma Gemm_describes_the_product_by_the_output_shape_witness :
  exists rt1,
    odla_Gemm debug_build plain_library 2%nat false 5%nat false None
      (shape_of [2; 2]) None (demo_runtime debug_build)
    = Ok (length (values (demo_runtime debug_build))) rt1.
Proof.
  assert (Hc : g_comp (demo_runtime debug_build) = Some 0%nat)
    by (vm_compute; reflexivity).
  assert (Hx : exists cx, g_comps (demo_runtime debug_build) !! 0%nat = Some cx)
    by (vm_compute; eexists; reflexivity).
  destruct Hx as [cx Hx].
  assert (Hl : values (demo_runtime debug_build) !! 2%nat
               = Some {| mem := 2%nat; is_const := false;
                         value_shape := shape_of [2; 3]; name := "y" |})
    by (vm_compute; reflexivity).
  assert (Hr : values (demo_runtime debug_build) !! 5%nat
               = Some {| mem := 5%nat; is_const := false;
                         value_shape := shape_of [3; 2]; name := "z" |})
    by (vm_compute; reflexivity).
  assert (Hlm : memories (demo_runtime debug_build) !! 2%nat
                = Some {| mem_desc := desc_by_strides [2; 3] f32 [3; 1];
                          data_handle := engine_ptr 1 |})
    by (vm_compute; reflexivity).
  assert (Hrm : memories (demo_runtime debug_build) !! 5%nat
                = Some {| mem_desc := desc_by_strides [3; 2] f32 [2; 1];
                          data_handle := engine_ptr 3 |})
    by (vm_compute; reflexivity).
  destruct (Gemm_describes_the_product_by_the_output_shape debug_build plain_library
              (demo_runtime debug_build) 0%nat cx 2%nat 5%nat _ _ _ _ false false None
              (shape_of [2; 2]) None Hc Hx Hl Hr Hlm Hrm) as [_ Hgo].
  destruct (Hgo (or_intror (conj eq_refl eq_refl))) as (rt1 & cx1 & Hcall & _).
  exists rt1. exact Hcall.
Defined.

End GemmMore.

(* ===================================================================== *)
(** ** Graph building outside immediate mode *)
(* ===================================================================== *)

Module DeferredMore.
Import Dnnl Odla Notions Across ShapeFacts RegistryFacts ModeFacts AssertionFacts
  TransposeFacts BindingMore ExecutionMore OperatorMore DataMore InvariantMore.

Lemma triple_modify_inv P f :
  (forall rt, P rt -> P (f rt)) -> triple P (modify f) P.
Proof. intros Hf rt b rt' HP H. injection H as H. subst rt'. apply Hf. exact HP. Qed.

Lemma quiet_InterpretIfNeeded cfg lib h :
  triple (fun rt => ~ immediate cfg rt /\ bytes rt = h)
         (InterpretIfNeeded cfg lib)
         (fun rt => ~ immediate cfg rt /\ bytes rt = h).
Proof.
  intros rt b rt' [Hni Hb] H.
  rewrite InterpretIfNeeded_compiled in H.
  - injection H as _ <-. split; assumption.
  - unfold immediate in Hni.
    destruct (ODLA_DNNL_BUILD_AS_INTERPRETER cfg); [|left; reflexivity].
    destruct (g_interpret_mode rt); [|right; reflexivity].
    exfalso. apply Hni. split; reflexivity.
Qed.

Ltac quiet_step :=
  first
    [ apply quiet_InterpretIfNeeded
    | apply triple_ret | apply triple_get | apply triple_undefined
    | apply triple_abort | apply triple_of_option
    | apply triple_modify_inv; intros ? Hquiet; exact Hquiet
    | eapply triple_bind; [|intros]
    | match goal with
      | |- triple _ (if ?b then _ else _) _ => destruct b
      | |- triple _ (match ?o with _ => _ end) _ => destruct o
      end ].

Ltac quiet :=
  repeat first
    [ quiet_step
    | progress unfold assert_, divides_check, set_data_handle,
        getNCHWDims, getOIHWDims, getGOIHWDims, getFormatTag_of,
        CreateValue, alloc_memory, new_memory, push_primitive, push_args,
        value_update, value_get, memory_get, comp_update, comp_get, active ].

(** X28: outside immediate mode, building a graph moves no data.
    Creating arguments and constants, marking outputs, binding an
    argument and lowering an addition, a multiplication, a sigmoid, a
    transposition, a reshape or a matrix product each return with every
    byte of every buffer as it was, and outside immediate mode still.
    (The convolutions are not among these: they reorder their weights
    while the graph is built.) *)
Theorem deferred_lowering_moves_no_data
    (cfg : build) (lib : library) (h : heap) :
  let quiet := fun rt => ~ immediate cfg rt /\ bytes rt = h in
  (forall ty id, triple quiet (odla_CreateArgument ty id) quiet)
  /\ (forall ty p id, triple quiet (odla_CreateConstant ty p id) quiet)
  /\ (forall v, triple quiet (odla_SetValueAsOutput v) quiet)
  /\ (forall v p, triple quiet (odla_BindToArgument v p) quiet)
  /\ (forall l r id, triple quiet (odla_Add cfg lib l r id) quiet)
  /\ (forall l r id, triple quiet (odla_Mul cfg lib l r id) quiet)
  /\ (forall v id, triple quiet (odla_Sigmoid cfg lib v id) quiet)
  /\ (forall v p o id, triple quiet (odla_Transpose v p o id) quiet)
  /\ (forall v o id, triple quiet (odla_Reshape v o id) quiet)
  /\ (forall lhs tl rhs tr bias odims id,
        triple quiet (odla_Gemm cfg lib lhs tl rhs tr bias odims id) quiet).
Proof.
  intros quiet. unfold quiet.
  split; [intros; unfold odla_CreateArgument; quiet|].
  split; [intros; unfold odla_CreateConstant; quiet|].
  split; [intros; unfold odla_SetValueAsOutput; quiet|].
  split; [intros; unfold odla_BindToArgument; quiet|].
  split; [intros; unfold odla_Add, binary_eltwise; quiet|].
  split; [intros; unfold odla_Mul, binary_eltwise; quiet|].
  split; [intros; unfold odla_Sigmoid; quiet|].
  split; [intros; unfold odla_Transpose; quiet|].
  split; [intros; unfold odla_Reshape; quiet|].
  intros; unfold odla_Gemm, odla_Add, binary_eltwise; quiet.
Qed.

Lemma deferred_lowering_moves_no_data_witness :
  exists v rt',
    odla_Sigmoid debug_build plain_library 0%nat None (demo_runtime debug_build)
    = Ok v rt'
    /\ bytes rt' = bytes (demo_runtime debug_build).
Proof.
  assert (Hr : exists v rt',
             odla_Sigmoid debug_build plain_library 0%nat None
               (demo_runtime debug_build) = Ok v rt')
    by (vm_compute; eexists _, _; reflexivity).
  destruct Hr as (v & rt' & Hr).
  exists v, rt'. split; [exact Hr|].
  destruct (deferred_lowering_moves_no_data debug_build plain_library
              (bytes (demo_runtime debug_build)))
    as (_ & _ & _ & _ & _ & _ & Hs & _).
  refine (proj2 (Hs 0%nat None (demo_runtime debug_build) v rt' _ Hr)).
  split; [|reflexivity]. intros [Hb _]. discriminate.
Defined.

End DeferredMore.

(* ===================================================================== *)
(** ** What the lowering calls do to existing values *)
(* ===================================================================== *)

Module ConvMore.
Import Dnnl Odla Notions Across ShapeFacts RegistryFacts ModeFacts AssertionFacts
  TransposeFacts BindingMore ExecutionMore OperatorMore DataMore InvariantMore
  DeferredMore.

(** The rules below watch one value handle [u]: the state predicate is
    that [u] leads to a value that satisfies [phi]. *)














End ConvMore.

(* ===================================================================== *)
(** ** The splat loop of [Constant], in general *)
(* ===================================================================== *)

Module ConstantMore.
Import Halo ConstantFacts.

Lemma concat_repeat_length (pat : list Byte.byte) (k : nat) :
  length (concat (repeat pat k)) = (k * length pat)%nat.
Proof. induction k as [|k IH]; simpl; [reflexivity|]. rewrite length_app, IH. lia. Qed.

Lemma concat_repeat_snoc (pat : list Byte.byte) (k : nat) :
  concat (repeat pat (S k)) = concat (repeat pat k) ++ pat.
Proof.
  induction k as [|k IH]; simpl; [rewrite app_nil_r; reflexivity|].
  simpl in IH. rewrite <- app_assoc. f_equal. exact IH.
Qed.

Lemma skipn_repeat_zero (k n : nat) :
  skipn k (repeat Byte.x00 n) = repeat Byte.x00 (n - k).
Proof.
  revert n. induction k as [|k IH]; intros n.
  - rewrite Nat.sub_0_r. reflexivity.
  - destruct n; [reflexivity|]. simpl. apply IH.
Qed.

(** One step of the loop on a buffer that holds [k] copies of the
    pattern followed by zero bytes. *)
Lemma copy_at_pattern (pat : list Byte.byte) (n k : nat) :
  (S k * length pat <= n)%nat ->
  copy_at (concat (repeat pat k) ++ repeat Byte.x00 (n - k * length pat))
          (k * length pat) pat
  = concat (repeat pat (S k)) ++ repeat Byte.x00 (n - S k * length pat).
Proof.
  intros Hle. unfold copy_at.
  rewrite firstn_app, concat_repeat_length, Nat.sub_diag, firstn_O, app_nil_r.
  rewrite firstn_all2 by (rewrite concat_repeat_length; lia).
  rewrite skipn_app, concat_repeat_length.
  rewrite skipn_all2 by (rewrite concat_repeat_length; lia).
  replace (k * length pat + length pat - k * length pat)%nat with (length pat) by lia.
  rewrite skipn_repeat_zero.
  rewrite concat_repeat_snoc, <- app_assoc. simpl.
  do 3 f_equal. lia.
Qed.

(** When the bound is a multiple of the element size the loop stops at
    it, after one copy per element size in the bound. *)
Lemma splat_loop_multiple src b n q k fuel :
  (0 < b)%nat -> (q * b <= n)%nat -> (k <= q)%nat -> (q - k < fuel)%nat ->
  splat_loop fuel src b (q * b) (k * b)
    (concat (repeat (read src b) k) ++ repeat Byte.x00 (n - k * b))
  = Some (Built (concat (repeat (read src b) q) ++ repeat Byte.x00 (n - q * b))).
Proof.
  intros Hb Hq. revert k.
  induction fuel as [|fuel IH]; intros k Hk Hf; [lia|].
  cbn [splat_loop].
  destruct (Nat.eqb_spec (k * b) (q * b)) as [Heq|Hne].
  - assert (k = q) by nia. subst k. reflexivity.
  - assert (Hlt : (k < q)%nat) by (destruct (Nat.eq_dec k q); [subst; lia|lia]).
    assert (Hfit : (S k * b <= n)%nat) by nia.
    rewrite length_app, concat_repeat_length, read_length, repeat_length.
    destruct (Nat.leb_spec (k * b + b) (k * b + (n - k * b))) as [_|Hgt]; [|lia].
    pose proof (copy_at_pattern (read src b) n k) as Hc.
    rewrite read_length in Hc. rewrite Hc by exact Hfit.
    replace (k * b + b)%nat with (S k * b)%nat by lia.
    apply IH; lia.
Qed.

(** When it is not, the counter steps over the bound and the loop goes
    on until a copy no longer fits. *)
Lemma splat_loop_overruns src b e fuel :
  (0 < b)%nat -> (e mod b)%nat <> 0%nat ->
  forall i data,
    (i mod b)%nat = 0%nat -> (i <= length data)%nat -> (length data + 1 <= fuel + i)%nat ->
    splat_loop fuel src b e i data = Some OutOfBounds.
Proof.
  intros Hb He.
  induction fuel as [|fuel IH]; intros i data Hi Hle Hf; [lia|].
  cbn [splat_loop].
  destruct (Nat.eqb_spec i e) as [->|_]; [contradiction|].
  destruct (Nat.leb_spec (i + b) (length data)) as [Hfit|_]; [|reflexivity].
  apply IH.
  - rewrite <- Nat.Div0.add_mod_idemp_l, Hi. simpl. apply Nat.Div0.mod_same.
  - rewrite copy_at_length by (rewrite read_length; lia). lia.
  - rewrite copy_at_length by (rewrite read_length; lia). lia.
Qed.

(** X26: the data buffer of a splatted [Constant], for every size. The
    loop counts bytes in steps of the element size up to the number of
    elements [e = bytes / byte_per_element]. If [e] is a multiple of the
    element size the buffer holds the pattern [e / byte_per_element]
    times, at the front, and zero bytes after the first [e] bytes; if it
    is not, the counter steps over [e] and the loop writes past the end
    of the buffer. An element size of zero divides by zero. Whenever the
    buffer is built it has [bytes] bytes. *)
Theorem Constant_splat_in_general
    (bytes byte_per_element : nat) (src : nat -> Byte.byte) :
  let e := Nat.div bytes byte_per_element in
  Constant bytes byte_per_element src true
  = Some (if Nat.eqb byte_per_element 0 then DivisionByZero
          else if Nat.eqb (e mod byte_per_element)%nat 0 then
            Built (concat (repeat (read src byte_per_element) (Nat.div e byte_per_element))
                   ++ repeat Byte.x00 (bytes - e))
          else OutOfBounds)
  /\ (forall do_splat data,
        Constant bytes byte_per_element src do_splat = Some (Built data) ->
        length data = bytes)
  /\ (2 <= byte_per_element <= bytes ->
      Nat.div e byte_per_element < e)%nat.
Proof.
  intros e.
  assert (Hmain :
    Constant bytes byte_per_element src true
    = Some (if Nat.eqb byte_per_element 0 then DivisionByZero
            else if Nat.eqb (e mod byte_per_element)%nat 0 then
              Built (concat (repeat (read src byte_per_element)
                               (Nat.div e byte_per_element))
                     ++ repeat Byte.x00 (bytes - e))
            else OutOfBounds)).
  { unfold Constant. cbn [negb].
    destruct (Nat.eqb_spec byte_per_element 0) as [Hz|Hnz]; [reflexivity|].
    fold e.
    assert (Hb : (0 < byte_per_element)%nat) by lia.
    assert (He : (e <= bytes)%nat)
      by (unfold e; apply Nat.Div0.div_le_upper_bound; nia).
    destruct (Nat.eqb_spec (e mod byte_per_element)%nat 0) as [Hd|Hnd].
    - set (q := Nat.div e byte_per_element).
      assert (Heq : e = (q * byte_per_element)%nat).
      { unfold q. pose proof (Nat.div_mod_eq e byte_per_element). lia. }
      pose proof (splat_loop_multiple src byte_per_element bytes q 0 (S bytes)
                    Hb ltac:(lia) ltac:(lia) ltac:(nia)) as H.
      cbn [repeat concat app Nat.mul] in H. rewrite Nat.sub_0_r in H.
      rewrite <- Heq in H. exact H.
    - apply splat_loop_overruns; try assumption.
      + apply Nat.Div0.mod_0_l.
      + lia.
      + rewrite repeat_length. lia. }
  split; [exact Hmain|].
  split.
  - intros do_splat data H. destruct do_splat.
    + rewrite Hmain in H.
      destruct (Nat.eqb byte_per_element 0); [discriminate|].
      destruct (Nat.eqb_spec (e mod byte_per_element)%nat 0) as [Hd|]; [|discriminate].
      injection H as <-.
      assert (He : (e <= bytes)%nat).
      { unfold e. destruct byte_per_element; [simpl; lia|].
        apply Nat.Div0.div_le_upper_bound. nia. }
      rewrite length_app, concat_repeat_length, read_length, repeat_length.
      pose proof (Nat.div_mod_eq e byte_per_element). lia.
    + rewrite Constant_copies_verbatim in H. injection H as <-.
      apply read_length.
  - intros [H2 Hle].
    assert (He : (1 <= e)%nat).
    { unfold e. apply Nat.div_le_lower_bound; lia. }
    apply Nat.div_lt; lia.
Qed.

Lemma Constant_splat_in_general_witness :
  (exists data, Constant 16 4 one_float true = Some (Built data)
                /\ length data = 16%nat)
  /\ (Nat.div (Nat.div 16 4) 4 < Nat.div 16 4)%nat.
Proof.
  destruct (Constant_splat_in_general 16 4 one_float) as (Hc & Hl & Hn).
  split.
  - eexists. split; [exact Hc|]. apply (Hl true). exact Hc.
  - apply Hn. lia.
Defined.

End ConstantMore.

(* ===================================================================== *)
(** ** Layouts as views of a row-major buffer *)
(* ===================================================================== *)

Module LayoutMore.
Import Dnnl Odla Notions Across ShapeFacts RegistryFacts ModeFacts AssertionFacts
  TransposeFacts ShapeMore.

(** X30: the channels-last and spatial-first layouts are lowered as views
    of the caller's row-major buffer. For a shape of rank 4 with extents
    [d], the descriptor built from the extents [getNCHWDims] returns and
    the tag of [ODLA_CHANNELS_LAST] has the extents and the row-major
    strides of [d], both reordered as 0,3,1,2; the one built from the
    extents [getOIHWDims] returns and the tag of [ODLA_SIO] without
    groups has them reordered as 3,2,0,1. So the element the library
    finds at a reordered multi-index is the element the caller stored at
    the original multi-index. [ODLA_CHANNELS_FIRST] and [ODLA_OIS] without
    groups use the extents as they are, with their row-major strides. *)
Theorem layout_views_address_the_row_major_buffer
    (cfg : build) (s : odla_value_shape) (dt : data_type) (rt : runtime) :
  shape_size s = 4 ->
  let d := getDims s in
  exists a b,
    getNCHWDims cfg s rt = Ok a rt
    /\ getOIHWDims cfg s rt = Ok b rt
    /\ (forall g t,
          getFormatTag_layout ODLA_CHANNELS_LAST g = Some t ->
          desc_by_tag (getDims a) dt t
          = desc_by_strides (permute [0; 3; 1; 2] d) dt
              (permute [0; 3; 1; 2] (row_major d)))
    /\ (forall g t,
          g <= 1 ->
          getFormatTag_layout ODLA_SIO g = Some t ->
          desc_by_tag (getDims b) dt t
          = desc_by_strides (permute [3; 2; 0; 1] d) dt
              (permute [3; 2; 0; 1] (row_major d)))
    /\ (forall g t,
          getFormatTag_layout ODLA_CHANNELS_FIRST g = Some t
          \/ (g <= 1 /\ getFormatTag_layout ODLA_OIS g = Some t) ->
          desc_by_tag d dt t = desc_by_strides d dt (row_major d))
    /\ (forall idx,
          length idx = 4%nat ->
          offset (permute [0; 3; 1; 2] (row_major d)) (permute [0; 3; 1; 2] idx)
          = offset (row_major d) idx
          /\ offset (permute [3; 2; 0; 1] (row_major d)) (permute [3; 2; 0; 1] idx)
             = offset (row_major d) idx).
Proof.
  intros Hs d.
  assert (Ha : assert_ cfg (ret (shape_size s =? 4)) rt = Ok tt rt).
  { unfold assert_. destruct (NDEBUG cfg); [reflexivity|].
    unfold bind, ret. rewrite Hs. reflexivity. }
  assert (Hd : d = [dim_at s 0; dim_at s 1; dim_at s 2; dim_at s 3])
    by (apply getDims_four; exact Hs).
  eexists _, _.
  split; [unfold getNCHWDims; rewrite (bind_ok_eq _ _ _ _ _ Ha); reflexivity|].
  split; [unfold getOIHWDims; rewrite (bind_ok_eq _ _ _ _ _ Ha); reflexivity|].
  cbn [shape_size shape_dims].
  rewrite !(getDims_literal _ _ _ _ _ Hs).
  split.
  { intros g t Ht. injection Ht as <-. rewrite Hd.
    unfold desc_by_tag, desc_by_strides, tag_nhwc. cbn.
    unfold packed_strides, permute. simpl. do 2 apply f_equal.
    repeat (apply f_equal2; [ring|]). reflexivity. }
  split.
  { intros g t Hg Ht. cbn in Ht.
    destruct (Z.ltb_spec 1 g); [lia|]. injection Ht as <-. rewrite Hd.
    unfold desc_by_tag, desc_by_strides, tag_hwio. cbn.
    unfold packed_strides, permute. simpl. do 2 apply f_equal.
    repeat (apply f_equal2; [ring|]). reflexivity. }
  split.
  { intros g t [Ht|[Hg Ht]]; cbn in Ht.
    - injection Ht as <-. rewrite Hd.
      unfold desc_by_tag, desc_by_strides, tag_nchw. cbn.
      unfold packed_strides, permute. simpl. do 2 apply f_equal.
    repeat (apply f_equal2; [ring|]). reflexivity.
    - destruct (Z.ltb_spec 1 g); [lia|]. injection Ht as <-. rewrite Hd.
      unfold desc_by_tag, desc_by_strides, tag_oihw. cbn.
      unfold packed_strides, permute. simpl. do 2 apply f_equal.
    repeat (apply f_equal2; [ring|]). reflexivity. }
  intros idx Hl.
  assert (Hr : length (row_major d) = 4%nat)
    by (rewrite row_major_length, Hd; reflexivity).
  split; apply offset_permute_both; rewrite ?Hr; try (symmetry; exact Hl).
  - change (zrange 4) with ([0] ++ [1; 2; 3]).
    apply perm_skip.
    change [3; 1; 2] with ([3] ++ [1; 2]). change [1; 2; 3] with ([1; 2] ++ [3]).
    apply Permutation_app_comm.
  - change (zrange 4) with ([0; 1] ++ [2; 3]).
    change [3; 2; 0; 1] with ([3; 2] ++ [0; 1]).
    etransitivity; [apply Permutation_app_comm|].
    apply Permutation_app_head. apply perm_swap.
Qed.

Lemma layout_views_address_the_row_major_buffer_witness :
  exists a,
    getNCHWDims debug_build (shape_of [1; 4; 4; 3]) (demo_runtime debug_build)
    = Ok a (demo_runtime debug_build)
    /\ desc_by_tag (getDims a) f32 tag_nhwc
       = desc_by_strides [1; 3; 4; 4] f32 [48; 1; 12; 3].
Proof.
  destruct (layout_views_address_the_row_major_buffer debug_build
              (shape_of [1; 4; 4; 3]) f32 (demo_runtime debug_build) eq_refl)
    as (a & b & Ha & _ & Hl & _).
  exists a. split; [exact Ha|].
  exact (Hl 1 tag_nhwc eq_refl).
Defined.

End LayoutMore.
